(** * Backtest statistics and reporting of the DRL crypto portfolio manager

    A shallow embedding of [src/make_train_histograms.py],
    [src/plot_train_results.py] and the functions of
    [deep_rl_portfolio.py] ([main], what it calls, and the branches of the
    main block; how [argparse] reads the command line is left out).

    Conventions of the embedding:
    - Python floats are modelled by exact real numbers ([R]).  A value that
      numpy or pandas would give as [nan] or [inf] (a mean of no values, a
      division by zero) has no counterpart here: where a theorem below meets
      such an expression it says that the code computes that expression
      and nothing about its value.  Where a product of floats is truncated
      to an integer the rounding of the product is kept ([float_mul]).
    - The runs of a history are records that carry every key the code
      reads; the module [Raw] follows the same functions over histories
      whose runs may lack keys, and relates the two.
    - Standard output ([print], [pprint]) is left out.
    - A Python [dict] is an insertion-ordered association list with
      pairwise distinct keys ([dict_wf]).
    - A Python exception is a value of [exn]; a function that can raise
      returns an [outcome]; a function that also saves figures runs in the
      monad [M]. *)

From Stdlib Require Import Reals Lra List String Ascii ZArith Lia Bool.
Import ListNotations.

Local Open Scope R_scope.

(* ================================================================= *)
(** ** Python runtime: exceptions, outcomes, the effect monad *)

Module Py.

Inductive exn : Type :=
| IndexError
| KeyError
| TypeError
| ValueError
| UnboundLocalError
| FileNotFoundError
| JSONDecodeError.

Inductive outcome (A : Type) : Type :=
| Ok (a : A)
| Raise (e : exn).
Arguments Ok {A} a.
Arguments Raise {A} e.

(** [x < y] on floats. *)
Definition Rltb (x y : R) : bool := if Rlt_dec x y then true else false.

Definition obind {A B} (x : outcome A) (f : A -> outcome B) : outcome B :=
  match x with
  | Ok a => f a
  | Raise e => Raise e
  end.

(** A computation that may raise and that threads a state [S] (here: the
    figures saved so far).  The state survives a raise, as the files
    written before a Python exception stay on disk. *)
Definition M (S A : Type) : Type := S -> outcome A * S.

Definition ret {S A} (a : A) : M S A := fun s => (Ok a, s).

Definition bind {S A B} (m : M S A) (f : A -> M S B) : M S B :=
  fun s =>
    match m s with
    | (Ok a, s') => f a s'
    | (Raise e, s') => (Raise e, s')
    end.

Definition lift {S A} (x : outcome A) : M S A := fun s => (x, s).

Definition modify {S} (f : S -> S) : M S unit := fun s => (Ok tt, f s).

(** [for x in xs: body], with an accumulator, in [outcome]. *)
Fixpoint for_each {A B} (body : B -> A -> outcome B) (xs : list A) (acc : B)
  : outcome B :=
  match xs with
  | [] => Ok acc
  | x :: xs' => obind (body acc x) (for_each body xs')
  end.

(** [l[i]] for [0 <= i]. *)
Definition getitem {A} (l : list A) (i : nat) : outcome A :=
  match nth_error l i with
  | Some a => Ok a
  | None => Raise IndexError
  end.

(** [l[-1]]. *)
Definition getitem_last {A} (l : list A) : outcome A :=
  match rev l with
  | a :: _ => Ok a
  | [] => Raise IndexError
  end.

(** [l[n:]] for an arbitrary integer [n]: a negative [n] counts from the
    end, and the start is clipped to the list. *)
Definition slice_from {A} (n : Z) (l : list A) : list A :=
  if (0 <=? n)%Z then skipn (Z.to_nat n) l
  else skipn (Z.to_nat (Z.max 0 (Z.of_nat (List.length l) + n))) l.

(** *** Insertion-ordered dictionaries with string keys *)

Definition dict (V : Type) : Type := list (string * V).

Definition keys {V} (d : dict V) : list string := map fst d.
Definition items {V} (d : dict V) : list (string * V) := d.

Fixpoint get {V} (k : string) (d : dict V) : option V :=
  match d with
  | [] => None
  | (k', v) :: d' => if String.eqb k k' then Some v else get k d'
  end.

(** [d[k] = v]: a present key keeps its place, a new key goes last. *)
Fixpoint set {V} (k : string) (v : V) (d : dict V) : dict V :=
  match d with
  | [] => [(k, v)]
  | (k', v') :: d' =>
      if String.eqb k k' then (k', v) :: d' else (k', v') :: set k v d'
  end.

(** [d[k]], raising [KeyError] on a missing key. *)
Definition getitem_key {V} (k : string) (d : dict V) : outcome V :=
  match get k d with
  | Some v => Ok v
  | None => Raise KeyError
  end.

Definition dict_wf {V} (d : dict V) : Prop := NoDup (keys d).

(** [d1] is a sub-dictionary of [d2]: every entry of [d1] is an entry of
    [d2], under the same key and with the same value. *)
Definition subdict {V} (d1 d2 : dict V) : Prop :=
  forall k v, get k d1 = Some v -> get k d2 = Some v.

End Py.
Import Py.

Declare Scope py_scope.
Delimit Scope py_scope with py.
Notation "x <- m ;; k" := (bind m (fun x => k))
  (at level 61, m at next level, right associativity) : py_scope.
Notation "m ;;; k" := (bind m (fun _ => k))
  (at level 61, right associativity) : py_scope.
Notation "x <~ m ;; k" := (obind m (fun x => k))
  (at level 61, m at next level, right associativity) : py_scope.

(* ================================================================= *)
(** ** numpy and the built-in [round], under exact arithmetic *)

Module Np.

Definition sum (xs : list R) : R := fold_right Rplus 0 xs.

(** [np.mean(xs)]: the sum over the number of elements.  For no element
    numpy gives [nan], which the reals do not have: the properties of the
    code below are stated where the mean and the standard deviation are
    those of at least one value. *)
Definition mean (xs : list R) : R := sum xs / INR (List.length xs).

(** [np.std(xs)] with its default [ddof=0]:
    [sqrt(mean(abs(x - x.mean())**2))]. *)
Definition std (xs : list R) : R :=
  sqrt (mean (map (fun x => Rabs (x - mean xs) ^ 2) xs)).

(** Round half to even, to an integer. *)
Definition rint (x : R) : Z :=
  let f := Zfloor x in
  if Rltb (x - IZR f) (1 / 2) then f
  else if Rltb (1 / 2) (x - IZR f) then (f + 1)%Z
  else if Z.even f then f else (f + 1)%Z.

(** [round(x, ndigits)]: the nearest multiple of [10^-ndigits], ties to
    the even one. *)
Definition round (x : R) (ndigits : nat) : R :=
  IZR (rint (x * 10 ^ ndigits)) / 10 ^ ndigits.

End Np.

(* ================================================================= *)
(** ** [os.path.join], [str.replace] and what matplotlib is given *)

Module Os.

Local Open Scope string_scope.

Definition startswith_sep (s : string) : bool :=
  match s with
  | String c _ => Ascii.eqb c "/"
  | EmptyString => false
  end.

Fixpoint endswith_sep (s : string) : bool :=
  match s with
  | EmptyString => false
  | String c EmptyString => Ascii.eqb c "/"
  | String _ s' => endswith_sep s'
  end.

(** One turn of the loop of [posixpath.join]: an absolute component
    replaces the path, any other is added after exactly one separator. *)
Definition join_step (path b : string) : string :=
  if startswith_sep b then b
  else if (String.eqb path "" || endswith_sep path)%bool then path ++ b
  else path ++ "/" ++ b.

(** [os.path.join(a, *p)] *)
Definition path_join (a : string) (p : list string) : string :=
  fold_left join_step p a.

(** [s.replace(old, new)] for single characters. *)
Fixpoint replace_char (old new : ascii) (s : string) : string :=
  match s with
  | EmptyString => EmptyString
  | String c s' =>
      String (if Ascii.eqb c old then new else c) (replace_char old new s')
  end.

End Os.

Module Plt.

(** A cell of the [cellText] of a table. *)
Inductive cell : Type :=
| Text (s : string)
| Num (x : R)
| Count (n : nat)
| NoneCell.

(** [axis.table(cellText=, colLabels=, ...)] *)
Record table : Type := {
  colLabels : list string;
  cellText : list (list cell)
}.

(** What a run leaves behind, in order: the figures saved with
    [plt.savefig] and the windows opened with [plt.show]. *)
Inductive event (F : Type) : Type :=
| Savefig (path : string) (fig : F)
| Show.
Arguments Savefig {F} path fig.
Arguments Show {F}.

Definition savefig {F} (path : string) (fig : F) : M (list (event F)) unit :=
  modify (fun evs => evs ++ [Savefig path fig]).

Definition show {F} : M (list (event F)) unit :=
  modify (fun evs => evs ++ [Show]).

(** The paths of the files written so far. *)
Fixpoint saved_paths {F} (evs : list (event F)) : list string :=
  match evs with
  | [] => []
  | Savefig path _ :: evs' => path :: saved_paths evs'
  | Show :: evs' => saved_paths evs'
  end.

End Plt.

(* ================================================================= *)
(** ** [src/make_train_histograms.py] *)

Module MakeTrainHistograms.

(** The per-agent entry of a run: [{"pf_value":, "mdd":, "sharpe_ratio":}]. *)
Record agent_stats : Type := {
  pf_value : R;
  mdd : R;
  sharpe_ratio : R
}.

(** One run of the training history, the value stored under a timestamp.
    The three keys that the code tests with [in] are optional. *)
Record session_stats : Type := {
  asset_list : list string;
  eq_weight : agent_stats;
  dynamic : agent_stats;
  static : agent_stats;
  initial_weights : list R;
  test_start : option string;
  test_end : option string;
  trading_period_length : option string
}.

Definition history := dict session_stats.

(** The dictionary returned by [aggregate_backtest_stats]. *)
Record backtest_stats : Type := {
  dynamic_pf_values : list R;
  dynamic_mdds : list R;
  dynamic_sharpe_ratios : list R;
  static_pf_values : list R;
  static_mdds : list R;
  static_sharpe_ratios : list R;
  cash_investments : list R;
  crypto_weight_averages : list R;
  crypto_weight_std_devs : list R;
  first_key : string;
  bs_asset_list : list string;
  eq_pf_value : R;
  eq_sharpe_ratio : R;
  eq_mdd : R;
  bs_test_start : string;
  bs_test_end : string;
  bs_trading_period_length : string
}.

(** [any(value < 0 for value in initial_weights)] *)
Definition any_negative (ws : list R) : bool :=
  existsb (fun value => Rltb value 0) ws.

(** [any(value > 0.7 for value in initial_weights)] *)
Definition any_huge (ws : list R) : bool :=
  existsb (fun value => Rltb (7 / 10) value) ws.

(** One turn of the loop of [filter_history_dict]; the two [continue]s
    leave [filtered_history] as it is. *)
Definition filter_step (filtered_history : history)
           (item : string * session_stats) : history :=
  let '(timestamp, train_data) := item in
  let ws := initial_weights train_data in
  if any_negative ws then filtered_history
  else if any_huge ws then filtered_history
  else set timestamp train_data filtered_history.

Definition filter_history_dict (history_dict : history) : history :=
  fold_left filter_step (items history_dict) [].

(** [l.append(a)] *)
Definition append {A} (l : list A) (a : A) : list A := l ++ [a].

(** [if key in session_stats: cur = session_stats[key]] *)
Definition or_keep (o : option string) (cur : string) : string :=
  match o with Some s => s | None => cur end.

(** One turn of the loop of [aggregate_backtest_stats].  Its state is the
    dictionary to return: the nine lists, the values taken from the first
    run, and the three values overwritten by the runs that carry them. *)
Definition aggregate_step (acc : backtest_stats)
           (item : string * session_stats) : outcome backtest_stats :=
  let '(_, session) := item in
  let ws := initial_weights session in
  (cash <~ getitem ws 0 ;;
   let crypto_weights := slice_from 1 ws in
   Ok {| dynamic_pf_values := append (dynamic_pf_values acc) (pf_value (dynamic session));
         dynamic_mdds := append (dynamic_mdds acc) (mdd (dynamic session));
         dynamic_sharpe_ratios :=
           append (dynamic_sharpe_ratios acc) (sharpe_ratio (dynamic session));
         static_pf_values := append (static_pf_values acc) (pf_value (static session));
         static_mdds := append (static_mdds acc) (mdd (static session));
         static_sharpe_ratios :=
           append (static_sharpe_ratios acc) (sharpe_ratio (static session));
         cash_investments := append (cash_investments acc) cash;
         crypto_weight_averages :=
           append (crypto_weight_averages acc) (Np.mean crypto_weights);
         crypto_weight_std_devs :=
           append (crypto_weight_std_devs acc) (Np.std crypto_weights);
         first_key := first_key acc;
         bs_asset_list := bs_asset_list acc;
         eq_pf_value := eq_pf_value acc;
         eq_sharpe_ratio := eq_sharpe_ratio acc;
         eq_mdd := eq_mdd acc;
         bs_test_start := or_keep (test_start session) (bs_test_start acc);
         bs_test_end := or_keep (test_end session) (bs_test_end acc);
         bs_trading_period_length :=
           or_keep (trading_period_length session) (bs_trading_period_length acc)
      |})%py.

Definition aggregate_backtest_stats (filtered_history : history)
  : outcome backtest_stats :=
  (fk <~ getitem (keys filtered_history) 0 ;;
   first <~ getitem_key fk filtered_history ;;
   for_each aggregate_step (items filtered_history)
     {| dynamic_pf_values := [];
        dynamic_mdds := [];
        dynamic_sharpe_ratios := [];
        static_pf_values := [];
        static_mdds := [];
        static_sharpe_ratios := [];
        cash_investments := [];
        crypto_weight_averages := [];
        crypto_weight_std_devs := [];
        first_key := fk;
        bs_asset_list := asset_list first;
        eq_pf_value := pf_value (eq_weight first);
        eq_sharpe_ratio := sharpe_ratio (eq_weight first);
        eq_mdd := mdd (eq_weight first);
        bs_test_start := "NA";
        bs_test_end := "NA";
        bs_trading_period_length := "NA"
     |})%py.

(** *** The report *)

Definition JSON_OUTPUT_DIR : string := "train_jsons/".
Definition HISTOGRAM_OUTPUT_DIR : string := "train_histograms/".

(** The arguments of one call of [_plot_histogram]. *)
Record histogram : Type := {
  h_data : list R;
  h_title : string;
  h_xlabel : string;
  h_num_bins : nat
}.

Definition _plot_histogram (data : list R) (title xlabel : string) : histogram :=
  {| h_data := data; h_title := title; h_xlabel := xlabel; h_num_bins := 15 |}.

(** The four tables that [_plot_histogram_metadata_table] draws. *)
Record metadata_tables : Type := {
  mt_title : string;
  dynamic_table : Plt.table;
  static_table : Plt.table;
  eq_table : Plt.table;
  crypto_table : Plt.table
}.

(** A row [[label, round(np.mean(xs), 4), round(np.std(xs), 4)]]. *)
Definition stat_row (label : string) (xs : list R) : list Plt.cell :=
  [Plt.Text label; Plt.Num (Np.round (Np.mean xs) 4); Plt.Num (Np.round (Np.std xs) 4)].

Definition _plot_histogram_metadata_table
           (n_simulations : nat) (session_name : string) (bs : backtest_stats)
  : metadata_tables :=
  let dynamic_columns := ["Dynamic agent"; "Average"; "Stdev"]%string in
  let dynamic_data :=
    [ stat_row "Ptf. value" (dynamic_pf_values bs);
      stat_row "Sharpe ratio" (dynamic_sharpe_ratios bs);
      stat_row "MDD" (dynamic_mdds bs);
      stat_row "Average of weights" (crypto_weight_averages bs);
      stat_row "Stdev of weights" (crypto_weight_std_devs bs);
      stat_row "Cash weight (BTC)" (cash_investments bs) ] in
  let static_columns := ["Static agent"; "Average"; "Stdev"]%string in
  let static_data :=
    [ stat_row "Ptf. value" (static_pf_values bs);
      stat_row "Sharpe ratio" (static_sharpe_ratios bs);
      stat_row "MDD" (static_mdds bs);
      stat_row "Average of weights" (crypto_weight_averages bs);
      stat_row "Stdev of weights" (crypto_weight_std_devs bs);
      stat_row "Cash weight (BTC)" (cash_investments bs) ] in
  let eq_columns := ["Equal weighted"; "Average"]%string in
  let eq_data :=
    [ [Plt.Text "Ptf. value"; Plt.Num (Np.round (eq_pf_value bs) 4)];
      [Plt.Text "Sharpe ratio"; Plt.Num (Np.round (eq_sharpe_ratio bs) 4)];
      [Plt.Text "MDD"; Plt.Num (Np.round (eq_mdd bs) 4)] ] in
  let crypto_columns := ["Parameter"; "Value"]%string in
  let crypto_table_data :=
    [ [Plt.Text "No. of simulations"; Plt.Count n_simulations];
      [Plt.Text "No. of assets"; Plt.Count (List.length (bs_asset_list bs))];
      [Plt.Text "Start date"; Plt.Text (bs_test_start bs)];
      [Plt.Text "End date"; Plt.Text (bs_test_end bs)];
      [Plt.Text "Trading period"; Plt.Text (bs_trading_period_length bs)] ] in
  {| mt_title :=
       ("[Simulation statistics] " ++ Os.replace_char "_" " " session_name)%string;
     dynamic_table := {| Plt.colLabels := dynamic_columns; Plt.cellText := dynamic_data |};
     static_table := {| Plt.colLabels := static_columns; Plt.cellText := static_data |};
     eq_table := {| Plt.colLabels := eq_columns; Plt.cellText := eq_data |};
     crypto_table :=
       {| Plt.colLabels := crypto_columns; Plt.cellText := crypto_table_data |} |}.

(** The figure that [make_train_histograms] saves. *)
Record figure : Type := {
  fig_tables : metadata_tables;
  fig_histograms : list histogram
}.

Section Report.

(** [open(path, "r")] followed by reading the file: its text, or the
    exception of the operating system. *)
Variable open_read : string -> outcome string.

(** [json.load] on the text of a file: the history, or the exception of
    the parser. *)
Variable json_load : string -> outcome history.

Definition json_path (session_name : string) : string :=
  Os.path_join JSON_OUTPUT_DIR
    [("train_history_" ++ session_name ++ ".json")%string].

Definition output_path (session_name : string) : string :=
  Os.path_join HISTOGRAM_OUTPUT_DIR
    [("histogram_" ++ session_name ++ ".png")%string].

Definition make_train_histograms (session_name : string)
  : M (list (Plt.event figure)) unit :=
  (text <- lift (open_read (json_path session_name)) ;;
   history_dict <- lift (json_load text) ;;
   let filtered_history := filter_history_dict history_dict in
   let n_simulations := List.length filtered_history in
   backtest_stats <- lift (aggregate_backtest_stats filtered_history) ;;
   let tables :=
     _plot_histogram_metadata_table n_simulations session_name backtest_stats in
   let hists :=
     [ _plot_histogram (dynamic_pf_values backtest_stats)
         "Dynamic agent: Distribution of Portfolio Values" "Portfolio value";
       _plot_histogram (static_pf_values backtest_stats)
         "Static agent: Distribution of Portfolio Values" "Portfolio value";
       _plot_histogram (dynamic_sharpe_ratios backtest_stats)
         "Dynamic agent: Distribution of Sharpe Ratios" "Sharpe ratio";
       _plot_histogram (static_sharpe_ratios backtest_stats)
         "Static agent: Distribution of Sharpe Ratios" "Sharpe ratio";
       _plot_histogram (dynamic_mdds backtest_stats)
         "Dynamic agent: Distribution of Maximum Drawdowns" "Maximum drawdown";
       _plot_histogram (static_mdds backtest_stats)
         "Static agent: Distribution of Maximum Drawdowns" "Maximum drawdown";
       _plot_histogram (crypto_weight_averages backtest_stats)
         "Both agents: Distribution of the average of weights" "Average weight";
       _plot_histogram (crypto_weight_std_devs backtest_stats)
         "Both agents: Distribution of the standard deviation of weights"
         "Stdev of weights" ] in
   Plt.savefig (output_path session_name)
     {| fig_tables := tables; fig_histograms := hists |})%py.

End Report.

End MakeTrainHistograms.

(* ================================================================= *)
(** ** pandas: Series with integer labels, [pct_change] *)

Module Pd.

(** A Series whose index holds integer labels, in the order of its
    rows. *)
Definition series : Type := list (nat * R).

Definition values (s : series) : list R := map snd s.

(** [s[label]] on integer labels. *)
Fixpoint loc (label : nat) (s : series) : outcome R :=
  match s with
  | [] => Raise KeyError
  | (l, v) :: s' => if Nat.eqb label l then Ok v else loc label s'
  end.

(** [s.at[label] = v]: an existing label is overwritten, a new one is
    added as the last row. *)
Fixpoint at_set (label : nat) (v : R) (s : series) : series :=
  match s with
  | [] => [(label, v)]
  | (l, v') :: s' =>
      if Nat.eqb label l then (l, v) :: s' else (l, v') :: at_set label v s'
  end.

(** The rows of [xs.pct_change()] after the first: [x / previous - 1]. *)
Fixpoint pct_change_from (prev : R) (xs : list R) : list R :=
  match xs with
  | [] => []
  | x :: xs' => (x / prev - 1) :: pct_change_from x xs'
  end.

(** [xs.pct_change()]; its first row is the missing value [nan]. *)
Definition pct_change (nan : R) (xs : list R) : list R :=
  match xs with
  | [] => []
  | x :: xs' => nan :: pct_change_from x xs'
  end.

(** A Series over a datetime index (seconds since the epoch). *)
Definition timeseries : Type := list (Z * R).

(** [pd.Series(data, index=index)] *)
Definition mk_series (data : list R) (index : list Z) : outcome timeseries :=
  if Nat.eqb (List.length data) (List.length index)
  then Ok (combine index data)
  else Raise ValueError.

End Pd.

(* ================================================================= *)
(** ** [src/plot_train_results.py] *)

Module PlotTrainResults.

Local Open Scope string_scope.

Definition DATA_DIR : string := "crypto_data/".
Definition OUTPUT_DIR : string := "train_graphs/".
Definition CASH_NAME : string := "BTC".

(** The keyword arguments of [main].  The two keys that
    [plot_train_results] tests with [in] are optional. *)
Record train_configs : Type := {
  plot_results : bool;
  portfolio_value : R;
  start_date : string;
  end_date : string;
  trading_period_length : string;
  n_batches : Z;
  n_episodes : Z;
  batch_size : Z;
  window_length : Z;
  no_of_assets : Z;
  train_session_name : option string;
  test_mode : option bool
}.

(** [{"train":, "test":, "validation":}] *)
Record train_test_val_steps : Type := {
  train : Z;
  test : Z;
  validation : Z
}.

Record train_performance : Type := {
  policy_network : list R;
  equal_weighted : list R
}.

(** [test_performance_lists]; its entry ["sharpe_ratios"] is a dictionary
    with the keys ["p_list"] and ["p_list_eq"]. *)
Record test_performance : Type := {
  p_list : list R;
  p_list_eq : list R;
  sharpe_ratios_p_list : R;
  sharpe_ratios_p_list_eq : R;
  w_list : list (list R)
}.

(** What the module takes from outside this repository's sources: the
    clock, the CSV reader, numpy's two-dimensional indexing, pandas'
    missing value, and the constants of [src.params]. *)
Record runtime : Type := {
  nan : R;
  timestamp_now : string;
  (** [pd.read_csv(path)]: the rows [(date, close)], or the exception. *)
  read_csv : string -> outcome (list (Z * R));
  (** [np.array(w_list)[1:, j]] *)
  column_from_1 : list (list R) -> nat -> outcome (list R);
  KERNEL1_SIZE : Z;
  EPSILON_GREEDY_THRESHOLD : R;
  LEARNING_RATE : R;
  MAX_PF_WEIGHT_PENALTY : R
}.

Definition btc_price_fp (t_confs : train_configs) : string :=
  let btc_price_fn :=
    "USDT_BTC_" ++ start_date t_confs ++ "-" ++ end_date t_confs ++ "_"
      ++ trading_period_length t_confs ++ ".csv" in
  Os.path_join DATA_DIR
    ["USDT_BTC"; start_date t_confs ++ "-" ++ end_date t_confs; btc_price_fn].

(** The state of the loop of [_get_btc_price_data_for_period]: the series
    built so far and the loop variable, unbound before the first turn. *)
Definition btc_loop_state : Type := (Pd.series * option nat)%type.

Definition btc_step (btc_data_price_diffs : list R)
           (st : btc_loop_state) (idx : nat) : outcome btc_loop_state :=
  let btc_price_data := fst st in
  (prev_pf_value <~ Pd.loc (idx - 1) btc_price_data ;;
   current_price_diff <~ getitem btc_data_price_diffs idx ;;
   let changed_btc_pf_value := (prev_pf_value * (current_price_diff + 1))%R in
   Ok (Pd.at_set idx changed_btc_pf_value btc_price_data, Some idx))%py.

(** The computation of [_get_btc_price_data_for_period] on the rows of the
    CSV file. *)
Definition btc_series_of_rows (rt : runtime) (t_confs : train_configs)
           (steps : train_test_val_steps) (data : list (Z * R))
  : outcome (Pd.timeseries * R) :=
  let data := map (fun row => (fst row + 7200, snd row)%Z) data in
  let btc_data_test_period := slice_from (train steps + validation steps) data in
  let btc_price_data : Pd.series := [(0%nat, portfolio_value t_confs)] in
  let btc_data_price_diffs := Pd.pct_change (nan rt) (map snd btc_data_test_period) in
  (st <~ for_each (btc_step btc_data_price_diffs)
            (seq 1 (List.length btc_data_price_diffs - 1)) (btc_price_data, None) ;;
   let btc_price_data := fst st in
   match snd st with
   | None => Raise UnboundLocalError
   | Some idx =>
       last <~ Pd.loc idx btc_price_data ;;
       first <~ Pd.loc 0 btc_price_data ;;
       let btc_price_sharpe := ((last - first) / Np.std (Pd.values btc_price_data))%R in
       reindexed <~ Pd.mk_series (Pd.values btc_price_data)
                                 (map fst btc_data_test_period) ;;
       Ok (reindexed, btc_price_sharpe)
   end)%py.

Definition _get_btc_price_data_for_period (rt : runtime)
           (train_configs : train_configs) (steps : train_test_val_steps)
  : outcome (Pd.timeseries * R) :=
  (data <~ read_csv rt (btc_price_fp train_configs) ;;
   btc_series_of_rows rt train_configs steps data)%py.

(** The three lines of the test-set plot. *)
Record value_plot : Type := {
  agent_line : Pd.timeseries;
  equally_weighted_line : Pd.timeseries;
  btc_only_line : Pd.timeseries
}.

Definition _plot_portfolio_value_progress_test
           (test_performance_lists : test_performance)
           (btc_price_data : Pd.timeseries) : outcome value_plot :=
  (p_list_series <~ Pd.mk_series (p_list test_performance_lists)
                                 (map fst btc_price_data) ;;
   p_list_eq_series <~ Pd.mk_series (p_list_eq test_performance_lists)
                                    (map fst btc_price_data) ;;
   Ok {| agent_line := p_list_series;
         equally_weighted_line := p_list_eq_series;
         btc_only_line := btc_price_data |})%py.

Definition _plot_sharpe_table (test_performance_lists : test_performance)
           (btc_price_sharpe : R) (btc_price_data : Pd.timeseries)
  : outcome Plt.table :=
  let columns := ["Strategy"; "MDD"; "fAPV"; "Sharpe"] in
  (p_last <~ getitem_last (p_list test_performance_lists) ;;
   let portfolio_final_value := Np.round p_last 2 in
   p_eq_last <~ getitem_last (p_list_eq test_performance_lists) ;;
   let portfolio_eq_final_value := Np.round p_eq_last 2 in
   btc_last <~ getitem_last (map snd btc_price_data) ;;
   let btc_long_final_value := Np.round btc_last 2 in
   let clust_data :=
     [ [Plt.Text "DRL"; Plt.NoneCell; Plt.Num portfolio_final_value;
        Plt.Num (Np.round (sharpe_ratios_p_list test_performance_lists) 3)];
       [Plt.Text "Equal weight"; Plt.NoneCell; Plt.Num portfolio_eq_final_value;
        Plt.Num (Np.round (sharpe_ratios_p_list_eq test_performance_lists) 3)];
       [Plt.Text "Long Bitcoin"; Plt.NoneCell; Plt.Num btc_long_final_value;
        Plt.Num (Np.round btc_price_sharpe 3)] ] in
   Ok {| Plt.colLabels := columns; Plt.cellText := clust_data |})%py.

(** One turn of the loop of [_plot_weight_evolution]: the line drawn for
    column [j], none for the cash column. *)
Definition weight_step (rt : runtime) (names : list string)
           (w_list : list (list R)) (btc_price_data : Pd.timeseries)
           (lines : list (string * Pd.timeseries)) (j : nat)
  : outcome (list (string * Pd.timeseries)) :=
  (name <~ getitem names j ;;
   if String.eqb name CASH_NAME then Ok lines
   else
     col <~ column_from_1 rt w_list j ;;
     w_list_series <~ Pd.mk_series col (slice_from 1 (map fst btc_price_data)) ;;
     Ok (lines ++ [(name, w_list_series)])%list)%py.

Definition _plot_weight_evolution (rt : runtime) (asset_list : list string)
           (w_list : list (list R)) (btc_price_data : Pd.timeseries)
  : outcome (list (string * Pd.timeseries)) :=
  let names := CASH_NAME :: asset_list in
  for_each (weight_step rt names w_list btc_price_data)
           (seq 0 (List.length asset_list + 1)) [].

(** The values printed by [_plot_train_params]. *)
Record train_params : Type := {
  tp_timestamp : string;
  tp_duration : R;
  tp_start_date : string;
  tp_end_date : string;
  tp_n_batches : Z;
  tp_n_episodes : Z;
  tp_batch_size : Z;
  tp_trading_period : string;
  tp_window_length : Z;
  tp_kernel_size : Z;
  tp_epsilon : R;
  tp_learning_rate : R;
  tp_max_weight_penalty : R
}.

Definition _plot_train_params (rt : runtime) (train_configs : train_configs)
           (train_time_secs : R) (timestamp_now : string) : train_params :=
  {| tp_timestamp := timestamp_now;
     tp_duration := train_time_secs;
     tp_start_date := start_date train_configs;
     tp_end_date := end_date train_configs;
     tp_n_batches := n_batches train_configs;
     tp_n_episodes := n_episodes train_configs;
     tp_batch_size := batch_size train_configs;
     tp_trading_period := trading_period_length train_configs;
     tp_window_length := window_length train_configs;
     tp_kernel_size := KERNEL1_SIZE rt;
     tp_epsilon := EPSILON_GREEDY_THRESHOLD rt;
     tp_learning_rate := LEARNING_RATE rt;
     tp_max_weight_penalty := MAX_PF_WEIGHT_PENALTY rt |}.

(** The figure that [plot_train_results] saves: its four axes. *)
Record figure : Type := {
  ax_value : value_plot;
  ax_sharpe : Plt.table;
  ax_weights : list (string * Pd.timeseries);
  ax_params : train_params
}.

(** Lines 66-73: the name of the output file. *)
Definition output_fn (train_configs : train_configs) (timestamp_now : string)
  : string :=
  match train_session_name train_configs with
  | Some name => name
  | None =>
      match test_mode train_configs with
      | Some true => "test"
      | _ => timestamp_now
      end
  end.

Definition output_path (train_configs : train_configs) (timestamp_now : string)
  : string :=
  Os.path_join OUTPUT_DIR
    ["train_results_" ++ output_fn train_configs timestamp_now ++ ".png"].

Definition plot_train_results (rt : runtime)
           (train_configs : train_configs)
           (train_performance_lists : train_performance)
           (test_performance_lists : test_performance)
           (asset_list : list string)
           (train_time_secs : R)
           (steps : train_test_val_steps)
  : M (list (Plt.event figure)) unit :=
  let timestamp_now := timestamp_now rt in
  (btc <- lift (_get_btc_price_data_for_period rt train_configs steps) ;;
   let btc_price_data := fst btc in
   let btc_price_sharpe := snd btc in
   ax00 <- lift (_plot_portfolio_value_progress_test
                   test_performance_lists btc_price_data) ;;
   ax10 <- lift (_plot_sharpe_table
                   test_performance_lists btc_price_sharpe btc_price_data) ;;
   ax01 <- lift (_plot_weight_evolution rt asset_list
                   (w_list test_performance_lists) btc_price_data) ;;
   let ax11 := _plot_train_params rt train_configs train_time_secs timestamp_now in
   Plt.savefig (output_path train_configs timestamp_now)
     {| ax_value := ax00; ax_sharpe := ax10; ax_weights := ax01; ax_params := ax11 |} ;;;
   if plot_results train_configs then Plt.show else ret tt)%py.

(** *** Calling [plot_train_results] *)

(** The objects that [main] has at hand when it calls. *)
Inductive pyobj : Type :=
| OConfigs (c : train_configs)
| OTrainPerformance (p : train_performance)
| OTestPerformance (p : test_performance)
| OStr (s : string)
| OList (l : list string)
| OFloat (x : R)
| OSteps (s : train_test_val_steps).

(** The parameters of [def plot_train_results(...)]: six, none with a
    default value, no variadic parameter. *)
Definition plot_train_results_params : list string :=
  ["train_configs"; "train_performance_lists"; "test_performance_lists";
   "asset_list"; "train_time_secs"; "train_test_val_steps"].

(** Python binds positional arguments to parameters one to one and raises
    [TypeError] before the body runs when their numbers differ. *)
Definition bind_positional (params : list string) (args : list pyobj)
  : outcome (list (string * pyobj)) :=
  if Nat.eqb (List.length args) (List.length params)
  then Ok (combine params args)
  else Raise TypeError.

(** A call of [plot_train_results] on positional arguments.  The body is
    followed for arguments of the types it is written for; for others it
    fails at their first use, which the model gives as [TypeError] without
    following it further. *)
Definition call_plot_train_results (rt : runtime) (args : list pyobj)
  : M (list (Plt.event figure)) unit :=
  (bound <- lift (bind_positional plot_train_results_params args) ;;
   match map snd bound with
   | [OConfigs c; OTrainPerformance tr; OTestPerformance te; OList al;
      OFloat secs; OSteps st] => plot_train_results rt c tr te al secs st
   | _ => lift (Raise TypeError)
   end)%py.

End PlotTrainResults.

(* ================================================================= *)
(** ** [deep_rl_portfolio.py] *)

Module DeepRlPortfolio.

Import PlotTrainResults.

(** The state of a run: what it has saved and shown so far. *)
Definition run_state : Type := list (Plt.event PlotTrainResults.figure).

(** The constants that the module imports from [src.params], and the
    product of two floats: the exact product rounded to a float.  It is
    kept apart from the exact product where the module truncates a product
    to an integer, since the truncation of the two can differ
    ([int(0.29 * 100)] is 28). *)
Record params : Type := {
  PF_INITIAL_VALUE : R;
  TRADING_COST : R;
  INTEREST_RATE : R;
  RATIO_TRAIN : R;
  RATIO_VAL : R;
  WINDOW_LENGTH : Z;
  float_mul : R -> R -> R
}.

(** The keyword arguments of [TradeEnv]. *)
Record trade_env_args (dataset : Type) : Type := {
  tea_window_length : Z;
  tea_portfolio_value : R;
  tea_trading_cost : R;
  tea_interest_rate : R;
  tea_train_size : R;
  tea_data : dataset
}.
Arguments tea_window_length {dataset}.
Arguments tea_portfolio_value {dataset}.
Arguments tea_trading_cost {dataset}.
Arguments tea_interest_rate {dataset}.
Arguments tea_train_size {dataset}.
Arguments tea_data {dataset}.

(** The dictionary of environments that [_get_train_environments]
    returns. *)
Record trade_envs (dataset env : Type) : Type := {
  env_policy_network : env;
  env_equal_weighted : env;
  env_only_cash : env;
  env_full_on_one_stocks : list env;
  env_args : trade_env_args dataset
}.

(** [int(x)] on a float: truncation towards zero. *)
Definition py_int (x : R) : Z := if Rltb x 0 then Zceil x else Zfloor x.

Definition _get_train_val_test_steps (ps : params) (trading_period : Z)
  : train_test_val_steps :=
  let total_steps_train := py_int (float_mul ps (RATIO_TRAIN ps) (IZR trading_period)) in
  let total_steps_val := py_int (float_mul ps (RATIO_VAL ps) (IZR trading_period)) in
  let total_steps_test := (trading_period - total_steps_train - total_steps_val)%Z in
  {| train := total_steps_train;
     test := total_steps_test;
     validation := total_steps_val |}.

(** [[m for _ in range(n)]] *)
Fixpoint repeat_call {S A} (n : nat) (m : M S A) : M S (list A) :=
  match n with
  | O => ret []
  | Datatypes.S n' => (a <- m ;; l <- repeat_call n' m ;; ret (a :: l))%py
  end.

Section Main.

(** The price tensor, the trading environment, the trained actor and the
    two functions that training returns are opaque to this module. *)
Variables dataset env actor state_fu done_fu : Type.

Variable ps : params.
Variable rt : runtime.

(** [time.time()] at the start and at the end. *)
Variables start_time end_time : R.

(** What the module calls outside [src/], each call free to raise and to
    save figures of its own: [get_crypto_price_tensors.main], the size
    [dataset.shape[2]], the constructor [TradeEnv] and the two
    algorithms. *)
Variable get_crypto_price_tensors_main :
  Z -> string -> string -> string -> M run_state (dataset * list string).
Variable shape_2 : dataset -> Z.
Variable TradeEnv : trade_env_args dataset -> M run_state env.
Variable train_rl_algorithm :
  train_configs -> trade_envs dataset env -> list string -> train_test_val_steps ->
  M run_state (actor * state_fu * done_fu * train_performance).
Variable test_rl_algorithm :
  train_configs -> actor -> state_fu -> done_fu -> trade_envs dataset env ->
  train_test_val_steps -> M run_state test_performance.

Definition _get_train_environments (no_of_assets : Z)
           (trade_env_args : trade_env_args dataset)
  : M run_state (trade_envs dataset env) :=
  (env <- TradeEnv trade_env_args ;;
   env_eq <- TradeEnv trade_env_args ;;
   env_s <- TradeEnv trade_env_args ;;
   env_fu <- repeat_call (Z.to_nat no_of_assets) (TradeEnv trade_env_args) ;;
   ret {| env_policy_network := env;
          env_equal_weighted := env_eq;
          env_only_cash := env_s;
          env_full_on_one_stocks := env_fu;
          env_args := trade_env_args |})%py.

Definition _initialize_trade_envs (train_configs : train_configs)
  : M run_state (trade_envs dataset env * list string * train_test_val_steps) :=
  (loaded <- get_crypto_price_tensors_main
               (no_of_assets train_configs) (start_date train_configs)
               (end_date train_configs) (trading_period_length train_configs) ;;
   let '(dataset, asset_names) := loaded in
   let trade_env_args :=
     {| tea_window_length := window_length train_configs;
        tea_portfolio_value := PF_INITIAL_VALUE ps;
        tea_trading_cost := TRADING_COST ps;
        tea_interest_rate := INTEREST_RATE ps;
        tea_train_size := RATIO_TRAIN ps;
        tea_data := dataset |} in
   let trading_periods := shape_2 dataset in
   let train_test_val_steps := _get_train_val_test_steps ps trading_periods in
   train_envs <- _get_train_environments (no_of_assets train_configs) trade_env_args ;;
   ret (train_envs, asset_names, train_test_val_steps))%py.

Definition main (train_configs : train_configs) : M run_state unit :=
  (init <- _initialize_trade_envs train_configs ;;
   let '(trade_envs, asset_list, train_test_val_steps) := init in
   trained <- train_rl_algorithm train_configs trade_envs asset_list
                train_test_val_steps ;;
   let '(actor, state_fu, done_fu, train_performance_lists) := trained in
   test_performance_lists <- test_rl_algorithm train_configs actor state_fu
                               done_fu trade_envs train_test_val_steps ;;
   let train_time_secs := Np.round (end_time - start_time) 1 in
   if plot_results train_configs then
     call_plot_train_results rt
       [ OConfigs train_configs;
         OTestPerformance test_performance_lists;
         OTrainPerformance train_performance_lists;
         OStr "stocks";
         OList asset_list ]
   else ret tt)%py.

End Main.

End DeepRlPortfolio.

(* ================================================================= *)
(** ** The notions the properties are stated with *)

Module Spec.

Import MakeTrainHistograms.

(** A run is kept when no initial weight lies strictly below 0 and none
    strictly above 0.7. *)
Definition weights_within_bounds (run : session_stats) : Prop :=
  forall value, In value (initial_weights run) -> ~ value < 0 /\ ~ value > 7 / 10.

(** The decision the two tests of [filter_history_dict] take together. *)
Definition keeps (run : session_stats) : bool :=
  negb (any_negative (initial_weights run)) && negb (any_huge (initial_weights run)).

Definition arithmetic_mean (xs : list R) : R :=
  fold_right Rplus 0 xs / INR (List.length xs).

(** The square root of the mean squared deviation from the mean, the
    divisor being the number of values. *)
Definition population_std (xs : list R) : R :=
  sqrt (fold_right Rplus 0 (map (fun x => Rsqr (x - arithmetic_mean xs)) xs)
        / INR (List.length xs)).

(** The runs of a history and the lists of [bs] are parallel: the lists
    of [bs] hold, run after run in the order of iteration, the named
    metrics of the run at that place.  The mean and the standard deviation
    of the weights after the first are those of at least one value: for a
    run with a single weight numpy gives [nan] for both, which has no
    counterpart among the reals, and nothing is said of the two entries. *)
Definition parallel (fh : history) (bs : backtest_stats) : Prop :=
  forall (i : nat) (timestamp : string) (run : session_stats),
    nth_error fh i = Some (timestamp, run) ->
    nth_error (dynamic_pf_values bs) i = Some (pf_value (dynamic run))
    /\ nth_error (dynamic_mdds bs) i = Some (mdd (dynamic run))
    /\ nth_error (dynamic_sharpe_ratios bs) i = Some (sharpe_ratio (dynamic run))
    /\ nth_error (static_pf_values bs) i = Some (pf_value (static run))
    /\ nth_error (static_mdds bs) i = Some (mdd (static run))
    /\ nth_error (static_sharpe_ratios bs) i = Some (sharpe_ratio (static run))
    /\ nth_error (cash_investments bs) i = nth_error (initial_weights run) 0
    /\ ((2 <= List.length (initial_weights run))%nat ->
        nth_error (crypto_weight_averages bs) i
        = Some (arithmetic_mean (tl (initial_weights run)))
        /\ nth_error (crypto_weight_std_devs bs) i
           = Some (population_std (tl (initial_weights run)))).

(** Every list of [bs] has one element per run. *)
Definition one_per_run (fh : history) (bs : backtest_stats) : Prop :=
  let n := List.length fh in
  List.length (dynamic_pf_values bs) = n
  /\ List.length (dynamic_mdds bs) = n
  /\ List.length (dynamic_sharpe_ratios bs) = n
  /\ List.length (static_pf_values bs) = n
  /\ List.length (static_mdds bs) = n
  /\ List.length (static_sharpe_ratios bs) = n
  /\ List.length (cash_investments bs) = n
  /\ List.length (crypto_weight_averages bs) = n
  /\ List.length (crypto_weight_std_devs bs) = n.

(** What the loop of [aggregate_backtest_stats] adds to its state [acc]
    over the runs [l]: one element at the end of each list per run. *)
Definition extended_by (l : history) (acc acc' : backtest_stats) : Prop :=
  dynamic_pf_values acc'
  = dynamic_pf_values acc ++ map (fun it => pf_value (dynamic (snd it))) l
  /\ dynamic_mdds acc' = dynamic_mdds acc ++ map (fun it => mdd (dynamic (snd it))) l
  /\ dynamic_sharpe_ratios acc'
     = dynamic_sharpe_ratios acc ++ map (fun it => sharpe_ratio (dynamic (snd it))) l
  /\ static_pf_values acc'
     = static_pf_values acc ++ map (fun it => pf_value (static (snd it))) l
  /\ static_mdds acc' = static_mdds acc ++ map (fun it => mdd (static (snd it))) l
  /\ static_sharpe_ratios acc'
     = static_sharpe_ratios acc ++ map (fun it => sharpe_ratio (static (snd it))) l
  /\ map Some (cash_investments acc')
     = map Some (cash_investments acc)
       ++ map (fun it => nth_error (initial_weights (snd it)) 0) l
  /\ crypto_weight_averages acc'
     = crypto_weight_averages acc
       ++ map (fun it => Np.mean (tl (initial_weights (snd it)))) l
  /\ crypto_weight_std_devs acc'
     = crypto_weight_std_devs acc
       ++ map (fun it => Np.std (tl (initial_weights (snd it)))) l
  /\ first_key acc' = first_key acc
  /\ bs_asset_list acc' = bs_asset_list acc
  /\ eq_pf_value acc' = eq_pf_value acc
  /\ eq_sharpe_ratio acc' = eq_sharpe_ratio acc
  /\ eq_mdd acc' = eq_mdd acc.

(** *** The BTC buy-and-hold baseline *)

(** The values that follow [prev_value], one per close price after
    [prev_close]: the previous value times one plus the change of the
    close price. *)
Fixpoint baseline_from (prev_value prev_close : R) (closes : list R) : list R :=
  match closes with
  | [] => []
  | c :: cs =>
      let v := prev_value * (c / prev_close - 1 + 1) in
      v :: baseline_from v c cs
  end.

Definition baseline (initial_value : R) (closes : list R) : list R :=
  match closes with
  | [] => []
  | c0 :: cs => initial_value :: baseline_from initial_value c0 cs
  end.

(** The relative change of the close price in period [k], with respect to
    period [k - 1]. *)
Definition pct_change_at (closes : list R) (k : nat) : R :=
  nth k closes 0 / nth (k - 1) closes 0 - 1.

(** The loop variable of [_get_btc_price_data_for_period] after the turns
    for [n] more prices, [m] rows being there already. *)
Definition idx_after (o : option nat) (m n : nat) : option nat :=
  match n with
  | O => o
  | Datatypes.S n' => Some (m + n')%nat
  end.

(** The test segment of the rows of the price file. *)
Definition test_segment (steps : PlotTrainResults.train_test_val_steps)
           (data : list (Z * R)) : list (Z * R) :=
  skipn (Z.to_nat (PlotTrainResults.train steps + PlotTrainResults.validation steps))
        data.

(** The gain of a series from its first to its last value, over the
    population standard deviation of the whole series. *)
Definition gain_over_volatility (values : list R) : R :=
  (last values 0 - hd 0 values) / population_std values.

(** The mean of the returns of each period over their standard
    deviation. *)
Definition per_period_sharpe (values : list R) : R :=
  let returns := Pd.pct_change_from (hd 0 values) (tl values) in
  arithmetic_mean returns / population_std returns.

(** *** File names *)


(** *** Tables *)

(** The cells after the label in a row of statistics of the values
    [xs]. *)
Definition stat_cells (xs : list R) : list Plt.cell :=
  [Plt.Num (Np.round (arithmetic_mean xs) 4);
   Plt.Num (Np.round (population_std xs) 4)].

Fixpoint index_of (label : string) (labels : list string) : option nat :=
  match labels with
  | [] => None
  | l :: ls =>
      if String.eqb label l then Some 0%nat
      else option_map Datatypes.S (index_of label ls)
  end.

(** The cell of [row] in the column of [t] that carries [label]. *)
Definition cell_under (t : Plt.table) (label : string) (row : list Plt.cell)
  : option Plt.cell :=
  match index_of label (Plt.colLabels t) with
  | Some i => nth_error row i
  | None => None
  end.

Definition aggregated_metric_lists (bs : backtest_stats) : list (list R) :=
  [ dynamic_pf_values bs; dynamic_mdds bs; dynamic_sharpe_ratios bs;
    static_pf_values bs; static_mdds bs; static_sharpe_ratios bs;
    cash_investments bs; crypto_weight_averages bs; crypto_weight_std_devs bs ].

(** Every cell of [t] under ["Average"] is the rounded mean of one of the
    aggregated lists. *)
Definition average_cells_are_means (bs : backtest_stats) (t : Plt.table) : Prop :=
  forall row c,
    In row (Plt.cellText t) ->
    cell_under t "Average" row = Some c ->
    exists xs,
      In xs (aggregated_metric_lists bs)
      /\ c = Plt.Num (Np.round (arithmetic_mean xs) 4).

End Spec.

(* ================================================================= *)
(** ** Sample data *)

Module Sample.

Import MakeTrainHistograms.

Definition flat (x : R) : agent_stats :=
  {| pf_value := x; mdd := x; sharpe_ratio := x |}.

(** A run with the given equal-weight value and initial weights, every
    other metric being 0. *)
Definition run (eq_value : R) (weights : list R) : session_stats :=
  {| asset_list := ["ETH"%string];
     eq_weight := flat eq_value;
     dynamic := flat 0;
     static := flat 0;
     initial_weights := weights;
     test_start := None;
     test_end := None;
     trading_period_length := None |}.

(** Two runs within the bounds, one with a negative weight, one with a
    weight above 0.7. *)
Definition history4 : history :=
  [ ("2019-05-01_10:00:00"%string, run 5 [0; 0]);
    ("2019-05-01_11:00:00"%string, run 5 [-1; 1 / 2]);
    ("2019-05-01_12:00:00"%string, run 7 [0; 0]);
    ("2019-05-01_13:00:00"%string, run 5 [4 / 5; 1 / 5]) ].

Definition history2 : history :=
  [ ("2019-05-01_10:00:00"%string, run 5 [0; 0]);
    ("2019-05-01_12:00:00"%string, run 7 [0; 0]) ].

(** Every run is outside the bounds. *)
Definition history_rejected : history :=
  [ ("2019-05-01_11:00:00"%string, run 5 [-1; 1 / 2]);
    ("2019-05-01_13:00:00"%string, run 5 [4 / 5; 1 / 5]) ].

(** A run without any weight passes both tests of the filter. *)
Definition history_no_weights : history :=
  [ ("2019-05-01_10:00:00"%string, run 5 []) ].

(** What [aggregate_backtest_stats] returns on [history2]. *)
Definition stats2 : backtest_stats :=
  {| dynamic_pf_values := [0; 0];
     dynamic_mdds := [0; 0];
     dynamic_sharpe_ratios := [0; 0];
     static_pf_values := [0; 0];
     static_mdds := [0; 0];
     static_sharpe_ratios := [0; 0];
     cash_investments := [0; 0];
     crypto_weight_averages := [Np.mean [0]; Np.mean [0]];
     crypto_weight_std_devs := [Np.std [0]; Np.std [0]];
     first_key := "2019-05-01_10:00:00";
     bs_asset_list := ["ETH"%string];
     eq_pf_value := 5;
     eq_sharpe_ratio := 5;
     eq_mdd := 5;
     bs_test_start := "NA";
     bs_test_end := "NA";
     bs_trading_period_length := "NA" |}.

(** *** A price file and a test run *)

Import PlotTrainResults.

(** Four daily rows [(date, close)]. *)
Definition rows : list (Z * R) :=
  [ (1546300800%Z, 1); (1546387200%Z, 2); (1546473600%Z, 5); (1546560000%Z, 2) ].

Definition steps : train_test_val_steps :=
  {| train := 0; test := 4; validation := 0 |}.

Definition configs (plot : bool) : train_configs :=
  {| plot_results := plot;
     portfolio_value := 1;
     start_date := "20190101";
     end_date := "20190301";
     trading_period_length := "1d";
     n_batches := 1;
     n_episodes := 1;
     batch_size := 1;
     window_length := 77;
     no_of_assets := 1;
     train_session_name := None;
     test_mode := None |}.

(** [np.array(w)[1:, j]] for a list [w] of rows of one length: the entries
    of column [j] from the second row on; [IndexError] when there is no row
    or no column [j]. *)
Definition column (w : list (list R)) (j : nat) : outcome (list R) :=
  match w with
  | [] => Raise IndexError
  | _ :: rest =>
      if forallb (fun row => Nat.ltb j (List.length row)) w
      then Ok (map (fun row => nth j row 0) rest)
      else Raise IndexError
  end.

(** A runtime in which every price file holds [rows]. *)
Definition rt : runtime :=
  {| nan := 0;
     timestamp_now := "2019-05-01_10:00:00";
     read_csv := fun _ => Ok rows;
     column_from_1 := column;
     KERNEL1_SIZE := 3;
     EPSILON_GREEDY_THRESHOLD := 0;
     LEARNING_RATE := 0;
     MAX_PF_WEIGHT_PENALTY := 0 |}.

(** A runtime in which no price file is there. *)
Definition rt_no_file : runtime :=
  {| nan := 0;
     timestamp_now := "2019-05-01_10:00:00";
     read_csv := fun _ => Raise FileNotFoundError;
     column_from_1 := column;
     KERNEL1_SIZE := 3;
     EPSILON_GREEDY_THRESHOLD := 0;
     LEARNING_RATE := 0;
     MAX_PF_WEIGHT_PENALTY := 0 |}.

Definition test_lists : test_performance :=
  {| p_list := [1; 1; 1; 1];
     p_list_eq := [1; 1; 1; 1];
     sharpe_ratios_p_list := 0;
     sharpe_ratios_p_list_eq := 0;
     w_list := [[1; 0]; [1; 0]; [1; 0]; [1; 0]] |}.

Definition train_lists : train_performance :=
  {| policy_network := [1]; equal_weighted := [1] |}.

(** A history file, its text standing for the history it parses to. *)
Definition open_read (path : string) : outcome string :=
  if String.eqb path "train_jsons/train_history_demo.json"
  then Ok "history4"%string
  else if String.eqb path "train_jsons/train_history_rejected.json"
  then Ok "history_rejected"%string
  else if String.eqb path "train_jsons/train_history_broken.json"
  then Ok "{"%string
  else Raise FileNotFoundError.

Definition json_load (text : string) : outcome MakeTrainHistograms.history :=
  if String.eqb text "history4" then Ok history4
  else if String.eqb text "history_rejected" then Ok history_rejected
  else Raise JSONDecodeError.

(** *** A run of [main] *)

Import DeepRlPortfolio.

Definition params : DeepRlPortfolio.params :=
  {| PF_INITIAL_VALUE := 10000;
     TRADING_COST := 0;
     INTEREST_RATE := 0;
     RATIO_TRAIN := 0;
     RATIO_VAL := 0;
     WINDOW_LENGTH := 40;
     float_mul := Rmult |}.

(** [main] over stand-ins that return at once: a price tensor of four
    periods for one asset, environments and an actor without content, and
    the sample performance lists. *)
Definition main (cfg : train_configs) : M run_state unit :=
  DeepRlPortfolio.main unit unit unit unit unit params rt 0 12
    (fun _ _ _ _ => ret (tt, ["ETH"%string]))
    (fun _ => 4%Z)
    (fun _ => ret tt)
    (fun _ _ _ _ => ret (tt, tt, tt, train_lists))
    (fun _ _ _ _ _ _ => ret test_lists)
    cfg.

End Sample.

(* ================================================================= *)
(** ** The rest of the three files *)

Module Scripts.

Import MakeTrainHistograms PlotTrainResults.

(** [for x in xs: body(x)], in [M]. *)
Fixpoint for_each_M {S A} (body : A -> M S unit) (xs : list A) : M S unit :=
  match xs with
  | [] => ret tt
  | x :: xs' => (body x ;;; for_each_M body xs')%py
  end.

(** The sessions of the main block of [make_train_histograms.py]. *)
Definition session_names : list string :=
  [ "All_Time_High__2017";
    "15_minute_trade_interval";
    "5_minute_trade_interval";
    "Recent_year__2019";
    "Bear_year__2018";
    "Jiang_et_al._backtest__#1";
    "Jiang_et_al._backtest__#2";
    "Jiang_et_al._backtest__#3" ]%string.

(** [for name in session_names: make_train_histograms(name)] *)
Definition make_all_train_histograms
           (open_read : string -> outcome string)
           (json_load : string -> outcome history)
           (names : list string)
  : M (list (Plt.event MakeTrainHistograms.figure)) unit :=
  for_each_M (make_train_histograms open_read json_load) names.

(** The two lines of the train-set plot. *)
Record train_plot : Type := {
  train_agent_line : Pd.timeseries;
  train_equally_weighted_line : Pd.timeseries
}.

Definition _plot_portfolio_value_progress_train
           (train_performance_lists : train_performance)
           (btc_price_data : Pd.timeseries) : outcome train_plot :=
  (p_list_series <~ Pd.mk_series (policy_network train_performance_lists)
                                 (map fst btc_price_data) ;;
   p_list_eq_series <~ Pd.mk_series (equal_weighted train_performance_lists)
                                    (map fst btc_price_data) ;;
   Ok {| train_agent_line := p_list_series;
         train_equally_weighted_line := p_list_eq_series |})%py.

End Scripts.

(* ================================================================= *)
(** ** Further notions and sample data *)

Module More.

Import MakeTrainHistograms PlotTrainResults.

(** The last value that is given, if any. *)
Fixpoint last_some (os : list (option string)) : option string :=
  match os with
  | [] => None
  | o :: os' =>
      match last_some os' with
      | Some s => Some s
      | None => o
      end
  end.

(** What the report shows for an optional entry of the runs: that of the
    last run that carries it, ["NA"] when no run does. *)
Definition shown (os : list (option string)) : string :=
  match last_some os with
  | Some s => s
  | None => "NA"%string
  end.

Fixpoint take_while {A} (p : A -> bool) (l : list A) : list A :=
  match l with
  | [] => []
  | a :: l' => if p a then a :: take_while p l' else []
  end.

Fixpoint drop_while {A} (p : A -> bool) (l : list A) : list A :=
  match l with
  | [] => []
  | a :: l' => if p a then drop_while p l' else l
  end.

(** Whether the report of a session, made on its own, is saved. *)
Definition session_ok (open_read : string -> outcome string)
           (json_load : string -> outcome history) (session_name : string) : bool :=
  match fst (make_train_histograms open_read json_load session_name []) with
  | Ok _ => true
  | Raise _ => false
  end.

(** Whether a character occurs in a string. *)
Fixpoint occurs (c : ascii) (s : string) : bool :=
  match s with
  | EmptyString => false
  | String c' s' => (Ascii.eqb c c' || occurs c s')%bool
  end.

(** The assets that get a line in the plot of the weights. *)
Definition drawn_assets (asset_list : list string) : list string :=
  filter (fun name => negb (String.eqb name CASH_NAME)) asset_list.

(** The configurations with another initial portfolio value. *)
Definition with_portfolio_value (cfg : train_configs) (v : R) : train_configs :=
  {| plot_results := plot_results cfg;
     portfolio_value := v;
     start_date := start_date cfg;
     end_date := end_date cfg;
     trading_period_length := PlotTrainResults.trading_period_length cfg;
     n_batches := n_batches cfg;
     n_episodes := n_episodes cfg;
     batch_size := batch_size cfg;
     window_length := window_length cfg;
     no_of_assets := no_of_assets cfg;
     train_session_name := train_session_name cfg;
     test_mode := test_mode cfg |}.

(** *** Sample data *)

(** A run that carries dates. *)
Definition dated_run (start : option string) (weights : list R) : session_stats :=
  {| asset_list := ["ETH"%string];
     eq_weight := Sample.flat 5;
     dynamic := Sample.flat 0;
     static := Sample.flat 0;
     initial_weights := weights;
     test_start := start;
     test_end := None;
     MakeTrainHistograms.trading_period_length := None |}.

Definition dated_history : history :=
  [ ("2019-05-01_10:00:00"%string, dated_run (Some "2019-01-01"%string) [0; 0]);
    ("2019-05-01_11:00:00"%string, dated_run (Some "2019-02-01"%string) [0; 0]);
    ("2019-05-01_12:00:00"%string, dated_run None [0; 0]) ].

(** Test lists one value short of the four rows of the sample price
    file. *)
Definition short_test_lists : test_performance :=
  {| p_list := [1; 1; 1];
     p_list_eq := [1; 1; 1; 1];
     sharpe_ratios_p_list := 0;
     sharpe_ratios_p_list_eq := 0;
     w_list := [[1; 0]; [1; 0]; [1; 0]; [1; 0]] |}.

(** The weights of a test run of four steps over the cash and three
    assets. *)
Definition weights_of_three : list (list R) :=
  [ [1; 0; 0; 0];
    [1 / 2; 1 / 2; 0; 0];
    [1 / 2; 1 / 4; 0; 1 / 4];
    [0; 1 / 2; 0; 1 / 2] ].

(** Steps that leave one row of the sample price file for the test. *)
Definition late_steps : train_test_val_steps :=
  {| train := 2; test := 1; validation := 1 |}.


(** Ratios that leave a quarter of the periods for the test.  The ratios
    are floats, and so are their products with a small number of periods:
    on them the product of floats is the exact product. *)
Definition split_params : DeepRlPortfolio.params :=
  {| DeepRlPortfolio.PF_INITIAL_VALUE := 10000;
     DeepRlPortfolio.TRADING_COST := 0;
     DeepRlPortfolio.INTEREST_RATE := 0;
     DeepRlPortfolio.RATIO_TRAIN := 1 / 2;
     DeepRlPortfolio.RATIO_VAL := 1 / 4;
     DeepRlPortfolio.WINDOW_LENGTH := 40;
     DeepRlPortfolio.float_mul := Rmult |}.

(** [mul x y] is the product of [x] and [y] rounded to the nearest float
    (binary64): a relative error of at most [2^-53], or, for a product too
    small for that, an absolute error of at most [2^-1075]. *)
Definition rounds_to_nearest (mul : R -> R -> R) (x y : R) : Prop :=
  Rabs (mul x y - x * y) <= Rabs (x * y) / 2 ^ 53 + / 2 ^ 1075.

End More.

(* ================================================================= *)
(** ** The main block of [deep_rl_portfolio.py] *)

Module Cli.

Import PlotTrainResults.

(** The namespace that [PARSER.parse_args()] returns. *)
Record args : Type := {
  plot_results : bool;
  interactive_session : bool;
  gpu_device : option Z;
  no_of_assets : Z;
  no_of_batches : Z;
  batch_size : Z;
  no_of_episodes : Z;
  window_length : Z;
  portfolio_initial_value : Z;
  verbose : bool;
  test_mode : bool;
  quick_test_mode : bool;
  start_date : string;
  end_date : string;
  trading_period_length : string
}.

(** The keyword arguments with which the main block calls [main], by the
    three branches of its [if].  The keys [interactive_session],
    [gpu_device] and [verbose], which none of the three files reads, are
    not among the fields of [train_configs]; the block passes neither
    [train_session_name] nor [test_mode]. *)
Definition main_block_configs (ARGS : args) : train_configs :=
  if quick_test_mode ARGS then
    {| PlotTrainResults.plot_results := false;
       PlotTrainResults.portfolio_value := 10000;
       PlotTrainResults.start_date := "20190101";
       PlotTrainResults.end_date := "20190301";
       PlotTrainResults.trading_period_length := "4h";
       PlotTrainResults.n_batches := 1;
       PlotTrainResults.n_episodes := 1;
       PlotTrainResults.batch_size := 1;
       PlotTrainResults.window_length := 130;
       PlotTrainResults.no_of_assets := 5;
       PlotTrainResults.train_session_name := None;
       PlotTrainResults.test_mode := None |}
  else if test_mode ARGS then
    {| PlotTrainResults.plot_results := true;
       PlotTrainResults.portfolio_value := 10000;
       PlotTrainResults.start_date := "20190101";
       PlotTrainResults.end_date := "20190301";
       PlotTrainResults.trading_period_length := "2h";
       PlotTrainResults.n_batches := 1;
       PlotTrainResults.n_episodes := 1;
       PlotTrainResults.batch_size := 1;
       PlotTrainResults.window_length := 77;
       PlotTrainResults.no_of_assets := 5;
       PlotTrainResults.train_session_name := None;
       PlotTrainResults.test_mode := None |}
  else
    {| PlotTrainResults.plot_results := plot_results ARGS;
       PlotTrainResults.portfolio_value := IZR (portfolio_initial_value ARGS);
       PlotTrainResults.start_date := start_date ARGS;
       PlotTrainResults.end_date := end_date ARGS;
       PlotTrainResults.trading_period_length := trading_period_length ARGS;
       PlotTrainResults.n_batches := no_of_batches ARGS;
       PlotTrainResults.n_episodes := no_of_episodes ARGS;
       PlotTrainResults.batch_size := batch_size ARGS;
       PlotTrainResults.window_length := window_length ARGS;
       PlotTrainResults.no_of_assets := no_of_assets ARGS;
       PlotTrainResults.train_session_name := None;
       PlotTrainResults.test_mode := None |}.

(** The namespace of the command line [-t]. *)
Definition test_run : args :=
  {| plot_results := false;
     interactive_session := false;
     gpu_device := None;
     no_of_assets := 5;
     no_of_batches := 10;
     batch_size := 50;
     no_of_episodes := 2;
     window_length := 40;
     portfolio_initial_value := 10000;
     verbose := false;
     test_mode := true;
     quick_test_mode := false;
     start_date := "20170601";
     end_date := "20171231";
     trading_period_length := "1d" |}.

End Cli.

(* ================================================================= *)
(** ** The history file before the code has looked at it *)

(** [json.load] returns whatever the file holds.  Here any key of a run,
    and of the entries of a run, may be missing, and reading a missing key
    raises [KeyError]; a value that is there has the type the code reads it
    with.  The functions of [make_train_histograms.py] are followed once
    more over such histories, key by key in the order of the source; on
    the histories whose runs carry every key they are the functions of
    [MakeTrainHistograms] (the lemmas [raw_filter_refines],
    [raw_aggregate_refines] and [raw_report_refines] below). *)
Module Raw.

Import MakeTrainHistograms.

Record agent_stats : Type := {
  pf_value : option R;
  mdd : option R;
  sharpe_ratio : option R
}.

Record session_stats : Type := {
  asset_list : option (list string);
  eq_weight : option agent_stats;
  dynamic : option agent_stats;
  static : option agent_stats;
  initial_weights : option (list R);
  test_start : option string;
  test_end : option string;
  trading_period_length : option string
}.

Definition history := dict session_stats.

(** [d[key]] *)
Definition item {A} (o : option A) : outcome A :=
  match o with
  | Some a => Ok a
  | None => Raise KeyError
  end.

(** One turn of the loop of [filter_history_dict]. *)
Definition filter_step (filtered_history : history)
           (it : string * session_stats) : outcome history :=
  let '(timestamp, train_data) := it in
  (ws <~ item (initial_weights train_data) ;;
   if any_negative ws then Ok filtered_history
   else if any_huge ws then Ok filtered_history
   else Ok (set timestamp train_data filtered_history))%py.

Definition filter_history_dict (history_dict : history) : outcome history :=
  for_each filter_step (items history_dict) [].

(** One turn of the loop of [aggregate_backtest_stats]: the three entries
    of the run are read first, then the keys of the dynamic and of the
    static entry, then the first weight. *)
Definition aggregate_step (acc : backtest_stats)
           (it : string * session_stats) : outcome backtest_stats :=
  let '(_, session) := it in
  (dyn <~ item (dynamic session) ;;
   sta <~ item (static session) ;;
   ws <~ item (initial_weights session) ;;
   dyn_pf_value <~ item (pf_value dyn) ;;
   dyn_mdd <~ item (mdd dyn) ;;
   dyn_sharpe_ratio <~ item (sharpe_ratio dyn) ;;
   sta_pf_value <~ item (pf_value sta) ;;
   sta_mdd <~ item (mdd sta) ;;
   sta_sharpe_ratio <~ item (sharpe_ratio sta) ;;
   cash <~ getitem ws 0 ;;
   let crypto_weights := slice_from 1 ws in
   Ok {| dynamic_pf_values := append (dynamic_pf_values acc) dyn_pf_value;
         dynamic_mdds := append (dynamic_mdds acc) dyn_mdd;
         dynamic_sharpe_ratios := append (dynamic_sharpe_ratios acc) dyn_sharpe_ratio;
         static_pf_values := append (static_pf_values acc) sta_pf_value;
         static_mdds := append (static_mdds acc) sta_mdd;
         static_sharpe_ratios := append (static_sharpe_ratios acc) sta_sharpe_ratio;
         cash_investments := append (cash_investments acc) cash;
         crypto_weight_averages :=
           append (crypto_weight_averages acc) (Np.mean crypto_weights);
         crypto_weight_std_devs :=
           append (crypto_weight_std_devs acc) (Np.std crypto_weights);
         first_key := first_key acc;
         bs_asset_list := bs_asset_list acc;
         eq_pf_value := eq_pf_value acc;
         eq_sharpe_ratio := eq_sharpe_ratio acc;
         eq_mdd := eq_mdd acc;
         bs_test_start := or_keep (test_start session) (bs_test_start acc);
         bs_test_end := or_keep (test_end session) (bs_test_end acc);
         bs_trading_period_length :=
           or_keep (trading_period_length session) (bs_trading_period_length acc)
      |})%py.

Definition aggregate_backtest_stats (filtered_history : history)
  : outcome backtest_stats :=
  (fk <~ getitem (keys filtered_history) 0 ;;
   first <~ getitem_key fk filtered_history ;;
   assets <~ item (asset_list first) ;;
   eq <~ item (eq_weight first) ;;
   first_pf_value <~ item (pf_value eq) ;;
   first_sharpe_ratio <~ item (sharpe_ratio eq) ;;
   first_mdd <~ item (mdd eq) ;;
   for_each aggregate_step (items filtered_history)
     {| dynamic_pf_values := [];
        dynamic_mdds := [];
        dynamic_sharpe_ratios := [];
        static_pf_values := [];
        static_mdds := [];
        static_sharpe_ratios := [];
        cash_investments := [];
        crypto_weight_averages := [];
        crypto_weight_std_devs := [];
        first_key := fk;
        bs_asset_list := assets;
        eq_pf_value := first_pf_value;
        eq_sharpe_ratio := first_sharpe_ratio;
        eq_mdd := first_mdd;
        bs_test_start := "NA";
        bs_test_end := "NA";
        bs_trading_period_length := "NA"
     |})%py.

(** The figure of the report, as [make_train_histograms] draws it from
    what the aggregation returned. *)
Definition report_figure (n_simulations : nat) (session_name : string)
           (backtest_stats : backtest_stats) : figure :=
  {| fig_tables :=
       _plot_histogram_metadata_table n_simulations session_name backtest_stats;
     fig_histograms :=
       [ _plot_histogram (dynamic_pf_values backtest_stats)
           "Dynamic agent: Distribution of Portfolio Values" "Portfolio value";
         _plot_histogram (static_pf_values backtest_stats)
           "Static agent: Distribution of Portfolio Values" "Portfolio value";
         _plot_histogram (dynamic_sharpe_ratios backtest_stats)
           "Dynamic agent: Distribution of Sharpe Ratios" "Sharpe ratio";
         _plot_histogram (static_sharpe_ratios backtest_stats)
           "Static agent: Distribution of Sharpe Ratios" "Sharpe ratio";
         _plot_histogram (dynamic_mdds backtest_stats)
           "Dynamic agent: Distribution of Maximum Drawdowns" "Maximum drawdown";
         _plot_histogram (static_mdds backtest_stats)
           "Static agent: Distribution of Maximum Drawdowns" "Maximum drawdown";
         _plot_histogram (crypto_weight_averages backtest_stats)
           "Both agents: Distribution of the average of weights" "Average weight";
         _plot_histogram (crypto_weight_std_devs backtest_stats)
           "Both agents: Distribution of the standard deviation of weights"
           "Stdev of weights" ] |}.

Definition make_train_histograms
           (open_read : string -> outcome string)
           (json_load : string -> outcome history)
           (session_name : string)
  : M (list (Plt.event figure)) unit :=
  (text <- lift (open_read (json_path session_name)) ;;
   history_dict <- lift (json_load text) ;;
   filtered_history <- lift (filter_history_dict history_dict) ;;
   let n_simulations := List.length filtered_history in
   backtest_stats <- lift (aggregate_backtest_stats filtered_history) ;;
   Plt.savefig (output_path session_name)
     (report_figure n_simulations session_name backtest_stats))%py.

(** *** What a run has to carry *)







(** The decision of the two tests of the filter on a run that has its
    weights. *)
Definition keeps (run : session_stats) : bool :=
  match initial_weights run with
  | Some ws => negb (any_negative ws) && negb (any_huge ws)
  | None => false
  end.

(** *** The histories whose runs carry every key *)

Definition of_agent (a : MakeTrainHistograms.agent_stats) : agent_stats :=
  {| pf_value := Some (MakeTrainHistograms.pf_value a);
     mdd := Some (MakeTrainHistograms.mdd a);
     sharpe_ratio := Some (MakeTrainHistograms.sharpe_ratio a) |}.

Definition of_session (run : MakeTrainHistograms.session_stats) : session_stats :=
  {| asset_list := Some (MakeTrainHistograms.asset_list run);
     eq_weight := Some (of_agent (MakeTrainHistograms.eq_weight run));
     dynamic := Some (of_agent (MakeTrainHistograms.dynamic run));
     static := Some (of_agent (MakeTrainHistograms.static run));
     initial_weights := Some (MakeTrainHistograms.initial_weights run);
     test_start := MakeTrainHistograms.test_start run;
     test_end := MakeTrainHistograms.test_end run;
     trading_period_length := MakeTrainHistograms.trading_period_length run |}.

Definition of_history (h : MakeTrainHistograms.history) : history :=
  map (fun it => (fst it, of_session (snd it))) h.

(** *** Sample data *)

Definition flat (x : R) : agent_stats :=
  {| pf_value := Some x; mdd := Some 0; sharpe_ratio := Some 0 |}.

(** A run with every key, and a run that has lost its entry ["dynamic"]. *)
Definition run (weights : list R) (with_dynamic : bool) : session_stats :=
  {| asset_list := Some ["ETH"%string];
     eq_weight := Some (flat 5);
     dynamic := if with_dynamic then Some (flat 0) else None;
     static := Some (flat 0);
     initial_weights := Some weights;
     test_start := None;
     test_end := None;
     trading_period_length := None |}.

Definition history3 : history :=
  [ ("2019-05-01_10:00:00"%string, run [0; 0] true);
    ("2019-05-01_11:00:00"%string, run [-1; 1 / 2] false);
    ("2019-05-01_12:00:00"%string, run [0; 0] true) ].

Definition history_without_dynamic : history :=
  [ ("2019-05-01_10:00:00"%string, run [0; 0] true);
    ("2019-05-01_11:00:00"%string, run [0; 0] false) ].

Definition open_read (path : string) : outcome string :=
  if String.eqb path "train_jsons/train_history_raw.json"
  then Ok "history3"%string
  else Raise FileNotFoundError.

Definition json_load (text : string) : outcome history :=
  if String.eqb text "history3" then Ok history3 else Raise JSONDecodeError.

End Raw.

(* ================================================================= *)
(** * Properties *)

Import MakeTrainHistograms.

(** ** Comparisons, means and rounding *)

Lemma Rltb_true (x y : R) : Rltb x y = true <-> x < y.
Proof.
  unfold Rltb. destruct (Rlt_dec x y); split; intros; auto; discriminate.
Qed.

Lemma Rltb_false (x y : R) : Rltb x y = false <-> ~ x < y.
Proof.
  unfold Rltb. destruct (Rlt_dec x y); split; intros; auto;
    try discriminate; contradiction.
Qed.

Lemma np_mean_is_arithmetic_mean (xs : list R) :
  Np.mean xs = Spec.arithmetic_mean xs.
Proof. reflexivity. Qed.

Lemma np_std_is_population_std (xs : list R) :
  Np.std xs = Spec.population_std xs.
Proof.
  unfold Np.std, Spec.population_std, Np.mean, Np.sum, Spec.arithmetic_mean.
  rewrite length_map. do 3 f_equal. apply map_ext. intro x.
  rewrite pow2_abs. unfold Rsqr. ring.
Qed.

(** ** Dictionaries *)

Section DictFacts.

Context {V : Type}.
Implicit Types (d : dict V) (k : string) (v : V).

Lemma get_none_not_in k d : get k d = None <-> ~ In k (keys d).
Proof.
  induction d as [|[k' v'] d IH]; simpl.
  - tauto.
  - destruct (String.eqb_spec k k') as [->|Hne].
    + split; [discriminate | intros H; exfalso; auto].
    + rewrite IH. split; intros H; [intros [E|Hin]; [congruence | auto] | auto].
Qed.

Lemma get_some_in k v d : get k d = Some v -> In (k, v) d.
Proof.
  induction d as [|[k' v'] d IH]; simpl; [discriminate|].
  destruct (String.eqb_spec k k') as [->|Hne].
  - intros [= ->]. now left.
  - intros H. right. auto.
Qed.

Lemma in_get_some k v d : dict_wf d -> In (k, v) d -> get k d = Some v.
Proof.
  unfold dict_wf. induction d as [|[k' v'] d IH]; simpl; [tauto|].
  intros Hnd [E|Hin].
  - injection E as -> ->. now rewrite String.eqb_refl.
  - inversion Hnd as [|? ? Hnotin Hnd']; subst.
    destruct (String.eqb_spec k k') as [->|Hne].
    + exfalso. apply Hnotin. change (In (fst (k', v)) (map fst d)).
      now apply in_map.
    + auto.
Qed.

(** Storing under a key that is not there adds the entry at the end. *)
Lemma set_fresh k v d : ~ In k (keys d) -> set k v d = d ++ [(k, v)].
Proof.
  induction d as [|[k' v'] d IH]; simpl; [reflexivity|].
  intros Hnotin. destruct (String.eqb_spec k k') as [->|Hne].
  - exfalso. auto.
  - f_equal. apply IH. auto.
Qed.

Lemma keys_app d1 d2 : keys (d1 ++ d2) = keys d1 ++ keys d2.
Proof. unfold keys. apply map_app. Qed.

Lemma keys_filter_incl (p : string * V -> bool) d k :
  In k (keys (filter p d)) -> In k (keys d).
Proof.
  unfold keys. rewrite !in_map_iff. intros [x [E Hin]].
  apply filter_In in Hin. exists x. tauto.
Qed.

Lemma dict_wf_filter (p : string * V -> bool) d :
  dict_wf d -> dict_wf (filter p d).
Proof.
  unfold dict_wf. induction d as [|[k v] d IH]; simpl; [auto|].
  intros Hnd. inversion Hnd as [|? ? Hnotin Hnd']; subst.
  destruct (p (k, v)); simpl; [constructor|]; auto.
  intros Hin. apply Hnotin. eapply keys_filter_incl. exact Hin.
Qed.

(** Looking a key up after filtering the entries of a dictionary. *)
Lemma get_filter (p : V -> bool) d k v :
  dict_wf d ->
  (get k (filter (fun item => p (snd item)) d) = Some v
   <-> get k d = Some v /\ p v = true).
Proof.
  intros Hwf. split.
  - intros H. apply get_some_in in H. apply filter_In in H. simpl in H.
    destruct H as [Hin Hp]. split; [now apply in_get_some | exact Hp].
  - intros [H Hp]. apply in_get_some.
    + now apply dict_wf_filter.
    + apply filter_In. split; [now apply get_some_in | exact Hp].
Qed.

End DictFacts.

(** ** [filter_history_dict] *)

Lemma keeps_iff (run : session_stats) :
  Spec.keeps run = true <-> Spec.weights_within_bounds run.
Proof.
  unfold Spec.keeps, Spec.weights_within_bounds, any_negative, any_huge.
  rewrite andb_true_iff, !negb_true_iff. split.
  - intros [Hneg Hhuge] value Hin. split; intros Hv.
    + assert (E : existsb (fun value => Rltb value 0) (initial_weights run) = true).
      { apply existsb_exists. exists value. split; [exact Hin | now apply Rltb_true]. }
      congruence.
    + assert (E : existsb (fun value => Rltb (7 / 10) value) (initial_weights run) = true).
      { apply existsb_exists. exists value. split; [exact Hin | now apply Rltb_true]. }
      congruence.
  - intros H. split.
    + destruct (existsb _ _) eqn:E; [|reflexivity].
      apply existsb_exists in E. destruct E as [value [Hin Hv]].
      apply Rltb_true in Hv. destruct (H value Hin). contradiction.
    + destruct (existsb _ _) eqn:E; [|reflexivity].
      apply existsb_exists in E. destruct E as [value [Hin Hv]].
      apply Rltb_true in Hv. destruct (H value Hin). contradiction.
Qed.

Lemma filter_step_keeps (acc : history) (timestamp : string) (run : session_stats) :
  filter_step acc (timestamp, run)
  = if Spec.keeps run then set timestamp run acc else acc.
Proof.
  unfold filter_step, Spec.keeps.
  destruct (any_negative _); simpl; [reflexivity|].
  destruct (any_huge _); reflexivity.
Qed.

(** The loop, from any state whose keys are not met again: the entries that
    pass the two tests are added at the end, in the order of iteration. *)
Lemma filter_loop (l acc : history) :
  NoDup (keys acc ++ keys l) ->
  fold_left filter_step l acc
  = acc ++ filter (fun item => Spec.keeps (snd item)) l.
Proof.
  revert acc. induction l as [|[timestamp run] l IH]; intros acc Hnd.
  - simpl. now rewrite app_nil_r.
  - cbn [fold_left filter snd]. rewrite filter_step_keeps. simpl in Hnd.
    assert (Hfresh : ~ In timestamp (keys acc)).
    { intros Hin. apply NoDup_remove_2 in Hnd. apply Hnd.
      apply in_or_app. now left. }
    destruct (Spec.keeps run).
    + rewrite set_fresh by exact Hfresh. rewrite IH.
      * now rewrite <- app_assoc.
      * rewrite keys_app. simpl. rewrite <- app_assoc. simpl.
        exact Hnd.
    + apply IH. apply NoDup_remove_1 in Hnd. exact Hnd.
Qed.

Lemma filter_history_dict_filter (h : history) :
  dict_wf h ->
  filter_history_dict h = filter (fun item => Spec.keeps (snd item)) h.
Proof.
  intros Hwf. unfold filter_history_dict, items.
  now rewrite filter_loop.
Qed.

Lemma filter_history_dict_wf (h : history) :
  dict_wf h -> dict_wf (filter_history_dict h).
Proof.
  intros Hwf. rewrite filter_history_dict_filter by exact Hwf.
  now apply dict_wf_filter.
Qed.

Lemma filter_idempotent {A} (p : A -> bool) (l : list A) :
  filter p (filter p l) = filter p l.
Proof.
  induction l as [|a l IH]; simpl; [reflexivity|].
  destruct (p a) eqn:E; simpl; [rewrite E; f_equal|]; exact IH.
Qed.

Lemma filter_all_rejected (h : history) :
  (forall timestamp run, In (timestamp, run) h -> ~ Spec.weights_within_bounds run) ->
  filter_history_dict h = [].
Proof.
  unfold filter_history_dict, items. intros Hrej.
  induction h as [|[timestamp run] h IH]; [reflexivity|].
  cbn [fold_left]. rewrite filter_step_keeps.
  destruct (Spec.keeps run) eqn:E.
  - apply keeps_iff in E. exfalso. apply (Hrej timestamp run); [now left | exact E].
  - apply IH. intros ts r Hin. apply (Hrej ts r). now right.
Qed.

Lemma sample_history4_wf : dict_wf Sample.history4.
Proof.
  unfold dict_wf. simpl.
  repeat (constructor; [simpl; intuition discriminate|]). constructor.
Qed.

Lemma sample_rejected_all (timestamp : string) (run : session_stats) :
  In (timestamp, run) Sample.history_rejected -> ~ Spec.weights_within_bounds run.
Proof.
  unfold Spec.weights_within_bounds. simpl.
  intros [E|[E|[]]] H; injection E as _ <-.
  - destruct (H (-1)) as [H1 _]; [simpl; auto|]. apply H1. lra.
  - destruct (H (4 / 5)) as [_ H2]; [simpl; auto|]. apply H2. lra.
Qed.

(** ** [aggregate_backtest_stats] *)

Lemma slice_from_1 {A} (l : list A) : slice_from 1 l = tl l.
Proof. destruct l; reflexivity. Qed.

Lemma extended_by_refl (acc : backtest_stats) : Spec.extended_by [] acc acc.
Proof. unfold Spec.extended_by. simpl. rewrite !app_nil_r. tauto. Qed.

(** The loop of [aggregate_backtest_stats] runs to its end when every run
    has a first weight, and adds one element per run to each list. *)
Lemma aggregate_loop (l : history) (acc : backtest_stats) :
  (forall timestamp run, In (timestamp, run) l -> initial_weights run <> []) ->
  exists acc', for_each aggregate_step l acc = Ok acc' /\ Spec.extended_by l acc acc'.
Proof.
  revert acc. induction l as [|[timestamp run] l IH]; intros acc Hne.
  - exists acc. split; [reflexivity | apply extended_by_refl].
  - cbn [for_each]. unfold aggregate_step at 1.
    destruct (initial_weights run) as [|cash ws] eqn:Ews.
    { exfalso. apply (Hne timestamp run); [now left | exact Ews]. }
    cbn [getitem nth_error obind]. rewrite slice_from_1. cbn [tl].
    match goal with |- context [for_each aggregate_step l ?a] =>
      destruct (IH a) as [acc' [Hrun Hext]] end.
    { intros ts r Hin. apply (Hne ts r). now right. }
    exists acc'. split; [exact Hrun|].
    unfold Spec.extended_by, append in *. cbn [map snd] in *.
    rewrite Ews. cbn [tl nth_error].
    repeat match type of Hext with
           | _ /\ _ => let H := fresh "H" in destruct Hext as [H Hext]
           end.
    cbn in *. rewrite map_app in *. cbn [map] in *.
    repeat split; try congruence;
      match goal with
      | H : ?x = _ |- ?x = _ => rewrite H, <- app_assoc; reflexivity
      end.
Qed.

Lemma aggregate_empty : aggregate_backtest_stats [] = Raise IndexError.
Proof. reflexivity. Qed.

Lemma aggregate_ok_nonempty (fh : history) (bs : backtest_stats) :
  aggregate_backtest_stats fh = Ok bs -> fh <> [].
Proof. intros H ->. discriminate. Qed.

(** ** [make_train_histograms] *)

Section ReportFacts.

Variable open_read : string -> outcome string.
Variable json_load : string -> outcome history.

Lemma report_open_raises (session_name : string) (e : exn)
      (evs : list (Plt.event figure)) :
  open_read (json_path session_name) = Raise e ->
  make_train_histograms open_read json_load session_name evs = (Raise e, evs).
Proof.
  intros H. unfold make_train_histograms, bind, lift. now rewrite H.
Qed.

Lemma report_json_raises (session_name text : string) (e : exn)
      (evs : list (Plt.event figure)) :
  open_read (json_path session_name) = Ok text ->
  json_load text = Raise e ->
  make_train_histograms open_read json_load session_name evs = (Raise e, evs).
Proof.
  intros H1 H2. unfold make_train_histograms, bind, lift.
  now rewrite H1, H2.
Qed.

Lemma report_aggregate_raises (session_name text : string) (h : history)
      (e : exn) (evs : list (Plt.event figure)) :
  open_read (json_path session_name) = Ok text ->
  json_load text = Ok h ->
  aggregate_backtest_stats (filter_history_dict h) = Raise e ->
  make_train_histograms open_read json_load session_name evs = (Raise e, evs).
Proof.
  intros H1 H2 H3. unfold make_train_histograms, bind, lift.
  now rewrite H1, H2, H3.
Qed.

Lemma report_saves (session_name text : string) (h : history)
      (bs : backtest_stats) (evs : list (Plt.event figure)) :
  open_read (json_path session_name) = Ok text ->
  json_load text = Ok h ->
  aggregate_backtest_stats (filter_history_dict h) = Ok bs ->
  exists fig,
    make_train_histograms open_read json_load session_name evs
    = (Ok tt, evs ++ [Plt.Savefig (output_path session_name) fig])
    /\ fig_tables fig
       = _plot_histogram_metadata_table
           (List.length (filter_history_dict h)) session_name bs.
Proof.
  intros H1 H2 H3. unfold make_train_histograms, bind, lift.
  rewrite H1, H2, H3. eexists. split; reflexivity.
Qed.

(** Whatever the files hold, a run saves its one figure exactly when it
    returns. *)
Lemma report_saved_paths (session_name : string) (evs : list (Plt.event figure)) :
  Plt.saved_paths (snd (make_train_histograms open_read json_load session_name evs))
  = Plt.saved_paths evs
    ++ match fst (make_train_histograms open_read json_load session_name evs) with
       | Ok _ => [output_path session_name]
       | Raise _ => []
       end.
Proof.
  unfold make_train_histograms, bind, lift.
  destruct (open_read _) as [text|e]; [|simpl; now rewrite app_nil_r].
  destruct (json_load text) as [h|e]; [|simpl; now rewrite app_nil_r].
  destruct (aggregate_backtest_stats _) as [bs|e]; [|simpl; now rewrite app_nil_r].
  unfold Plt.savefig, modify. cbn [fst snd].
  induction evs as [|[p f|] evs IH]; simpl; [reflexivity| |]; now rewrite IH.
Qed.

End ReportFacts.



(** ** [_get_btc_price_data_for_period] *)

Import PlotTrainResults.

Lemma loc_last_label (s : Pd.series) (a m : nat) (d : R) :
  map fst s = seq a (S m) -> Pd.loc (a + m) s = Ok (last (Pd.values s) d).
Proof.
  revert a m. induction s as [|[l v] s IH]; intros a m H; [discriminate|].
  cbn [map fst seq] in H. injection H as -> Hs.
  cbn [Pd.loc]. destruct m as [|m].
  - rewrite Nat.add_0_r, Nat.eqb_refl.
    destruct s; [reflexivity | discriminate].
  - replace (a + S m)%nat with (S a + m)%nat by lia.
    destruct (Nat.eqb_spec (S a + m) a) as [E|_]; [lia|].
    rewrite (IH (S a) m Hs). unfold Pd.values. cbn [map snd].
    destruct s; [discriminate | reflexivity].
Qed.

Lemma loc_first_label (s : Pd.series) (v : R) :
  Pd.loc 0 ((0%nat, v) :: s) = Ok v.
Proof. reflexivity. Qed.

Lemma at_set_fresh (label : nat) (v : R) (s : Pd.series) :
  ~ In label (map fst s) -> Pd.at_set label v s = s ++ [(label, v)].
Proof.
  induction s as [|[l v'] s IH]; intros Hnotin; [reflexivity|].
  cbn [Pd.at_set]. destruct (Nat.eqb_spec label l) as [->|Hne].
  - exfalso. apply Hnotin. now left.
  - cbn [app]. f_equal. apply IH. intros Hin. apply Hnotin. now right.
Qed.

Lemma baseline_from_length (v c : R) (cs : list R) :
  List.length (Spec.baseline_from v c cs) = List.length cs.
Proof.
  revert v c. induction cs as [|c1 cs IH]; intros v c; [reflexivity|].
  cbn [Spec.baseline_from List.length]. now rewrite IH.
Qed.

Lemma pct_change_from_length (c : R) (cs : list R) :
  List.length (Pd.pct_change_from c cs) = List.length cs.
Proof.
  revert c. induction cs as [|c1 cs IH]; intros c; [reflexivity|].
  cbn [Pd.pct_change_from List.length]. now rewrite IH.
Qed.

(** The loop of [_get_btc_price_data_for_period], started on a series [s]
    whose labels are [0 .. m-1], over the close prices [cs] that follow
    [prev_close]: it adds the rows [m, m+1, ...] with the values of the
    recurrence. *)
Lemma btc_loop (cs : list R) :
  forall (pre : list R) (s : Pd.series) (o : option nat) (prev_close : R),
    pre <> [] ->
    map fst s = seq 0 (List.length pre) ->
    for_each (btc_step (pre ++ Pd.pct_change_from prev_close cs))
             (seq (List.length pre) (List.length cs)) (s, o)
    = Ok (s ++ combine (seq (List.length pre) (List.length cs))
                 (Spec.baseline_from (last (Pd.values s) 0) prev_close cs),
          Spec.idx_after o (List.length pre) (List.length cs)).
Proof.
  induction cs as [|c cs IH]; intros pre s o prev_close Hpre Hlab.
  - cbn. now rewrite app_nil_r.
  - cbn [List.length seq for_each Pd.pct_change_from Spec.baseline_from].
    unfold btc_step at 1. cbn [fst].
    assert (Hlen : (List.length pre = Datatypes.S (List.length pre - 1))%nat).
    { destruct pre; [congruence | cbn; lia]. }
    assert (Eprev : Pd.loc (List.length pre - 1) s = Ok (last (Pd.values s) 0)).
    { apply (loc_last_label s 0 (List.length pre - 1) 0). now rewrite <- Hlen. }
    rewrite Eprev. cbn [obind].
    assert (Ediff : getitem (pre ++ (c / prev_close - 1) :: Pd.pct_change_from c cs)
                            (List.length pre)
                    = Ok (c / prev_close - 1)).
    { unfold getitem. rewrite nth_error_app2 by lia.
      now rewrite Nat.sub_diag. }
    rewrite Ediff. cbn [obind].
    rewrite at_set_fresh.
    2:{ rewrite Hlab, in_seq. lia. }
    set (v := last (Pd.values s) 0 * (c / prev_close - 1 + 1)).
    specialize (IH (pre ++ [c / prev_close - 1]) (s ++ [(List.length pre, v)])
                   (Some (List.length pre)) c).
    rewrite <- app_assoc in IH. cbn [app] in IH.
    rewrite length_app in IH. cbn [List.length] in IH.
    rewrite Nat.add_1_r in IH. rewrite IH.
    + unfold Pd.values. rewrite map_app. cbn [map snd].
      rewrite last_last, <- app_assoc. cbn [app combine].
      f_equal. f_equal. destruct (List.length cs); cbn; f_equal; lia.
    + destruct pre; discriminate.
    + rewrite map_app, Hlab. cbn [map fst]. now rewrite seq_S.
Qed.

Lemma values_combine_seq (a : nat) (vs : list R) :
  Pd.values (combine (seq a (List.length vs)) vs) = vs.
Proof.
  revert a. induction vs as [|v vs IH]; intros a; [reflexivity|].
  cbn. f_equal. apply IH.
Qed.

Lemma labels_combine_seq (a : nat) (vs : list R) :
  map fst (combine (seq a (List.length vs)) vs) = seq a (List.length vs).
Proof.
  revert a. induction vs as [|v vs IH]; intros a; [reflexivity|].
  cbn. f_equal. apply IH.
Qed.

Lemma snd_combine {A B} (l : list A) (l' : list B) :
  List.length l = List.length l' -> map snd (combine l l') = l'.
Proof.
  revert l'. induction l as [|a l IH]; intros [|b l'] H; try discriminate;
    [reflexivity|].
  cbn. f_equal. apply IH. now injection H.
Qed.

(** On a test segment of at least two rows the function returns: the
    series of the recurrence over the dates of the segment, and the gain of
    the series over its standard deviation. *)
Lemma btc_series_of_rows_ok (rt : runtime) (cfg : train_configs)
      (steps : train_test_val_steps) (data : list (Z * R))
      (d0 : Z) (c0 : R) (rest : list (Z * R)) :
  slice_from (train steps + validation steps)
             (map (fun row => (fst row + 7200, snd row)%Z) data)
  = (d0, c0) :: rest ->
  rest <> [] ->
  let vals := Spec.baseline (portfolio_value cfg) (c0 :: map snd rest) in
  btc_series_of_rows rt cfg steps data
  = Ok (combine (d0 :: map fst rest) vals,
        (last vals 0 - portfolio_value cfg) / Np.std vals).
Proof.
  intros Hseg Hrest vals. unfold btc_series_of_rows. rewrite Hseg.
  cbn [map snd fst Pd.pct_change List.length]. rewrite Nat.sub_succ, Nat.sub_0_r.
  rewrite pct_change_from_length.
  pose proof (btc_loop (map snd rest) [nan rt] [(0%nat, portfolio_value cfg)]
                       None c0) as Hloop.
  cbn [List.length app] in Hloop. rewrite Hloop; [|discriminate|reflexivity].
  clear Hloop. cbn [obind fst snd app].
  change (last (Pd.values [(0%nat, portfolio_value cfg)]) 0)
    with (portfolio_value cfg).
  set (tail := Spec.baseline_from (portfolio_value cfg) c0 (map snd rest)).
  assert (Htail : List.length (map snd rest) = List.length tail)
    by (symmetry; apply baseline_from_length).
  rewrite Htail.
  set (series := (0%nat, portfolio_value cfg) :: combine (seq 1 (List.length tail)) tail).
  assert (Hvalues : Pd.values series = vals).
  { unfold series, vals. cbn [Pd.values map snd Spec.baseline].
    fold (Pd.values (combine (seq 1 (List.length tail)) tail)).
    now rewrite values_combine_seq. }
  assert (Hlabels : map fst series = seq 0 (Datatypes.S (List.length tail))).
  { unfold series. cbn [map fst seq]. now rewrite labels_combine_seq. }
  assert (Hpos : exists n, List.length tail = Datatypes.S n).
  { rewrite <- Htail. destruct rest; [congruence|]. cbn. eauto. }
  destruct Hpos as [n Hn]. rewrite Hn in *. cbn [Spec.idx_after].
  assert (Elast : Pd.loc (1 + n) series = Ok (last vals 0)).
  { rewrite <- Hvalues.
    replace (1 + n)%nat with (0 + Datatypes.S n)%nat by lia.
    now apply loc_last_label. }
  rewrite Elast. cbn [obind]. unfold series at 1. rewrite loc_first_label.
  cbn [obind]. rewrite Hvalues.
  unfold Pd.mk_series.
  assert (Elen : List.length vals = List.length (d0 :: map fst rest)).
  { unfold vals. cbn [Spec.baseline List.length].
    rewrite baseline_from_length, !length_map. reflexivity. }
  rewrite Elen, Nat.eqb_refl. reflexivity.
Qed.

(** On a test segment of fewer than two rows the loop has no turn, and the
    loop variable is read unbound. *)
Lemma btc_series_of_rows_short (rt : runtime) (cfg : train_configs)
      (steps : train_test_val_steps) (data : list (Z * R)) :
  (List.length (slice_from (train steps + validation steps)
                  (map (fun row => (fst row + 7200, snd row)%Z) data)) <= 1)%nat ->
  btc_series_of_rows rt cfg steps data = Raise UnboundLocalError.
Proof.
  intros Hlen. unfold btc_series_of_rows.
  destruct (slice_from _ _) as [|[d0 c0] [|row rest]]; [reflexivity | reflexivity|].
  cbn in Hlen. lia.
Qed.

Lemma slice_from_nonneg {A} (n : Z) (l : list A) :
  (0 <= n)%Z -> slice_from n l = skipn (Z.to_nat n) l.
Proof.
  intros H. unfold slice_from. destruct (Z.leb_spec 0 n); [reflexivity | lia].
Qed.

(** ** The recurrence of the baseline and its closed form *)

Lemma baseline_step (cs : list R) :
  forall (v c : R) (k : nat),
    (Datatypes.S k < List.length (c :: cs))%nat ->
    nth (Datatypes.S k) (Spec.baseline v (c :: cs)) 0
    = nth k (Spec.baseline v (c :: cs)) 0
      * (1 + Spec.pct_change_at (c :: cs) (Datatypes.S k)).
Proof.
  unfold Spec.baseline, Spec.pct_change_at.
  induction cs as [|c1 cs IH]; intros v c k Hk; [cbn in Hk; lia|].
  destruct k as [|k].
  - cbn. ring.
  - cbn [Spec.baseline_from]. set (v1 := v * (c1 / c - 1 + 1)).
    change (nth (Datatypes.S (Datatypes.S k)) (v :: v1 :: Spec.baseline_from v1 c1 cs) 0)
      with (nth (Datatypes.S k) (v1 :: Spec.baseline_from v1 c1 cs) 0).
    change (nth (Datatypes.S k) (v :: v1 :: Spec.baseline_from v1 c1 cs) 0)
      with (nth k (v1 :: Spec.baseline_from v1 c1 cs) 0).
    rewrite (IH v1 c1 k) by (cbn in *; lia).
    replace (Datatypes.S (Datatypes.S k) - 1)%nat with (Datatypes.S k) by lia.
    replace (Datatypes.S k - 1)%nat with k by lia.
    reflexivity.
Qed.

Lemma baseline_closed_form (cs : list R) :
  forall (v c : R) (k : nat),
    Forall (fun x => x <> 0) (c :: cs) ->
    (k < List.length (c :: cs))%nat ->
    nth k (Spec.baseline v (c :: cs)) 0 = v * nth k (c :: cs) 0 / c.
Proof.
  unfold Spec.baseline.
  induction cs as [|c1 cs IH]; intros v c k Hnz Hk.
  - destruct k; [|cbn in Hk; lia]. inversion Hnz; subst. cbn. now field.
  - inversion Hnz as [|? ? Hc Hnz']; subst.
    destruct k as [|k]; [cbn; now field|].
    cbn [Spec.baseline_from]. set (v1 := v * (c1 / c - 1 + 1)).
    change (nth (Datatypes.S k) (v :: v1 :: Spec.baseline_from v1 c1 cs) 0)
      with (nth k (v1 :: Spec.baseline_from v1 c1 cs) 0).
    rewrite (IH v1 c1 k Hnz') by (cbn in *; lia).
    change (nth (Datatypes.S k) (c :: c1 :: cs) 0) with (nth k (c1 :: cs) 0).
    inversion Hnz'; subst. unfold v1. field. split; assumption.
Qed.

Lemma baseline_length (v : R) (closes : list R) :
  List.length (Spec.baseline v closes) = List.length closes.
Proof.
  destruct closes; [reflexivity|]. cbn. now rewrite baseline_from_length.
Qed.

(** ** Rounding *)

(** A real strictly within one half of an integer rounds to it. *)
Lemma rint_near (x : R) (z : Z) :
  IZR z - 1 / 2 < x < IZR z + 1 / 2 -> Np.rint x = z.
Proof.
  intros [Hlo Hhi]. unfold Np.rint.
  destruct (Rle_lt_dec (IZR z) x) as [Hge|Hlt].
  - assert (E : Zfloor x = z) by (apply Zfloor_eq; lra).
    rewrite E.
    assert (T : Rltb (x - IZR z) (1 / 2) = true) by (apply Rltb_true; lra).
    now rewrite T.
  - assert (E : Zfloor x = (z - 1)%Z).
    { apply Zfloor_eq. rewrite minus_IZR. lra. }
    rewrite E, minus_IZR.
    assert (F : Rltb (x - (IZR z - 1)) (1 / 2) = false) by (apply Rltb_false; lra).
    assert (T : Rltb (1 / 2) (x - (IZR z - 1)) = true) by (apply Rltb_true; lra).
    rewrite F, T. lia.
Qed.

Lemma rint_IZR (z : Z) : Np.rint (IZR z) = z.
Proof. apply rint_near. lra. Qed.

Lemma pow10_IZR (n : nat) : 10 ^ n = IZR (10 ^ Z.of_nat n).
Proof. now rewrite <- pow_IZR. Qed.

(** Rounding leaves an integer as it is. *)
Lemma round_IZR (z : Z) (ndigits : nat) : Np.round (IZR z) ndigits = IZR z.
Proof.
  unfold Np.round. rewrite pow10_IZR, <- mult_IZR, rint_IZR, mult_IZR.
  field. rewrite <- pow10_IZR. apply pow_nonzero. lra.
Qed.

(** A real strictly within half a unit of the last digit of [z / 10^n]
    rounds to it. *)
Lemma round_near (x : R) (z : Z) (ndigits : nat) :
  IZR z - 1 / 2 < x * 10 ^ ndigits < IZR z + 1 / 2 ->
  Np.round x ndigits = IZR z / 10 ^ ndigits.
Proof.
  intros H. unfold Np.round. now rewrite (rint_near _ z H).
Qed.

(** ** [plot_train_results] *)

Lemma saved_paths_app {F} (evs1 evs2 : list (Plt.event F)) :
  Plt.saved_paths (evs1 ++ evs2) = Plt.saved_paths evs1 ++ Plt.saved_paths evs2.
Proof.
  induction evs1 as [|[path fig|] evs1 IH]; cbn; [reflexivity| |]; now rewrite IH.
Qed.


Lemma btc_csv_raises (rt : runtime) (cfg : train_configs)
      (steps : train_test_val_steps) (e : exn) :
  read_csv rt (btc_price_fp cfg) = Raise e ->
  _get_btc_price_data_for_period rt cfg steps = Raise e.
Proof.
  intros H. unfold _get_btc_price_data_for_period. now rewrite H.
Qed.

Lemma plot_btc_raises (rt : runtime) (cfg : train_configs)
      (tr : train_performance) (te : test_performance) (asset_list : list string)
      (secs : R) (steps : train_test_val_steps) (e : exn)
      (evs : list (Plt.event PlotTrainResults.figure)) :
  _get_btc_price_data_for_period rt cfg steps = Raise e ->
  plot_train_results rt cfg tr te asset_list secs steps evs = (Raise e, evs).
Proof.
  intros H. unfold plot_train_results, bind, lift. now rewrite H.
Qed.


(** ** [main] *)

Import DeepRlPortfolio.

Lemma call_with_five_arguments (rt : runtime) (a1 a2 a3 a4 a5 : pyobj) (evs : run_state) :
  call_plot_train_results rt [a1; a2; a3; a4; a5] evs = (Raise TypeError, evs).
Proof. reflexivity. Qed.

Section MainFacts.

Variables dataset env actor state_fu done_fu : Type.
Variable ps : params.
Variable rt : runtime.
Variables start_time end_time : R.
Variable get_crypto_price_tensors_main :
  Z -> string -> string -> string -> M run_state (dataset * list string).
Variable shape_2 : dataset -> Z.
Variable TradeEnv : trade_env_args dataset -> M run_state env.
Variable train_rl_algorithm :
  train_configs -> trade_envs dataset env -> list string -> train_test_val_steps ->
  M run_state (actor * state_fu * done_fu * train_performance).
Variable test_rl_algorithm :
  train_configs -> actor -> state_fu -> done_fu -> trade_envs dataset env ->
  train_test_val_steps -> M run_state test_performance.

(** The state in which [main] reaches its last statement, once
    initialisation, training and testing have returned. *)
Lemma main_after_testing (cfg : train_configs)
      (envs : trade_envs dataset env) (asset_list : list string)
      (steps : train_test_val_steps)
      (a : actor) (sf : state_fu) (df : done_fu) (tr : train_performance)
      (te : test_performance) (evs evs1 evs2 evs3 : run_state) :
  _initialize_trade_envs dataset env ps get_crypto_price_tensors_main shape_2
    TradeEnv cfg evs
  = (Ok (envs, asset_list, steps), evs1) ->
  train_rl_algorithm cfg envs asset_list steps evs1 = (Ok (a, sf, df, tr), evs2) ->
  test_rl_algorithm cfg a sf df envs steps evs2 = (Ok te, evs3) ->
  main dataset env actor state_fu done_fu ps rt start_time end_time
       get_crypto_price_tensors_main shape_2 TradeEnv
       train_rl_algorithm test_rl_algorithm cfg evs
  = if plot_results cfg then (Raise TypeError, evs3) else (Ok tt, evs3).
Proof.
  intros H1 H2 H3. unfold main, bind at 1. rewrite H1.
  unfold bind at 1. rewrite H2. unfold bind at 1. rewrite H3.
  destruct (plot_results cfg); reflexivity.
Qed.

End MainFacts.

(** ** When the parts of the plot return *)

(** The result of [_get_btc_price_data_for_period] on a test segment of at
    least two rows, in full. *)
Lemma btc_period_exact (rt : runtime) (cfg : train_configs)
      (steps : train_test_val_steps) (data : list (Z * R)) :
  (0 <= train steps + validation steps)%Z ->
  read_csv rt (btc_price_fp cfg) = Ok data ->
  (2 <= List.length (Spec.test_segment steps data))%nat ->
  let segment := Spec.test_segment steps data in
  let vals := Spec.baseline (portfolio_value cfg) (map snd segment) in
  _get_btc_price_data_for_period rt cfg steps
  = Ok (combine (map (fun row => (fst row + 7200)%Z) segment) vals,
        (last vals 0 - portfolio_value cfg) / Np.std vals).
Proof.
  intros Hsteps Hread Hlen segment vals.
  unfold _get_btc_price_data_for_period. rewrite Hread. cbn [obind].
  unfold vals, segment, Spec.test_segment in *.
  set (n := Z.to_nat (train steps + validation steps)) in *.
  destruct (skipn n data) as [|[d0 c0] rest] eqn:Eseg; [cbn in Hlen; lia|].
  assert (Hrest : rest <> []) by (destruct rest; [cbn in Hlen; lia | discriminate]).
  pose (shift := fun row : Z * R => ((fst row + 7200)%Z, snd row)).
  assert (Hseg : slice_from (train steps + validation steps) (map shift data)
                 = ((d0 + 7200)%Z, c0) :: map shift rest).
  { rewrite slice_from_nonneg by exact Hsteps. fold n.
    rewrite skipn_map, Eseg. reflexivity. }
  pose proof (btc_series_of_rows_ok rt cfg steps data _ _ _ Hseg) as Hok.
  assert (Hs : map snd (map shift rest) = map snd rest)
    by (rewrite map_map; reflexivity).
  assert (Hf : map fst (map shift rest) = map (fun row => (fst row + 7200)%Z) rest)
    by (rewrite map_map; reflexivity).
  cbn zeta in Hok. rewrite Hs, Hf in Hok.
  apply Hok. destruct rest; [congruence | discriminate].
Qed.

Lemma fst_combine {A B} (l : list A) (l' : list B) :
  List.length l = List.length l' -> map fst (combine l l') = l.
Proof.
  revert l'. induction l as [|a l IH]; intros [|b l'] H; try discriminate;
    [reflexivity|].
  cbn. f_equal. apply IH. now injection H.
Qed.

Lemma getitem_last_outcome {A} (l : list A) (d : A) :
  getitem_last l = match l with
                   | [] => Raise IndexError
                   | _ :: _ => Ok (last l d)
                   end.
Proof.
  destruct l as [|a l]; [reflexivity|].
  destruct (@exists_last _ (a :: l)) as [l' [b E]]; [discriminate|].
  rewrite E. unfold getitem_last. rewrite rev_unit, last_last. reflexivity.
Qed.

Lemma value_plot_ok (te : test_performance) (ts : Pd.timeseries) :
  List.length (p_list te) = List.length ts ->
  List.length (p_list_eq te) = List.length ts ->
  _plot_portfolio_value_progress_test te ts
  = Ok {| agent_line := combine (map fst ts) (p_list te);
          equally_weighted_line := combine (map fst ts) (p_list_eq te);
          btc_only_line := ts |}.
Proof.
  intros H1 H2. unfold _plot_portfolio_value_progress_test, Pd.mk_series.
  now rewrite length_map, H1, H2, Nat.eqb_refl.
Qed.

Lemma sharpe_table_ok (te : test_performance) (sharpe : R) (ts : Pd.timeseries) :
  p_list te <> [] -> p_list_eq te <> [] -> ts <> [] ->
  exists tbl, _plot_sharpe_table te sharpe ts = Ok tbl.
Proof.
  intros H1 H2 H3. unfold _plot_sharpe_table.
  rewrite (getitem_last_outcome (p_list te) 0),
          (getitem_last_outcome (p_list_eq te) 0),
          (getitem_last_outcome (map snd ts) 0).
  destruct (p_list te); [congruence|].
  destruct (p_list_eq te); [congruence|].
  destruct ts; [congruence|]. cbn. eexists. reflexivity.
Qed.

Lemma weight_loop (rt : runtime) (names : list string) (w_list : list (list R))
      (btc_price_data : Pd.timeseries) :
  (forall j, (j < List.length names)%nat ->
             exists col, column_from_1 rt w_list j = Ok col
                         /\ List.length col = List.length (tl btc_price_data)) ->
  forall rest pre acc,
    names = (pre ++ rest)%list ->
    exists lines,
      for_each (weight_step rt names w_list btc_price_data)
               (seq (List.length pre) (List.length rest)) acc
      = Ok (acc ++ lines)%list
      /\ map fst lines = More.drawn_assets rest
      /\ Forall (fun line => map fst (snd line) = tl (map fst btc_price_data)) lines.
Proof.
  intros Hcol. induction rest as [|name rest IH]; intros pre acc Hnames.
  - exists []. cbn. rewrite app_nil_r. repeat split. constructor.
  - assert (Hnth : nth_error names (List.length pre) = Some name).
    { rewrite Hnames, nth_error_app2 by lia. now rewrite Nat.sub_diag. }
    assert (Hnames' : names = ((pre ++ [name]) ++ rest)%list).
    { now rewrite <- app_assoc. }
    assert (Hlen' : List.length (pre ++ [name]) = Datatypes.S (List.length pre)).
    { rewrite length_app. cbn. lia. }
    cbn [List.length seq for_each]. unfold weight_step at 1, getitem.
    rewrite Hnth. cbn [obind]. unfold More.drawn_assets. cbn [filter].
    destruct (String.eqb name CASH_NAME) eqn:Ecash; cbn [negb obind].
    + destruct (IH (pre ++ [name])%list acc Hnames') as (lines & Hrun & Hn & Hidx).
      rewrite Hlen' in Hrun. exists lines. repeat split; assumption.
    + destruct (Hcol (List.length pre)) as (col & Hc & Hcl).
      { rewrite Hnames, length_app. cbn. lia. }
      rewrite Hc. cbn [obind]. rewrite slice_from_1.
      assert (Hl : List.length col = List.length (tl (map fst btc_price_data))).
      { rewrite Hcl. destruct btc_price_data; cbn; [reflexivity|].
        now rewrite length_map. }
      unfold Pd.mk_series. rewrite Hl, Nat.eqb_refl. cbn [obind].
      destruct (IH (pre ++ [name])%list
                   (acc ++ [(name, combine (tl (map fst btc_price_data)) col)])%list
                   Hnames') as (lines & Hrun & Hn & Hidx).
      rewrite Hlen' in Hrun.
      exists ((name, combine (tl (map fst btc_price_data)) col) :: lines).
      split; [|split].
      * rewrite <- app_assoc in Hrun. exact Hrun.
      * cbn [map fst]. now rewrite Hn.
      * constructor; [|exact Hidx]. cbn [snd]. apply fst_combine. now symmetry.
Qed.


(* ================================================================= *)
(** * The properties of the specification *)

(** ** Filtering the history *)

(** C2.  On a training-history dictionary, [filter_history_dict] returns
    exactly the sub-dictionary of the runs none of whose initial weights is
    strictly below 0 or strictly above 0.7: the result is a dictionary in
    which a timestamp maps to a run if and only if it maps to that run in
    the input and the run is within the bounds; a run outside the bounds is
    absent from the result. *)
Theorem filter_history_dict_exact (history_dict : history) :
  dict_wf history_dict ->
  dict_wf (filter_history_dict history_dict)
  /\ (forall timestamp run,
         get timestamp (filter_history_dict history_dict) = Some run
         <-> get timestamp history_dict = Some run /\ Spec.weights_within_bounds run)
  /\ (forall timestamp run,
         get timestamp history_dict = Some run ->
         ~ Spec.weights_within_bounds run ->
         get timestamp (filter_history_dict history_dict) = None).
Proof.
  intros Hwf.
  assert (Hiff : forall timestamp run,
             get timestamp (filter_history_dict history_dict) = Some run
             <-> get timestamp history_dict = Some run /\ Spec.weights_within_bounds run).
  { intros timestamp run. rewrite filter_history_dict_filter by exact Hwf.
    rewrite (get_filter Spec.keeps) by exact Hwf. now rewrite keeps_iff. }
  split; [now apply filter_history_dict_wf|]. split; [exact Hiff|].
  intros timestamp run Hget Hout.
  destruct (get timestamp (filter_history_dict history_dict)) as [run'|] eqn:E;
    [|reflexivity].
  apply Hiff in E. destruct E as [Hget' Hin]. exfalso. apply Hout. congruence.
Qed.

Lemma filter_history_dict_exact_witness :
  dict_wf Sample.history4
  /\ dict_wf (filter_history_dict Sample.history4)
  /\ (forall timestamp run,
         get timestamp (filter_history_dict Sample.history4) = Some run
         <-> get timestamp Sample.history4 = Some run /\ Spec.weights_within_bounds run).
Proof.
  split; [exact sample_history4_wf|].
  destruct (filter_history_dict_exact Sample.history4 sample_history4_wf)
    as [Hwf [Hiff _]].
  split; [exact Hwf | exact Hiff].
Defined.

(** C10.  [filter_history_dict] is idempotent and contracting: filtering
    its own output gives that output again, and the output is a
    sub-dictionary of the input, every entry of the output being an entry
    of the input under the same key and with the same data. *)
Theorem filter_history_dict_idempotent_contracting (h : history) :
  dict_wf h ->
  filter_history_dict (filter_history_dict h) = filter_history_dict h
  /\ subdict (filter_history_dict h) h.
Proof.
  intros Hwf. split.
  - rewrite (filter_history_dict_filter (filter_history_dict h))
      by now apply filter_history_dict_wf.
    rewrite (filter_history_dict_filter h) by exact Hwf.
    apply filter_idempotent.
  - intros timestamp run Hget.
    rewrite filter_history_dict_filter in Hget by exact Hwf.
    apply (get_filter Spec.keeps) in Hget; [tauto | exact Hwf].
Qed.

Lemma filter_history_dict_idempotent_contracting_witness :
  dict_wf Sample.history4
  /\ filter_history_dict (filter_history_dict Sample.history4)
     = filter_history_dict Sample.history4
  /\ subdict (filter_history_dict Sample.history4) Sample.history4.
Proof.
  split; [exact sample_history4_wf|].
  exact (filter_history_dict_idempotent_contracting Sample.history4 sample_history4_wf).
Defined.

(** ** Aggregating the filtered history *)

(** C1, as amended.  For every non-empty filtered history each of whose
    runs has at least one initial weight, [aggregate_backtest_stats]
    returns parallel lists, one element per kept run in the order of
    iteration: the i-th elements of the dynamic and static lists are the
    i-th run's dynamic and static [pf_value], [mdd] and [sharpe_ratio],
    [cash_investments[i]] is element 0 of the run's initial weights, and,
    when the run has at least two initial weights,
    [crypto_weight_averages[i]] and [crypto_weight_std_devs[i]] are the
    arithmetic mean and the population standard deviation of the weights
    after the first. *)
Theorem aggregate_backtest_stats_parallel (filtered_history : history) :
  filtered_history <> [] ->
  (forall timestamp run,
      In (timestamp, run) filtered_history -> initial_weights run <> []) ->
  exists bs,
    aggregate_backtest_stats filtered_history = Ok bs
    /\ Spec.one_per_run filtered_history bs
    /\ Spec.parallel filtered_history bs.
Proof.
  intros Hfh Hne. destruct filtered_history as [|[fk first] rest] eqn:Efh; [congruence|].
  rewrite <- Efh in *. unfold aggregate_backtest_stats.
  assert (E1 : getitem (keys filtered_history) 0 = Ok fk) by (rewrite Efh; reflexivity).
  assert (E2 : getitem_key fk filtered_history = Ok first).
  { rewrite Efh. unfold getitem_key. simpl. now rewrite String.eqb_refl. }
  rewrite E1. cbn [obind]. rewrite E2. cbn [obind].
  match goal with |- context [for_each aggregate_step _ ?a] =>
    destruct (aggregate_loop filtered_history a Hne) as [bs [Hrun Hext]] end.
  exists bs. unfold items. split; [exact Hrun|].
  unfold Spec.extended_by in Hext. cbn in Hext.
  destruct Hext as (H1 & H2 & H3 & H4 & H5 & H6 & H7 & H8 & H9 & _).
  split.
  - unfold Spec.one_per_run. cbn zeta.
    apply (f_equal (@List.length _)) in H7. rewrite !length_map in H7.
    rewrite H1, H2, H3, H4, H5, H6, H8, H9, !length_map. tauto.
  - intros i timestamp run Hi.
    rewrite H1, H2, H3, H4, H5, H6, H8, H9.
    rewrite <- np_mean_is_arithmetic_mean, <- np_std_is_population_std.
    do 6 (split; [rewrite nth_error_map, Hi; reflexivity|]).
    split; [|intros _; split; rewrite nth_error_map, Hi; reflexivity].
    assert (E : nth_error (map Some (cash_investments bs)) i
                = Some (nth_error (initial_weights run) 0)).
    { rewrite H7, nth_error_map, Hi. reflexivity. }
    rewrite nth_error_map in E.
    destruct (nth_error (cash_investments bs) i); cbn [option_map] in E;
      [injection E as E; exact E | discriminate E].
Qed.

Lemma aggregate_backtest_stats_parallel_witness :
  Sample.history2 <> []
  /\ exists bs,
      aggregate_backtest_stats Sample.history2 = Ok bs
      /\ Spec.one_per_run Sample.history2 bs
      /\ Spec.parallel Sample.history2 bs.
Proof.
  split; [discriminate|].
  apply (aggregate_backtest_stats_parallel Sample.history2); [discriminate|].
  intros timestamp run [E|[E|[]]]; injection E as _ <-; discriminate.
Defined.

(** C1, as stated, fails on a filtered history that holds a run without
    initial weights: the filter keeps such a run, and the aggregation
    raises [IndexError] at [initial_weights[0]]. *)
Lemma aggregate_no_weights_raises :
  Sample.history_no_weights <> []
  /\ filter_history_dict Sample.history_no_weights = Sample.history_no_weights
  /\ aggregate_backtest_stats Sample.history_no_weights = Raise IndexError.
Proof.
  split; [discriminate|]. split; reflexivity.
Qed.

(** C8.  When every run of the history is removed by the weight filter, in
    particular for the empty history, the filtered history is empty,
    [aggregate_backtest_stats] raises [IndexError] at the first key, and
    [make_train_histograms] raises it without saving a report; and
    whenever [aggregate_backtest_stats] returns, its argument is not
    empty. *)
Theorem empty_filtered_history_raises
        (open_read : string -> outcome string)
        (json_load : string -> outcome history)
        (session_name text : string) (h : history)
        (evs : list (Plt.event MakeTrainHistograms.figure)) :
  open_read (json_path session_name) = Ok text ->
  json_load text = Ok h ->
  (forall timestamp run, In (timestamp, run) h -> ~ Spec.weights_within_bounds run) ->
  filter_history_dict h = []
  /\ aggregate_backtest_stats (filter_history_dict h) = Raise IndexError
  /\ make_train_histograms open_read json_load session_name evs
     = (Raise IndexError, evs)
  /\ aggregate_backtest_stats (filter_history_dict []) = Raise IndexError
  /\ (forall fh bs, aggregate_backtest_stats fh = Ok bs -> fh <> []).
Proof.
  intros Hopen Hjson Hrej.
  assert (E : filter_history_dict h = []) by now apply filter_all_rejected.
  assert (Eagg : aggregate_backtest_stats (filter_history_dict h) = Raise IndexError)
    by (rewrite E; apply aggregate_empty).
  split; [exact E|]. split; [exact Eagg|]. split.
  - now apply (report_aggregate_raises open_read json_load session_name text h).
  - split; [reflexivity | exact aggregate_ok_nonempty].
Qed.

Lemma empty_filtered_history_raises_witness :
  filter_history_dict Sample.history_rejected = []
  /\ make_train_histograms Sample.open_read Sample.json_load "rejected" []
     = (Raise IndexError, []).
Proof.
  destruct (empty_filtered_history_raises
              Sample.open_read Sample.json_load "rejected" "history_rejected"
              Sample.history_rejected [] eq_refl eq_refl sample_rejected_all)
    as (H1 & _ & H3 & _).
  split; [exact H1 | exact H3].
Defined.

(** ** The BTC buy-and-hold baseline *)

(** What [_get_btc_price_data_for_period] returns when the price file is
    read and the test segment has at least two rows. *)
Lemma btc_period_ok (rt : runtime) (cfg : train_configs)
      (steps : train_test_val_steps) (data : list (Z * R)) :
  (0 <= train steps + validation steps)%Z ->
  read_csv rt (btc_price_fp cfg) = Ok data ->
  (2 <= List.length (Spec.test_segment steps data))%nat ->
  let vals :=
    Spec.baseline (portfolio_value cfg) (map snd (Spec.test_segment steps data)) in
  exists dates,
    List.length dates = List.length vals
    /\ _get_btc_price_data_for_period rt cfg steps
       = Ok (combine dates vals,
             (last vals 0 - portfolio_value cfg) / Np.std vals).
Proof.
  intros Hsteps Hread Hlen vals.
  unfold _get_btc_price_data_for_period. rewrite Hread. cbn [obind].
  unfold Spec.test_segment in *.
  set (n := Z.to_nat (train steps + validation steps)) in *.
  destruct (skipn n data) as [|[d0 c0] rest] eqn:Eseg; [cbn in Hlen; lia|].
  assert (Hrest : rest <> []) by (destruct rest; [cbn in Hlen; lia | discriminate]).
  pose (shift := fun row : Z * R => ((fst row + 7200)%Z, snd row)).
  assert (Hseg : slice_from (train steps + validation steps) (map shift data)
                 = ((d0 + 7200)%Z, c0) :: map shift rest).
  { rewrite slice_from_nonneg by exact Hsteps. fold n.
    rewrite skipn_map, Eseg. reflexivity. }
  pose proof (btc_series_of_rows_ok rt cfg steps data _ _ _ Hseg) as Hok.
  assert (Hs : map snd (map shift rest) = map snd rest)
    by (rewrite map_map; reflexivity).
  cbn zeta in Hok. rewrite Hs in Hok.
  assert (Hne : map shift rest <> []) by (destruct rest; [congruence | discriminate]).
  specialize (Hok Hne).
  exists ((d0 + 7200)%Z :: map fst (map shift rest)). split.
  - unfold vals. rewrite baseline_length. cbn [map snd List.length].
    now rewrite !length_map.
  - exact Hok.
Qed.

(** C3.  When the price file is read and the test segment (the rows from
    index [train + validation] on) has at least two rows, the series
    returned by [_get_btc_price_data_for_period] has one value per row of
    the segment, starts at the configured initial portfolio value, and each
    later value is the previous one times one plus the relative change of
    the close price of that period; hence, the close prices of the segment
    being non-zero, the value at every index [k] is the initial value times
    [close[k] / close[0]]. *)
Theorem btc_baseline_series (rt : runtime) (cfg : train_configs)
        (steps : train_test_val_steps) (data : list (Z * R)) :
  (0 <= train steps + validation steps)%Z ->
  read_csv rt (btc_price_fp cfg) = Ok data ->
  (2 <= List.length (Spec.test_segment steps data))%nat ->
  let closes := map snd (Spec.test_segment steps data) in
  exists ts sharpe,
    _get_btc_price_data_for_period rt cfg steps = Ok (ts, sharpe)
    /\ List.length (map snd ts) = List.length closes
    /\ nth 0 (map snd ts) 0 = portfolio_value cfg
    /\ (forall k, (1 <= k < List.length closes)%nat ->
                  nth k (map snd ts) 0
                  = nth (k - 1) (map snd ts) 0 * (1 + Spec.pct_change_at closes k))
    /\ (Forall (fun c => c <> 0) closes ->
        forall k, (k < List.length closes)%nat ->
                  nth k (map snd ts) 0
                  = portfolio_value cfg * nth k closes 0 / nth 0 closes 0).
Proof.
  intros Hsteps Hread Hlen closes.
  destruct (btc_period_ok rt cfg steps data Hsteps Hread Hlen) as [dates [Hd Hok]].
  fold closes in Hd, Hok.
  set (vals := Spec.baseline (portfolio_value cfg) closes) in *.
  exists (combine dates vals), ((last vals 0 - portfolio_value cfg) / Np.std vals).
  split; [exact Hok|]. rewrite (snd_combine dates vals Hd).
  assert (Hcl : exists c0 cs, closes = c0 :: cs).
  { unfold closes. destruct (Spec.test_segment steps data) as [|[d c] l];
      [cbn in Hlen; lia | cbn; eauto]. }
  destruct Hcl as [c0 [cs Ecl]]. unfold vals. rewrite Ecl.
  split; [apply baseline_length|]. split; [reflexivity|]. split.
  - intros k [Hk1 Hk2]. destruct k as [|k]; [lia|].
    replace (Datatypes.S k - 1)%nat with k by lia.
    now apply baseline_step.
  - intros Hnz k Hk. now apply baseline_closed_form.
Qed.

Lemma sample_segment : Spec.test_segment Sample.steps Sample.rows = Sample.rows.
Proof. reflexivity. Qed.

Lemma btc_baseline_series_witness :
  exists ts sharpe,
    _get_btc_price_data_for_period Sample.rt (Sample.configs true) Sample.steps
    = Ok (ts, sharpe)
    /\ List.length (map snd ts) = 4%nat
    /\ nth 0 (map snd ts) 0 = 1.
Proof.
  assert (H0 : (0 <= train Sample.steps + validation Sample.steps)%Z)
    by (cbn; lia).
  assert (H2 : (2 <= List.length (Spec.test_segment Sample.steps Sample.rows))%nat)
    by (rewrite sample_segment; cbn; lia).
  destruct (btc_baseline_series Sample.rt (Sample.configs true) Sample.steps
              Sample.rows H0 eq_refl H2)
    as (ts & sharpe & Hok & Hlen & Hfirst & _).
  exists ts, sharpe. split; [exact Hok|]. split; [exact Hlen | exact Hfirst].
Defined.

(** ** The Sharpe value of the baseline *)

Lemma population_std_eval (xs : list R) (s : R) :
  0 <= s ->
  fold_right Rplus 0 (map (fun x => Rsqr (x - Spec.arithmetic_mean xs)) xs)
  / INR (List.length xs) = s * s ->
  Spec.population_std xs = s.
Proof.
  intros Hs H. unfold Spec.population_std. rewrite H. now apply sqrt_square.
Qed.

Lemma sharpe_table_btc_row (te : test_performance) (sharpe : R)
      (ts : Pd.timeseries) (tbl : Plt.table) :
  _plot_sharpe_table te sharpe ts = Ok tbl ->
  exists row,
    nth_error (Plt.cellText tbl) 2 = Some row
    /\ nth_error row 0 = Some (Plt.Text "Long Bitcoin")
    /\ Spec.cell_under tbl "Sharpe" row = Some (Plt.Num (Np.round sharpe 3)).
Proof.
  unfold _plot_sharpe_table. intros H.
  destruct (getitem_last (p_list te)) as [p_last|]; [|discriminate].
  destruct (getitem_last (p_list_eq te)) as [p_eq_last|]; [|discriminate].
  destruct (getitem_last (map snd ts)) as [btc_last|]; [|discriminate].
  cbn [obind] in H. injection H as <-.
  eexists. split; [reflexivity|]. split; reflexivity.
Qed.

Lemma sample_baseline : Spec.baseline 1 [1; 2; 5; 2] = [1; 2; 5; 2].
Proof.
  cbn [Spec.baseline Spec.baseline_from]. repeat f_equal; field.
Qed.

Lemma sample_std : Spec.population_std [1; 2; 5; 2] = 3 / 2.
Proof.
  apply population_std_eval; [lra|].
  unfold Spec.arithmetic_mean, Rsqr. cbn [map fold_right List.length INR].
  field.
Qed.

Lemma sample_gain_over_volatility : Spec.gain_over_volatility [1; 2; 5; 2] = 2 / 3.
Proof.
  unfold Spec.gain_over_volatility. rewrite sample_std. cbn [last hd]. field.
Qed.

Lemma sample_round : Np.round (2 / 3) 3 = 667 / 1000.
Proof.
  rewrite (round_near (2 / 3) 667 3).
  - cbn [pow]. field.
  - cbn [pow]. lra.
Qed.

Lemma baseline_hd (v : R) (closes : list R) :
  closes <> [] -> hd 0 (Spec.baseline v closes) = v.
Proof. destruct closes; [congruence | reflexivity]. Qed.

(** The value that [_get_btc_price_data_for_period] returns beside the
    series is the gain of the series over its population standard
    deviation. *)
Lemma btc_period_sharpe (rt : runtime) (cfg : train_configs)
      (steps : train_test_val_steps) (data : list (Z * R)) :
  (0 <= train steps + validation steps)%Z ->
  read_csv rt (btc_price_fp cfg) = Ok data ->
  (2 <= List.length (Spec.test_segment steps data))%nat ->
  exists ts,
    _get_btc_price_data_for_period rt cfg steps
    = Ok (ts, Spec.gain_over_volatility (map snd ts))
    /\ map snd ts
       = Spec.baseline (portfolio_value cfg) (map snd (Spec.test_segment steps data)).
Proof.
  intros Hsteps Hread Hlen.
  destruct (btc_period_ok rt cfg steps data Hsteps Hread Hlen) as [dates [Hd Hok]].
  set (vals := Spec.baseline (portfolio_value cfg)
                 (map snd (Spec.test_segment steps data))) in *.
  exists (combine dates vals). rewrite (snd_combine dates vals Hd).
  split; [|reflexivity]. rewrite Hok. unfold Spec.gain_over_volatility.
  assert (Hhd : hd 0 vals = portfolio_value cfg).
  { apply baseline_hd.
    destruct (Spec.test_segment steps data); [cbn in Hlen; lia | discriminate]. }
  now rewrite np_std_is_population_std, Hhd.
Qed.

(** C9, as amended.  The value computed for the BTC buy-and-hold baseline
    is the last element of the baseline series minus its first, divided by
    the population standard deviation of the whole series, and the 'Sharpe'
    cell of the row "Long Bitcoin" shows that value rounded to 3 decimal
    places. *)
Theorem btc_sharpe_is_gain_over_volatility (rt : runtime) (cfg : train_configs)
        (steps : train_test_val_steps) (data : list (Z * R)) :
  (0 <= train steps + validation steps)%Z ->
  read_csv rt (btc_price_fp cfg) = Ok data ->
  (2 <= List.length (Spec.test_segment steps data))%nat ->
  exists ts sharpe,
    _get_btc_price_data_for_period rt cfg steps = Ok (ts, sharpe)
    /\ sharpe = Spec.gain_over_volatility (map snd ts)
    /\ forall te tbl,
        _plot_sharpe_table te sharpe ts = Ok tbl ->
        exists row,
          nth_error (Plt.cellText tbl) 2 = Some row
          /\ nth_error row 0 = Some (Plt.Text "Long Bitcoin")
          /\ Spec.cell_under tbl "Sharpe" row
             = Some (Plt.Num (Np.round (Spec.gain_over_volatility (map snd ts)) 3)).
Proof.
  intros Hsteps Hread Hlen.
  destruct (btc_period_sharpe rt cfg steps data Hsteps Hread Hlen) as [ts [Hok _]].
  exists ts, (Spec.gain_over_volatility (map snd ts)).
  split; [exact Hok|]. split; [reflexivity|].
  intros te tbl Htbl. exact (sharpe_table_btc_row te _ ts tbl Htbl).
Qed.

Lemma btc_sharpe_is_gain_over_volatility_witness :
  exists ts sharpe,
    _get_btc_price_data_for_period Sample.rt (Sample.configs true) Sample.steps
    = Ok (ts, sharpe)
    /\ sharpe = Spec.gain_over_volatility (map snd ts).
Proof.
  assert (H0 : (0 <= train Sample.steps + validation Sample.steps)%Z)
    by (cbn; lia).
  assert (H2 : (2 <= List.length (Spec.test_segment Sample.steps Sample.rows))%nat)
    by (rewrite sample_segment; cbn; lia).
  destruct (btc_sharpe_is_gain_over_volatility
              Sample.rt (Sample.configs true) Sample.steps Sample.rows H0 eq_refl H2)
    as (ts & sharpe & Hok & Hsharpe & _).
  exists ts, sharpe. split; [exact Hok | exact Hsharpe].
Defined.

(** C9, as stated, fails on the sample price file: the gain of the series
    over its standard deviation is 2/3, and the 'Sharpe' cell of the row
    "Long Bitcoin" holds 0.667. *)
Lemma btc_sharpe_cell_is_rounded :
  exists ts sharpe tbl row,
    _get_btc_price_data_for_period Sample.rt (Sample.configs true) Sample.steps
    = Ok (ts, sharpe)
    /\ _plot_sharpe_table Sample.test_lists sharpe ts = Ok tbl
    /\ nth_error (Plt.cellText tbl) 2 = Some row
    /\ nth_error row 0 = Some (Plt.Text "Long Bitcoin")
    /\ Spec.gain_over_volatility (map snd ts) = 2 / 3
    /\ Spec.cell_under tbl "Sharpe" row = Some (Plt.Num (667 / 1000))
    /\ Spec.cell_under tbl "Sharpe" row
       <> Some (Plt.Num (Spec.gain_over_volatility (map snd ts))).
Proof.
  assert (H0 : (0 <= train Sample.steps + validation Sample.steps)%Z)
    by (cbn; lia).
  assert (H2 : (2 <= List.length (Spec.test_segment Sample.steps Sample.rows))%nat)
    by (rewrite sample_segment; cbn; lia).
  destruct (btc_period_sharpe Sample.rt (Sample.configs true) Sample.steps
              Sample.rows H0 eq_refl H2) as [ts [Hok Hvals]].
  change (Spec.baseline (portfolio_value (Sample.configs true))
            (map snd (Spec.test_segment Sample.steps Sample.rows)))
    with (Spec.baseline 1 [1; 2; 5; 2]) in Hvals.
  rewrite sample_baseline in Hvals.
  assert (Hg : Spec.gain_over_volatility (map snd ts) = 2 / 3)
    by (rewrite Hvals; apply sample_gain_over_volatility).
  assert (Htbl : exists tbl,
             _plot_sharpe_table Sample.test_lists
               (Spec.gain_over_volatility (map snd ts)) ts = Ok tbl).
  { unfold _plot_sharpe_table. rewrite Hvals. cbn. eauto. }
  destruct Htbl as [tbl Htbl].
  destruct (sharpe_table_btc_row _ _ _ _ Htbl) as (row & Hrow & Hlabel & Hcell).
  exists ts, (Spec.gain_over_volatility (map snd ts)), tbl, row.
  rewrite Hg, sample_round in Hcell.
  repeat (split; [assumption|]). rewrite Hcell, Hg.
  intros E. injection E as E. lra.
Qed.

(** The gain over the volatility of the whole series is another quantity
    than the mean of the returns of each period over their standard
    deviation: on the series 1, 2, 2, 4, 4 the first is 5/2 and the second
    is 1. *)
Lemma gain_over_volatility_is_not_per_period_sharpe :
  Spec.gain_over_volatility [1; 2; 2; 4; 4] = 5 / 2
  /\ Spec.per_period_sharpe [1; 2; 2; 4; 4] = 1.
Proof.
  split.
  - unfold Spec.gain_over_volatility.
    rewrite (population_std_eval [1; 2; 2; 4; 4] (6 / 5)).
    + cbn [last hd]. field.
    + lra.
    + unfold Spec.arithmetic_mean, Rsqr. cbn [map fold_right List.length INR].
      field.
  - unfold Spec.per_period_sharpe. cbn [hd tl Pd.pct_change_from].
    assert (E : [2 / 1 - 1; 2 / 2 - 1; 4 / 2 - 1; 4 / 4 - 1] = [1; 0; 1; 0])
      by (repeat f_equal; field).
    rewrite E. rewrite (population_std_eval [1; 0; 1; 0] (1 / 2)).
    + unfold Spec.arithmetic_mean. cbn [fold_right List.length INR]. field.
    + lra.
    + unfold Spec.arithmetic_mean, Rsqr. cbn [map fold_right List.length INR].
      field.
Qed.

(** ** The tables of the histogram report *)

Lemma aggregate_step_keeps (acc acc' : backtest_stats) (item : string * session_stats) :
  aggregate_step acc item = Ok acc' ->
  first_key acc' = first_key acc
  /\ bs_asset_list acc' = bs_asset_list acc
  /\ eq_pf_value acc' = eq_pf_value acc
  /\ eq_sharpe_ratio acc' = eq_sharpe_ratio acc
  /\ eq_mdd acc' = eq_mdd acc.
Proof.
  destruct item as [timestamp session]. unfold aggregate_step.
  destruct (getitem (initial_weights session) 0) as [cash|]; [|discriminate].
  cbn [obind]. intros [= <-]. cbn. tauto.
Qed.

Lemma aggregate_loop_keeps (l : history) :
  forall acc acc',
    for_each aggregate_step l acc = Ok acc' ->
    first_key acc' = first_key acc
    /\ bs_asset_list acc' = bs_asset_list acc
    /\ eq_pf_value acc' = eq_pf_value acc
    /\ eq_sharpe_ratio acc' = eq_sharpe_ratio acc
    /\ eq_mdd acc' = eq_mdd acc.
Proof.
  induction l as [|item l IH]; intros acc acc' H.
  - injection H as <-. tauto.
  - cbn [for_each] in H.
    destruct (aggregate_step acc item) as [acc1|] eqn:E; [|discriminate].
    cbn [obind] in H. apply IH in H. apply aggregate_step_keeps in E.
    intuition congruence.
Qed.

(** The equal-weight values of the result are those of the first run. *)
Lemma aggregate_first_run (fh : history) (bs : backtest_stats) :
  aggregate_backtest_stats fh = Ok bs ->
  exists fk first rest,
    fh = (fk, first) :: rest
    /\ first_key bs = fk
    /\ eq_pf_value bs = pf_value (eq_weight first)
    /\ eq_sharpe_ratio bs = sharpe_ratio (eq_weight first)
    /\ eq_mdd bs = mdd (eq_weight first).
Proof.
  destruct fh as [|[fk first] rest]; [discriminate|].
  unfold aggregate_backtest_stats. cbn [keys map fst getitem nth_error obind].
  unfold getitem_key. cbn [get]. rewrite String.eqb_refl. cbn [obind].
  intros H. apply aggregate_loop_keeps in H. cbn in H.
  exists fk, first, rest. tauto.
Qed.

Lemma sample_aggregate : aggregate_backtest_stats Sample.history2 = Ok Sample.stats2.
Proof. reflexivity. Qed.

Lemma mean_of_zeros : Spec.arithmetic_mean [0; 0] = 0.
Proof. unfold Spec.arithmetic_mean. cbn [fold_right List.length INR]. field. Qed.

Lemma mean_of_zero : Np.mean [0] = 0.
Proof. unfold Np.mean, Np.sum. cbn [fold_right List.length INR]. field. Qed.

Lemma std_of_zero : Np.std [0] = 0.
Proof.
  rewrite np_std_is_population_std. apply population_std_eval; [lra|].
  unfold Spec.arithmetic_mean, Rsqr. cbn [map fold_right List.length INR]. field.
Qed.

Lemma sample_aggregated_means (xs : list R) :
  In xs (Spec.aggregated_metric_lists Sample.stats2) ->
  Np.round (Spec.arithmetic_mean xs) 4 = 0.
Proof.
  unfold Spec.aggregated_metric_lists, Sample.stats2. cbn [In
    dynamic_pf_values dynamic_mdds dynamic_sharpe_ratios static_pf_values
    static_mdds static_sharpe_ratios cash_investments crypto_weight_averages
    crypto_weight_std_devs].
  rewrite mean_of_zero, std_of_zero.
  intros H. assert (E : xs = [0; 0]) by (intuition congruence).
  rewrite E, mean_of_zeros. apply (round_IZR 0).
Qed.

(** C7, as amended.  In the dynamic-agent and static-agent tables every
    'Average' and 'Stdev' cell is the arithmetic mean and the population
    standard deviation of the aggregated list of its row, rounded to 4
    decimal places; the rows 'Average of weights', 'Stdev of weights' and
    'Cash weight (BTC)' are computed from the same lists in both tables and
    are identical; the 'Average' cells of the equal-weighted table are the
    equal-weight values of the first run, rounded to 4 decimal places. *)
Theorem metadata_table_cells (fh : history) (bs : backtest_stats)
        (n_simulations : nat) (session_name : string) :
  aggregate_backtest_stats fh = Ok bs ->
  let t := _plot_histogram_metadata_table n_simulations session_name bs in
  Plt.colLabels (dynamic_table t) = ["Dynamic agent"; "Average"; "Stdev"]%string
  /\ Plt.cellText (dynamic_table t)
     = [ Plt.Text "Ptf. value" :: Spec.stat_cells (dynamic_pf_values bs);
         Plt.Text "Sharpe ratio" :: Spec.stat_cells (dynamic_sharpe_ratios bs);
         Plt.Text "MDD" :: Spec.stat_cells (dynamic_mdds bs);
         Plt.Text "Average of weights" :: Spec.stat_cells (crypto_weight_averages bs);
         Plt.Text "Stdev of weights" :: Spec.stat_cells (crypto_weight_std_devs bs);
         Plt.Text "Cash weight (BTC)" :: Spec.stat_cells (cash_investments bs) ]
  /\ Plt.colLabels (static_table t) = ["Static agent"; "Average"; "Stdev"]%string
  /\ Plt.cellText (static_table t)
     = [ Plt.Text "Ptf. value" :: Spec.stat_cells (static_pf_values bs);
         Plt.Text "Sharpe ratio" :: Spec.stat_cells (static_sharpe_ratios bs);
         Plt.Text "MDD" :: Spec.stat_cells (static_mdds bs);
         Plt.Text "Average of weights" :: Spec.stat_cells (crypto_weight_averages bs);
         Plt.Text "Stdev of weights" :: Spec.stat_cells (crypto_weight_std_devs bs);
         Plt.Text "Cash weight (BTC)" :: Spec.stat_cells (cash_investments bs) ]
  /\ skipn 3 (Plt.cellText (dynamic_table t)) = skipn 3 (Plt.cellText (static_table t))
  /\ Plt.colLabels (eq_table t) = ["Equal weighted"; "Average"]%string
  /\ exists fk first rest,
      fh = (fk, first) :: rest
      /\ Plt.cellText (eq_table t)
         = [ [Plt.Text "Ptf. value"; Plt.Num (Np.round (pf_value (eq_weight first)) 4)];
             [Plt.Text "Sharpe ratio";
              Plt.Num (Np.round (sharpe_ratio (eq_weight first)) 4)];
             [Plt.Text "MDD"; Plt.Num (Np.round (mdd (eq_weight first)) 4)] ].
Proof.
  intros Hagg t.
  split; [reflexivity|]. split.
  { unfold t. cbn [dynamic_table _plot_histogram_metadata_table Plt.cellText].
    unfold stat_row, Spec.stat_cells.
    now rewrite !np_mean_is_arithmetic_mean, !np_std_is_population_std. }
  split; [reflexivity|]. split.
  { unfold t. cbn [static_table _plot_histogram_metadata_table Plt.cellText].
    unfold stat_row, Spec.stat_cells.
    now rewrite !np_mean_is_arithmetic_mean, !np_std_is_population_std. }
  split; [reflexivity|]. split; [reflexivity|].
  destruct (aggregate_first_run fh bs Hagg) as (fk & first & rest & E & _ & H1 & H2 & H3).
  exists fk, first, rest. split; [exact E|].
  unfold t. cbn [eq_table _plot_histogram_metadata_table Plt.cellText].
  now rewrite H1, H2, H3.
Qed.

Lemma metadata_table_cells_witness :
  let t := _plot_histogram_metadata_table 2 "demo" Sample.stats2 in
  skipn 3 (Plt.cellText (dynamic_table t)) = skipn 3 (Plt.cellText (static_table t))
  /\ Plt.colLabels (eq_table t) = ["Equal weighted"; "Average"]%string.
Proof.
  destruct (metadata_table_cells Sample.history2 Sample.stats2 2 "demo" eq_refl)
    as (_ & _ & _ & _ & H5 & H6 & _).
  split; [exact H5 | exact H6].
Defined.

(** C7, as stated, fails on the equal-weighted table: on the two sample
    runs its 'Average' cell for the portfolio value holds 5, the value of
    the first run, which is the rounded mean of none of the aggregated
    lists, nor of the equal-weight values 5 and 7 of the two runs. *)
Lemma eq_table_average_is_not_a_mean :
  aggregate_backtest_stats Sample.history2 = Ok Sample.stats2
  /\ Spec.cell_under
       (eq_table (_plot_histogram_metadata_table 2 "demo" Sample.stats2))
       "Average" [Plt.Text "Ptf. value"; Plt.Num (Np.round 5 4)]
     = Some (Plt.Num 5)
  /\ ~ Spec.average_cells_are_means Sample.stats2
       (eq_table (_plot_histogram_metadata_table 2 "demo" Sample.stats2))
  /\ Plt.Num 5
     <> Plt.Num (Np.round
                   (Spec.arithmetic_mean
                      (map (fun item => pf_value (eq_weight (snd item)))
                           Sample.history2)) 4).
Proof.
  split; [reflexivity|]. split.
  { unfold Spec.cell_under. cbn. now rewrite (round_IZR 5). }
  split.
  - intros H.
    destruct (H [Plt.Text "Ptf. value"; Plt.Num (Np.round 5 4)]
                (Plt.Num (Np.round 5 4))) as [xs [Hin E]].
    + cbn. now left.
    + reflexivity.
    + injection E as E. rewrite (sample_aggregated_means xs Hin) in E.
      rewrite (round_IZR 5) in E. lra.
  - cbn [map Sample.history2 snd eq_weight Sample.run Sample.flat pf_value].
    assert (E : Spec.arithmetic_mean [5; 7] = 6).
    { unfold Spec.arithmetic_mean. cbn [fold_right List.length INR]. field. }
    rewrite E, (round_IZR 6). intros H. injection H as H. lra.
Qed.

(** ** Sample runs of the two reports *)

Lemma sample_keeps_zero (eq_value : R) : Spec.keeps (Sample.run eq_value [0; 0]) = true.
Proof.
  apply keeps_iff. intros value [<-|[<-|[]]]; lra.
Qed.

Lemma sample_rejects_negative (eq_value : R) :
  Spec.keeps (Sample.run eq_value [-1; 1 / 2]) = false.
Proof.
  destruct (Spec.keeps _) eqn:E; [|reflexivity].
  apply keeps_iff in E. destruct (E (-1)) as [H _]; [now left|]. exfalso. apply H. lra.
Qed.

Lemma sample_rejects_huge (eq_value : R) :
  Spec.keeps (Sample.run eq_value [4 / 5; 1 / 5]) = false.
Proof.
  destruct (Spec.keeps _) eqn:E; [|reflexivity].
  apply keeps_iff in E. destruct (E (4 / 5)) as [_ H]; [now left|]. exfalso. apply H. lra.
Qed.

Lemma sample_filter : filter_history_dict Sample.history4 = Sample.history2.
Proof.
  rewrite filter_history_dict_filter by exact sample_history4_wf.
  unfold Sample.history4. cbn [filter snd].
  now rewrite !sample_keeps_zero, sample_rejects_negative, sample_rejects_huge.
Qed.

(** The report of the session "demo" is saved under its fixed path. *)
Lemma sample_report_saved :
  exists fig,
    make_train_histograms Sample.open_read Sample.json_load "demo" []
    = (Ok tt, [Plt.Savefig "train_histograms/histogram_demo.png" fig])
    /\ fig_tables fig = _plot_histogram_metadata_table 2 "demo" Sample.stats2.
Proof.
  assert (Hagg : aggregate_backtest_stats (filter_history_dict Sample.history4)
                 = Ok Sample.stats2)
    by (rewrite sample_filter; apply sample_aggregate).
  destruct (report_saves Sample.open_read Sample.json_load "demo" "history4"
              Sample.history4 Sample.stats2 [] eq_refl eq_refl Hagg)
    as [fig [Hrun Htables]].
  exists fig. split; [exact Hrun|]. rewrite Htables, sample_filter. reflexivity.
Qed.

(** The plot of the sample test run is saved under the current timestamp,
    and shown. *)
Lemma sample_plot_saved :
  exists fig,
    plot_train_results Sample.rt (Sample.configs true) Sample.train_lists
      Sample.test_lists ["ETH"%string] 12 Sample.steps []
    = (Ok tt,
       [Plt.Savefig "train_graphs/train_results_2019-05-01_10:00:00.png" fig;
        Plt.Show]).
Proof.
  assert (H0 : (0 <= train Sample.steps + validation Sample.steps)%Z)
    by (cbn; lia).
  assert (H2 : (2 <= List.length (Spec.test_segment Sample.steps Sample.rows))%nat)
    by (rewrite sample_segment; cbn; lia).
  destruct (btc_period_sharpe Sample.rt (Sample.configs true) Sample.steps
              Sample.rows H0 eq_refl H2) as [ts [Hok Hvals]].
  change (Spec.baseline (portfolio_value (Sample.configs true))
            (map snd (Spec.test_segment Sample.steps Sample.rows)))
    with (Spec.baseline 1 [1; 2; 5; 2]) in Hvals.
  rewrite sample_baseline in Hvals.
  destruct ts as [|[d0 v0] [|[d1 v1] [|[d2 v2] [|[d3 v3] [|]]]]]; try discriminate.
  unfold plot_train_results, bind, lift. rewrite Hok.
  cbn. eexists. reflexivity.
Qed.

(** ** Errors of the files *)

(** C5.  When opening the training-history file raises, or when parsing
    its text raises, [make_train_histograms] raises that same exception
    and saves nothing; when reading the BTC price file raises,
    [_get_btc_price_data_for_period] raises that same exception, and so
    does [plot_train_results], saving nothing. *)
Theorem read_errors_propagate
        (open_read : string -> outcome string)
        (json_load : string -> outcome history)
        (rt : runtime) (session_name : string) (cfg : train_configs)
        (tr : train_performance) (te : test_performance) (asset_list : list string)
        (secs : R) (steps : train_test_val_steps) (e : exn)
        (evs : list (Plt.event MakeTrainHistograms.figure))
        (evs' : list (Plt.event PlotTrainResults.figure)) :
  (open_read (json_path session_name) = Raise e ->
   make_train_histograms open_read json_load session_name evs = (Raise e, evs))
  /\ (forall text,
         open_read (json_path session_name) = Ok text ->
         json_load text = Raise e ->
         make_train_histograms open_read json_load session_name evs = (Raise e, evs))
  /\ (read_csv rt (btc_price_fp cfg) = Raise e ->
      _get_btc_price_data_for_period rt cfg steps = Raise e
      /\ plot_train_results rt cfg tr te asset_list secs steps evs' = (Raise e, evs')).
Proof.
  split; [apply report_open_raises|]. split.
  - intros text. apply report_json_raises.
  - intros H. pose proof (btc_csv_raises rt cfg steps e H) as Hbtc.
    split; [exact Hbtc|]. now apply plot_btc_raises.
Qed.

Lemma read_errors_propagate_witness :
  make_train_histograms Sample.open_read Sample.json_load "missing" []
  = (Raise FileNotFoundError, [])
  /\ make_train_histograms Sample.open_read Sample.json_load "broken" []
     = (Raise JSONDecodeError, [])
  /\ plot_train_results Sample.rt_no_file (Sample.configs true) Sample.train_lists
       Sample.test_lists ["ETH"%string] 12 Sample.steps []
     = (Raise FileNotFoundError, []).
Proof.
  split; [|split].
  - apply (read_errors_propagate Sample.open_read Sample.json_load Sample.rt_no_file
             "missing" (Sample.configs true) Sample.train_lists Sample.test_lists
             ["ETH"%string] 12 Sample.steps FileNotFoundError [] []).
    reflexivity.
  - apply (read_errors_propagate Sample.open_read Sample.json_load Sample.rt_no_file
             "broken" (Sample.configs true) Sample.train_lists Sample.test_lists
             ["ETH"%string] 12 Sample.steps JSONDecodeError [] []) with (text := "{"%string);
      reflexivity.
  - apply (read_errors_propagate Sample.open_read Sample.json_load Sample.rt_no_file
             "missing" (Sample.configs true) Sample.train_lists Sample.test_lists
             ["ETH"%string] 12 Sample.steps FileNotFoundError [] []).
    reflexivity.
Defined.

(** ** The files read and written *)



(** ** The call of [plot_train_results] in [main] *)

(** C4, on the code.  When initialisation, training and testing have
    returned and [plot_results] is true, [main] calls [plot_train_results]
    with five positional arguments for its six parameters: the call raises
    [TypeError] before the body runs, and nothing is saved or shown. *)
Theorem main_plot_results_call_raises
        (dataset env actor state_fu done_fu : Type) (ps : params) (rt : runtime)
        (start_time end_time : R)
        (get_crypto_price_tensors_main :
           Z -> string -> string -> string -> M run_state (dataset * list string))
        (shape_2 : dataset -> Z)
        (TradeEnv : trade_env_args dataset -> M run_state env)
        (train_rl_algorithm :
           train_configs -> trade_envs dataset env -> list string ->
           train_test_val_steps ->
           M run_state (actor * state_fu * done_fu * train_performance))
        (test_rl_algorithm :
           train_configs -> actor -> state_fu -> done_fu -> trade_envs dataset env ->
           train_test_val_steps -> M run_state test_performance)
        (cfg : train_configs)
        (envs : trade_envs dataset env) (asset_list : list string)
        (steps : train_test_val_steps)
        (a : actor) (sf : state_fu) (df : done_fu) (tr : train_performance)
        (te : test_performance) (evs evs1 evs2 evs3 : run_state) :
  plot_results cfg = true ->
  _initialize_trade_envs dataset env ps get_crypto_price_tensors_main shape_2
    TradeEnv cfg evs
  = (Ok (envs, asset_list, steps), evs1) ->
  train_rl_algorithm cfg envs asset_list steps evs1 = (Ok (a, sf, df, tr), evs2) ->
  test_rl_algorithm cfg a sf df envs steps evs2 = (Ok te, evs3) ->
  main dataset env actor state_fu done_fu ps rt start_time end_time
       get_crypto_price_tensors_main shape_2 TradeEnv
       train_rl_algorithm test_rl_algorithm cfg evs
  = (Raise TypeError, evs3).
Proof.
  intros Hplot H1 H2 H3.
  rewrite (main_after_testing dataset env actor state_fu done_fu ps rt
             start_time end_time get_crypto_price_tensors_main shape_2 TradeEnv
             train_rl_algorithm test_rl_algorithm cfg
             envs asset_list steps a sf df tr te evs evs1 evs2 evs3 H1 H2 H3).
  now rewrite Hplot.
Qed.

Lemma main_plot_results_call_raises_witness :
  Sample.main (Sample.configs true) [] = (Raise TypeError, []).
Proof.
  unfold Sample.main.
  eapply (main_plot_results_call_raises unit unit unit unit unit);
    reflexivity.
Defined.

(** With six arguments of the types of its parameters the same call runs
    the body: the plot of the sample test run is saved and shown. *)
Lemma call_with_six_arguments :
  exists fig,
    call_plot_train_results Sample.rt
      [ OConfigs (Sample.configs true);
        OTrainPerformance Sample.train_lists;
        OTestPerformance Sample.test_lists;
        OList ["ETH"%string];
        OFloat 12;
        OSteps Sample.steps ] []
    = (Ok tt,
       [Plt.Savefig "train_graphs/train_results_2019-05-01_10:00:00.png" fig;
        Plt.Show]).
Proof.
  destruct sample_plot_saved as [fig H]. exists fig.
  unfold call_plot_train_results, bind, lift. cbn [bind_positional]. exact H.
Qed.

(** With [plot_results] false, [main] returns without calling
    [plot_train_results]. *)
Lemma main_without_plot :
  Sample.main (Sample.configs false) [] = (Ok tt, []).
Proof. reflexivity. Qed.

(* ================================================================= *)
(** * Further properties of the code *)

(** ** When the aggregation returns, and what it shows of the dates *)

Lemma aggregate_step_outcome (acc : backtest_stats) (item : string * session_stats) :
  match aggregate_step acc item with
  | Ok _ => initial_weights (snd item) <> []
  | Raise e => e = IndexError /\ initial_weights (snd item) = []
  end.
Proof.
  destruct item as [timestamp run]. unfold aggregate_step. cbn [snd].
  destruct (initial_weights run) as [|cash ws]; cbn; [tauto | discriminate].
Qed.

Lemma aggregate_loop_outcome (l : history) :
  forall acc,
    match for_each aggregate_step l acc with
    | Ok _ => forall timestamp run, In (timestamp, run) l -> initial_weights run <> []
    | Raise e => e = IndexError
    end.
Proof.
  induction l as [|item l IH]; intros acc; cbn [for_each].
  - intros timestamp run [].
  - pose proof (aggregate_step_outcome acc item) as Hstep.
    destruct (aggregate_step acc item) as [acc1|e]; cbn [obind]; [|tauto].
    specialize (IH acc1). destruct (for_each aggregate_step l acc1); [|exact IH].
    intros timestamp run [->|Hin]; [exact Hstep | eauto].
Qed.

(** The aggregation of a history that has a first run is the loop over its
    runs. *)
Lemma aggregate_is_loop (fk : string) (first : session_stats) (rest : history) :
  exists init,
    aggregate_backtest_stats ((fk, first) :: rest)
    = for_each aggregate_step ((fk, first) :: rest) init
    /\ bs_test_start init = "NA"%string
    /\ bs_test_end init = "NA"%string
    /\ bs_trading_period_length init = "NA"%string
    /\ dynamic_pf_values init = [] /\ dynamic_mdds init = []
    /\ dynamic_sharpe_ratios init = [] /\ static_pf_values init = []
    /\ static_mdds init = [] /\ static_sharpe_ratios init = []
    /\ cash_investments init = [] /\ crypto_weight_averages init = []
    /\ crypto_weight_std_devs init = []
    /\ bs_asset_list init = asset_list first.
Proof.
  unfold aggregate_backtest_stats. cbn [keys map fst getitem nth_error obind].
  unfold getitem_key. cbn [get]. rewrite String.eqb_refl. cbn [obind items].
  eexists. split; [reflexivity|]. cbn. tauto.
Qed.

Lemma aggregate_returns (fh : history) :
  fh <> [] ->
  (forall timestamp run, In (timestamp, run) fh -> initial_weights run <> []) ->
  exists bs, aggregate_backtest_stats fh = Ok bs.
Proof.
  intros Hne Hw. destruct fh as [|[fk first] rest]; [congruence|].
  destruct (aggregate_is_loop fk first rest) as (init & E & _). rewrite E.
  destruct (aggregate_loop _ init Hw) as [bs [Hbs _]]. eauto.
Qed.

(** *** Over the history as the file holds it *)




(** On a history whose runs carry every key, the functions over the file
    are those over the typed history. *)
Lemma raw_set_of_history (k : string) (v : session_stats) (acc : history) :
  set k (Raw.of_session v) (Raw.of_history acc) = Raw.of_history (set k v acc).
Proof.
  induction acc as [|[k' v'] acc IH]; [reflexivity|].
  cbn. destruct (String.eqb k k'); [reflexivity|]. cbn. f_equal. exact IH.
Qed.

Lemma raw_filter_step_refines (acc : history) (timestamp : string)
      (run : session_stats) :
  Raw.filter_step (Raw.of_history acc) (timestamp, Raw.of_session run)
  = Ok (Raw.of_history (filter_step acc (timestamp, run))).
Proof.
  unfold Raw.filter_step, filter_step.
  cbn [Raw.of_session Raw.initial_weights Raw.item obind].
  destruct (any_negative (initial_weights run)); [reflexivity|].
  destruct (any_huge (initial_weights run)); [reflexivity|].
  f_equal. apply (raw_set_of_history timestamp run acc).
Qed.

Lemma raw_filter_refines (h : history) :
  Raw.filter_history_dict (Raw.of_history h) = Ok (Raw.of_history (filter_history_dict h)).
Proof.
  unfold Raw.filter_history_dict, filter_history_dict, items.
  change (@nil (string * Raw.session_stats)) with (Raw.of_history []).
  generalize (@nil (string * session_stats)) as acc.
  induction h as [|[timestamp run] h IH]; intros acc; [reflexivity|].
  cbn [Raw.of_history map for_each fold_left fst snd].
  rewrite (raw_filter_step_refines acc timestamp run). cbn [obind]. apply IH.
Qed.

Lemma raw_aggregate_step_refines (acc : backtest_stats) (timestamp : string)
      (run : session_stats) :
  Raw.aggregate_step acc (timestamp, Raw.of_session run)
  = aggregate_step acc (timestamp, run).
Proof. reflexivity. Qed.

Lemma raw_aggregate_refines (fh : history) :
  Raw.aggregate_backtest_stats (Raw.of_history fh) = aggregate_backtest_stats fh.
Proof.
  destruct fh as [|[fk first] rest]; [reflexivity|].
  unfold Raw.aggregate_backtest_stats, aggregate_backtest_stats.
  cbn [Raw.of_history map keys fst snd getitem nth_error obind].
  unfold getitem_key. cbn [get]. rewrite String.eqb_refl.
  cbn [obind items Raw.of_session Raw.asset_list Raw.eq_weight Raw.item Raw.of_agent
       Raw.pf_value Raw.sharpe_ratio Raw.mdd].
  match goal with |- for_each _ _ ?a = _ => generalize a end.
  change ((fk, Raw.of_session first) :: map (fun it => (fst it, Raw.of_session (snd it))) rest)
    with (Raw.of_history ((fk, first) :: rest)).
  generalize ((fk, first) :: rest) as l. clear.
  unfold items.
  induction l as [|[timestamp run] l IH]; intros acc; [reflexivity|].
  cbn [Raw.of_history map for_each fst snd].
  rewrite raw_aggregate_step_refines.
  destruct (aggregate_step acc (timestamp, run)) as [acc1|e]; cbn [obind];
    [apply IH | reflexivity].
Qed.

Lemma raw_report_refines
      (open_read : string -> outcome string) (json_load : string -> outcome history)
      (session_name : string) (evs : list (Plt.event MakeTrainHistograms.figure)) :
  Raw.make_train_histograms open_read
    (fun text => match json_load text with
                 | Ok h => Ok (Raw.of_history h)
                 | Raise e => Raise e
                 end)
    session_name evs
  = make_train_histograms open_read json_load session_name evs.
Proof.
  unfold Raw.make_train_histograms, make_train_histograms, bind, lift.
  destruct (open_read _) as [text|e]; [|reflexivity].
  destruct (json_load text) as [h|e]; [|reflexivity].
  rewrite raw_filter_refines, raw_aggregate_refines.
  unfold Raw.of_history. rewrite length_map. reflexivity.
Qed.


(** A history whose second run has lost its entry ["dynamic"]: the
    aggregation raises [KeyError] in the turn of that run. *)
Lemma raw_missing_dynamic_raises :
  Raw.aggregate_backtest_stats Raw.history_without_dynamic = Raise KeyError.
Proof. reflexivity. Qed.

Lemma aggregate_loop_dates (l : history) :
  forall acc acc',
    for_each aggregate_step l acc = Ok acc' ->
    bs_test_start acc'
    = fold_left (fun cur it => or_keep (test_start (snd it)) cur) l (bs_test_start acc)
    /\ bs_test_end acc'
       = fold_left (fun cur it => or_keep (test_end (snd it)) cur) l (bs_test_end acc)
    /\ bs_trading_period_length acc'
       = fold_left
           (fun cur it => or_keep (MakeTrainHistograms.trading_period_length (snd it)) cur)
           l (bs_trading_period_length acc).
Proof.
  induction l as [|[timestamp run] l IH]; intros acc acc' H.
  - injection H as <-. cbn. tauto.
  - cbn [for_each] in H. unfold aggregate_step at 1 in H.
    destruct (getitem (initial_weights run) 0) as [cash|]; [|discriminate].
    cbn [obind] in H. apply IH in H. cbn in H. exact H.
Qed.

Lemma fold_or_keep {A} (f : A -> option string) (l : list A) :
  forall d,
    fold_left (fun cur it => or_keep (f it) cur) l d
    = match More.last_some (map f l) with
      | Some s => s
      | None => d
      end.
Proof.
  induction l as [|a l IH]; intros d; [reflexivity|].
  cbn [fold_left map More.last_some]. rewrite IH.
  destruct (More.last_some (map f l)); [reflexivity|].
  destruct (f a); reflexivity.
Qed.

(** X2.  The start date, the end date and the trading period that
    [aggregate_backtest_stats] returns are those of the last run that
    carries them, and "NA" when no run does (the equal-weight values, by
    contrast, are those of the first run). *)
Theorem aggregate_shows_last_dates (fh : history) (bs : backtest_stats) :
  aggregate_backtest_stats fh = Ok bs ->
  bs_test_start bs = More.shown (map (fun it => test_start (snd it)) fh)
  /\ bs_test_end bs = More.shown (map (fun it => test_end (snd it)) fh)
  /\ bs_trading_period_length bs
     = More.shown (map (fun it => MakeTrainHistograms.trading_period_length (snd it)) fh).
Proof.
  intros H. destruct fh as [|[fk first] rest]; [discriminate|].
  destruct (aggregate_is_loop fk first rest) as (init & E & Hs & He & Hp & _).
  rewrite E in H. apply aggregate_loop_dates in H.
  rewrite Hs, He, Hp in H. unfold More.shown.
  rewrite <- !(fold_or_keep (fun it : string * session_stats => _ (snd it))).
  exact H.
Qed.

Lemma aggregate_shows_last_dates_witness :
  exists bs,
    aggregate_backtest_stats More.dated_history = Ok bs
    /\ bs_test_start bs = "2019-02-01"%string
    /\ bs_test_end bs = "NA"%string.
Proof.
  assert (Hok : exists bs, aggregate_backtest_stats More.dated_history = Ok bs).
  { apply aggregate_returns; [discriminate|].
    intros timestamp run [H|[H|[H|[]]]]; injection H as _ <-; discriminate. }
  destruct Hok as [bs Hbs]. exists bs. split; [exact Hbs|].
  destruct (aggregate_shows_last_dates More.dated_history bs Hbs) as (H1 & H2 & _).
  split; [exact H1 | exact H2].
Defined.

(** ** The order and the fixed points of the filter *)

(** X3.  [filter_history_dict] keeps the order of the input: its result is
    the sequence of the entries of the input that pass the two tests, in
    the order in which the input holds them, so that it has at most as
    many entries as the input. *)
Theorem filter_history_dict_keeps_order (history_dict : history) :
  dict_wf history_dict ->
  items (filter_history_dict history_dict)
  = filter (fun item => Spec.keeps (snd item)) (items history_dict)
  /\ (List.length (filter_history_dict history_dict) <= List.length history_dict)%nat.
Proof.
  intros Hwf. unfold items.
  rewrite (filter_history_dict_filter history_dict Hwf).
  split; [reflexivity | apply filter_length_le].
Qed.

Lemma filter_history_dict_keeps_order_witness :
  items (filter_history_dict Sample.history4)
  = filter (fun item => Spec.keeps (snd item)) (items Sample.history4)
  /\ (List.length (filter_history_dict Sample.history4) <= 4)%nat.
Proof.
  exact (filter_history_dict_keeps_order Sample.history4 sample_history4_wf).
Defined.

Lemma filter_fixed {A} (p : A -> bool) (l : list A) :
  filter p l = l <-> forall a, In a l -> p a = true.
Proof.
  induction l as [|a l IH]; cbn [filter].
  - split; [intros _ a [] | reflexivity].
  - destruct (p a) eqn:E.
    + split.
      * intros H a' [<-|Hin]; [exact E|]. injection H as H. now apply IH.
      * intros H. f_equal. apply IH. intros a' Hin. apply H. now right.
    + split.
      * intros H. exfalso. pose proof (filter_length_le p l) as Hle.
        rewrite H in Hle. cbn in Hle. lia.
      * intros H. specialize (H a (or_introl eq_refl)). congruence.
Qed.

(** X4.  [filter_history_dict] returns its argument unchanged exactly when
    every run of the argument has all its initial weights within 0 and
    0.7. *)
Theorem filter_history_dict_fixed_iff (history_dict : history) :
  dict_wf history_dict ->
  (filter_history_dict history_dict = history_dict
   <-> forall timestamp run,
       In (timestamp, run) history_dict -> Spec.weights_within_bounds run).
Proof.
  intros Hwf. rewrite (filter_history_dict_filter history_dict Hwf).
  split.
  - intros H timestamp run Hin. apply keeps_iff.
    exact (proj1 (filter_fixed _ _) H (timestamp, run) Hin).
  - intros H. apply filter_fixed. intros [timestamp run] Hin.
    apply keeps_iff. eauto.
Qed.

Lemma sample_history2_wf : dict_wf Sample.history2.
Proof.
  unfold dict_wf. simpl.
  repeat (constructor; [simpl; intuition discriminate|]). constructor.
Qed.

Lemma filter_history_dict_fixed_iff_witness :
  filter_history_dict Sample.history2 = Sample.history2.
Proof.
  apply (filter_history_dict_fixed_iff Sample.history2 sample_history2_wf).
  intros timestamp run [H|[H|[]]]; injection H as _ <-;
    intros value [<-|[<-|[]]]; lra.
Defined.

(** ** What the report counts *)

Lemma aggregate_one_per_run (fh : history) (bs : backtest_stats) :
  aggregate_backtest_stats fh = Ok bs -> Spec.one_per_run fh bs.
Proof.
  intros H. destruct fh as [|[fk first] rest]; [discriminate|].
  destruct (aggregate_is_loop fk first rest)
    as (init & E & _ & _ & _ & I1 & I2 & I3 & I4 & I5 & I6 & I7 & I8 & I9 & _).
  rewrite E in H.
  pose proof (aggregate_loop_outcome ((fk, first) :: rest) init) as Hw.
  rewrite H in Hw.
  destruct (aggregate_loop _ init Hw) as [bs' [Hbs' Hext]].
  assert (bs' = bs) by congruence. subst bs'.
  destruct Hext as (H1 & H2 & H3 & H4 & H5 & H6 & H7 & H8 & H9 & _).
  rewrite I1 in H1. rewrite I2 in H2. rewrite I3 in H3. rewrite I4 in H4.
  rewrite I5 in H5. rewrite I6 in H6. rewrite I7 in H7. rewrite I8 in H8.
  rewrite I9 in H9. cbn [app] in *.
  apply (f_equal (@List.length _)) in H7.
  rewrite length_app, !length_map in H7. cbn [List.length plus] in H7.
  unfold Spec.one_per_run. cbn zeta.
  rewrite H1, H2, H3, H4, H5, H6, H8, H9, !length_map. tauto.
Qed.

(** X5.  When the history file is read and the aggregation returns, the
    report that [make_train_histograms] saves counts, as its number of
    simulations, the runs of the file whose weights are within the bounds,
    and each of its eight histograms is drawn over that many values. *)
Theorem report_counts_kept_runs
        (open_read : string -> outcome string)
        (json_load : string -> outcome history)
        (session_name text : string) (h : history) (bs : backtest_stats)
        (evs : list (Plt.event MakeTrainHistograms.figure)) :
  open_read (json_path session_name) = Ok text ->
  json_load text = Ok h ->
  dict_wf h ->
  aggregate_backtest_stats (filter_history_dict h) = Ok bs ->
  let kept := List.length (filter (fun item => Spec.keeps (snd item)) h) in
  exists fig,
    make_train_histograms open_read json_load session_name evs
    = (Ok tt, evs ++ [Plt.Savefig (MakeTrainHistograms.output_path session_name) fig])
    /\ nth_error (Plt.cellText (crypto_table (fig_tables fig))) 0
       = Some [Plt.Text "No. of simulations"; Plt.Count kept]
    /\ List.length (fig_histograms fig) = 8%nat
    /\ Forall (fun hist => List.length (h_data hist) = kept) (fig_histograms fig).
Proof.
  intros Hopen Hjson Hwf Hagg kept.
  pose proof (aggregate_one_per_run _ _ Hagg) as Hone.
  unfold Spec.one_per_run in Hone. cbn zeta in Hone.
  rewrite (filter_history_dict_filter h Hwf) in Hone. fold kept in Hone.
  destruct Hone as (H1 & H2 & H3 & H4 & H5 & H6 & H7 & H8 & H9).
  unfold make_train_histograms, bind, lift. rewrite Hopen, Hjson, Hagg.
  eexists. split; [reflexivity|]. cbn [fig_tables fig_histograms].
  split.
  { cbn. rewrite (filter_history_dict_filter h Hwf). reflexivity. }
  split; [reflexivity|].
  repeat constructor; cbn [h_data _plot_histogram]; assumption.
Qed.

Lemma report_counts_kept_runs_witness :
  exists fig,
    make_train_histograms Sample.open_read Sample.json_load "demo" []
    = (Ok tt, [Plt.Savefig "train_histograms/histogram_demo.png" fig])
    /\ nth_error (Plt.cellText (crypto_table (fig_tables fig))) 0
       = Some [Plt.Text "No. of simulations"; Plt.Count 2].
Proof.
  assert (Hagg : aggregate_backtest_stats (filter_history_dict Sample.history4)
                 = Ok Sample.stats2)
    by (rewrite sample_filter; apply sample_aggregate).
  destruct (report_counts_kept_runs Sample.open_read Sample.json_load "demo"
              "history4" Sample.history4 Sample.stats2 [] eq_refl eq_refl
              sample_history4_wf Hagg) as (fig & Hrun & Hcount & _).
  exists fig. split; [exact Hrun|].
  rewrite Hcount. unfold Sample.history4. cbn [filter snd].
  now rewrite !sample_keeps_zero, sample_rejects_negative, sample_rejects_huge.
Defined.

(** ** The main block of [make_train_histograms.py] *)

(** A report is made in the same way whatever has been saved before. *)
Lemma report_state_independent
      (open_read : string -> outcome string) (json_load : string -> outcome history)
      (session_name : string) (evs : list (Plt.event MakeTrainHistograms.figure)) :
  make_train_histograms open_read json_load session_name evs
  = (fst (make_train_histograms open_read json_load session_name []),
     evs ++ snd (make_train_histograms open_read json_load session_name [])).
Proof.
  unfold make_train_histograms, bind, lift.
  destruct (open_read _) as [text|e]; [|cbn; now rewrite app_nil_r].
  destruct (json_load text) as [h|e]; [|cbn; now rewrite app_nil_r].
  destruct (aggregate_backtest_stats _) as [bs|e]; [|cbn; now rewrite app_nil_r].
  reflexivity.
Qed.

Lemma for_each_M_cons {S A} (body : A -> M S unit) (x : A) (xs : list A) (s : S) :
  Scripts.for_each_M body (x :: xs) s
  = match body x s with
    | (Ok _, s') => Scripts.for_each_M body xs s'
    | (Raise e, s') => (Raise e, s')
    end.
Proof. reflexivity. Qed.

(** X6.  The loop over the sessions stops at the first session whose report
    fails: it raises the exception of that session, the reports of the
    sessions before it are saved, one file each and in their order, and no
    later session is looked at; when no session fails, every report is
    saved. *)
Theorem sessions_stop_at_first_failure
        (open_read : string -> outcome string) (json_load : string -> outcome history)
        (names : list string) (evs : list (Plt.event MakeTrainHistograms.figure)) :
  fst (Scripts.make_all_train_histograms open_read json_load names evs)
  = match More.drop_while (More.session_ok open_read json_load) names with
    | [] => Ok tt
    | failing :: _ => fst (make_train_histograms open_read json_load failing [])
    end
  /\ Plt.saved_paths
       (snd (Scripts.make_all_train_histograms open_read json_load names evs))
     = Plt.saved_paths evs
       ++ map MakeTrainHistograms.output_path
            (More.take_while (More.session_ok open_read json_load) names).
Proof.
  unfold Scripts.make_all_train_histograms. revert evs.
  induction names as [|name names IH]; intros evs.
  - cbn. now rewrite app_nil_r.
  - rewrite for_each_M_cons. cbn [More.drop_while More.take_while].
    rewrite (report_state_independent open_read json_load name evs).
    pose proof (report_saved_paths open_read json_load name []) as Hpaths.
    destruct (make_train_histograms open_read json_load name [])
      as [[u|e] evs1] eqn:Erun.
    + assert (Hs : More.session_ok open_read json_load name = true)
        by (unfold More.session_ok; now rewrite Erun).
      rewrite Hs. cbn [fst snd] in *. destruct (IH (evs ++ evs1)) as [IH1 IH2].
      split; [exact IH1|]. rewrite IH2, saved_paths_app, Hpaths. cbn [app map].
      now rewrite <- app_assoc.
    + assert (Hs : More.session_ok open_read json_load name = false)
        by (unfold More.session_ok; now rewrite Erun).
      rewrite Hs, Erun. cbn [fst snd] in *. split; [reflexivity|].
      rewrite saved_paths_app, Hpaths. reflexivity.
Qed.

(** The sessions of the main block, on the sample files: the first session
    has no file, so that nothing is saved. *)
Lemma sample_sessions :
  Scripts.make_all_train_histograms Sample.open_read Sample.json_load
    Scripts.session_names []
  = (Raise FileNotFoundError, []).
Proof. reflexivity. Qed.

(** ** The baseline series: its index, its short segments, its scale *)

Lemma shifted_segment_length (n : Z) (data : list (Z * R)) :
  (0 <= n)%Z ->
  List.length (slice_from n (map (fun row => (fst row + 7200, snd row)%Z) data))
  = List.length (skipn (Z.to_nat n) data).
Proof.
  intros H. rewrite slice_from_nonneg by exact H.
  now rewrite skipn_map, length_map.
Qed.

(** X7.  When the test segment of the price file has fewer than two rows,
    in particular when the train and validation steps use up the file,
    [_get_btc_price_data_for_period] raises [UnboundLocalError] (its loop
    variable is read without the loop having had a turn), and
    [plot_train_results] raises it without saving a figure. *)
Theorem btc_short_segment_raises (rt : runtime) (cfg : train_configs)
        (steps : train_test_val_steps) (data : list (Z * R))
        (tr : train_performance) (te : test_performance) (asset_list : list string)
        (secs : R) (evs : list (Plt.event PlotTrainResults.figure)) :
  (0 <= train steps + validation steps)%Z ->
  read_csv rt (btc_price_fp cfg) = Ok data ->
  (List.length (Spec.test_segment steps data) <= 1)%nat ->
  _get_btc_price_data_for_period rt cfg steps = Raise UnboundLocalError
  /\ plot_train_results rt cfg tr te asset_list secs steps evs
     = (Raise UnboundLocalError, evs).
Proof.
  intros Hsteps Hread Hlen.
  assert (E : _get_btc_price_data_for_period rt cfg steps = Raise UnboundLocalError).
  { unfold _get_btc_price_data_for_period. rewrite Hread. cbn [obind].
    apply btc_series_of_rows_short.
    rewrite shifted_segment_length by exact Hsteps. exact Hlen. }
  split; [exact E | now apply plot_btc_raises].
Qed.

Lemma btc_short_segment_raises_witness :
  _get_btc_price_data_for_period Sample.rt (Sample.configs true) More.late_steps
  = Raise UnboundLocalError
  /\ plot_train_results Sample.rt (Sample.configs true) Sample.train_lists
       Sample.test_lists ["ETH"%string] 12 More.late_steps []
     = (Raise UnboundLocalError, []).
Proof.
  apply (btc_short_segment_raises Sample.rt (Sample.configs true) More.late_steps
           Sample.rows).
  - cbn. lia.
  - reflexivity.
  - change (Spec.test_segment More.late_steps Sample.rows)
      with (skipn 3 Sample.rows). cbn. lia.
Defined.

(** X8.  The series that [_get_btc_price_data_for_period] returns has one
    row per row of the test segment, and its index holds the dates of the
    segment, each moved forward by two hours. *)
Theorem btc_series_index (rt : runtime) (cfg : train_configs)
        (steps : train_test_val_steps) (data : list (Z * R)) :
  (0 <= train steps + validation steps)%Z ->
  read_csv rt (btc_price_fp cfg) = Ok data ->
  (2 <= List.length (Spec.test_segment steps data))%nat ->
  exists ts sharpe,
    _get_btc_price_data_for_period rt cfg steps = Ok (ts, sharpe)
    /\ List.length ts = List.length (Spec.test_segment steps data)
    /\ map fst ts
       = map (fun row => (fst row + 2 * 60 * 60)%Z) (Spec.test_segment steps data).
Proof.
  intros Hsteps Hread Hlen.
  pose proof (btc_period_exact rt cfg steps data Hsteps Hread Hlen) as Hok.
  cbn zeta in Hok. do 2 eexists. split; [exact Hok|].
  assert (Hl : List.length (map (fun row : Z * R => (fst row + 7200)%Z)
                              (Spec.test_segment steps data))
               = List.length (Spec.baseline (portfolio_value cfg)
                                (map snd (Spec.test_segment steps data)))).
  { now rewrite baseline_length, !length_map. }
  split.
  - rewrite length_combine, <- Hl, length_map. apply Nat.min_id.
  - now rewrite (fst_combine _ _ Hl).
Qed.

Lemma btc_series_index_witness :
  exists ts sharpe,
    _get_btc_price_data_for_period Sample.rt (Sample.configs true) Sample.steps
    = Ok (ts, sharpe)
    /\ List.length ts = 4%nat
    /\ map fst ts = [1546308000; 1546394400; 1546480800; 1546567200]%Z.
Proof.
  assert (H0 : (0 <= train Sample.steps + validation Sample.steps)%Z)
    by (cbn; lia).
  assert (H2 : (2 <= List.length (Spec.test_segment Sample.steps Sample.rows))%nat)
    by (rewrite sample_segment; cbn; lia).
  exact (btc_series_index Sample.rt (Sample.configs true) Sample.steps Sample.rows
           H0 eq_refl H2).
Defined.

(** X9.  [plot_train_results] needs as many portfolio values of the agent
    as the test segment has rows: with another number the series of the
    agent cannot take the index of the baseline, [ValueError] is raised and
    no figure is saved. *)
Theorem plot_needs_matching_lengths (rt : runtime) (cfg : train_configs)
        (steps : train_test_val_steps) (data : list (Z * R))
        (tr : train_performance) (te : test_performance) (asset_list : list string)
        (secs : R) (evs : list (Plt.event PlotTrainResults.figure)) :
  (0 <= train steps + validation steps)%Z ->
  read_csv rt (btc_price_fp cfg) = Ok data ->
  (2 <= List.length (Spec.test_segment steps data))%nat ->
  List.length (p_list te) <> List.length (Spec.test_segment steps data) ->
  plot_train_results rt cfg tr te asset_list secs steps evs = (Raise ValueError, evs).
Proof.
  intros Hsteps Hread Hlen Hne.
  pose proof (btc_period_exact rt cfg steps data Hsteps Hread Hlen) as Hok.
  cbn zeta in Hok.
  unfold plot_train_results, bind, lift. rewrite Hok. cbn [fst snd].
  unfold _plot_portfolio_value_progress_test, Pd.mk_series.
  assert (Hl : List.length
                 (map fst
                    (combine (map (fun row : Z * R => (fst row + 7200)%Z)
                                (Spec.test_segment steps data))
                       (Spec.baseline (portfolio_value cfg)
                          (map snd (Spec.test_segment steps data)))))
               = List.length (Spec.test_segment steps data)).
  { rewrite length_map, length_combine, baseline_length, !length_map.
    apply Nat.min_id. }
  rewrite Hl. destruct (Nat.eqb_spec (List.length (p_list te))
                          (List.length (Spec.test_segment steps data)));
    [contradiction | reflexivity].
Qed.

Lemma plot_needs_matching_lengths_witness :
  plot_train_results Sample.rt (Sample.configs true) Sample.train_lists
    More.short_test_lists ["ETH"%string] 12 Sample.steps []
  = (Raise ValueError, []).
Proof.
  apply (plot_needs_matching_lengths Sample.rt (Sample.configs true) Sample.steps
           Sample.rows).
  - cbn. lia.
  - reflexivity.
  - rewrite sample_segment. cbn. lia.
  - rewrite sample_segment. cbn. lia.
Defined.

(** ** The place of the price file *)

Lemma endswith_sep_app (a : string) (c : ascii) (b : string) :
  Os.endswith_sep (a ++ String c b) = Os.endswith_sep (String c b).
Proof.
  induction a as [|c' a IH]; [reflexivity|].
  change (String c' a ++ String c b)%string with (String c' (a ++ String c b)).
  destruct (a ++ String c b)%string as [|x y] eqn:E.
  - destruct a; discriminate.
  - change (Os.endswith_sep (String c' (String x y)))
      with (Os.endswith_sep (String x y)).
    exact IH.
Qed.

Lemma endswith_sep_dash (e : string) :
  Os.endswith_sep e = false -> Os.endswith_sep (String "-" e) = false.
Proof. destruct e; [reflexivity | cbn; auto]. Qed.

Lemma startswith_sep_app (s t : string) :
  Os.startswith_sep s = false ->
  Os.startswith_sep (s ++ String "-" t) = false.
Proof. destruct s; [reflexivity | cbn; auto]. Qed.

Lemma append_assoc (a b c : string) : ((a ++ b) ++ c = a ++ (b ++ c))%string.
Proof. induction a as [|x a IH]; cbn; [reflexivity | now rewrite IH]. Qed.

Lemma join_absolute (path b : string) :
  Os.startswith_sep b = true -> Os.join_step path b = b.
Proof. intros H. unfold Os.join_step. now rewrite H. Qed.

Lemma join_relative (path b : string) :
  Os.startswith_sep b = false ->
  path <> ""%string ->
  Os.endswith_sep path = false ->
  Os.join_step path b = (path ++ "/" ++ b)%string.
Proof.
  intros Hb Hne He. unfold Os.join_step. rewrite Hb, He.
  destruct path; [congruence | reflexivity].
Qed.

(** X10.  For a start date that does not begin with a slash and an end
    date that does not end with one, the price file is looked for at
    'crypto_data/USDT_BTC/<start>-<end>/USDT_BTC_<start>-<end>_<period>.csv';
    a start date that begins with a slash makes [os.path.join] drop the
    data directory, so that the file is looked for under the root. *)
Theorem btc_price_file_path (cfg : train_configs) :
  let range := (start_date cfg ++ "-" ++ end_date cfg)%string in
  let name :=
    ("USDT_BTC_" ++ start_date cfg ++ "-" ++ end_date cfg ++ "_"
       ++ PlotTrainResults.trading_period_length cfg ++ ".csv")%string in
  Os.endswith_sep (end_date cfg) = false ->
  (Os.startswith_sep (start_date cfg) = false ->
   btc_price_fp cfg = ("crypto_data/USDT_BTC/" ++ range ++ "/" ++ name)%string)
  /\ (Os.startswith_sep (start_date cfg) = true ->
      btc_price_fp cfg = (range ++ "/" ++ name)%string).
Proof.
  intros range name Hend.
  assert (Hr : Os.endswith_sep range = false).
  { unfold range. cbn [String.append]. rewrite endswith_sep_app.
    now apply endswith_sep_dash. }
  assert (Hrne : range <> ""%string).
  { unfold range. destruct (start_date cfg); discriminate. }
  assert (Hname : Os.startswith_sep name = false) by reflexivity.
  assert (E : btc_price_fp cfg
              = Os.join_step (Os.join_step "crypto_data/USDT_BTC" range) name)
    by reflexivity.
  rewrite E. clear E. clearbody name. split; intros Hstart.
  - assert (Hs : Os.startswith_sep range = false)
      by (unfold range; now apply startswith_sep_app).
    rewrite (join_relative "crypto_data/USDT_BTC" range Hs);
      [|discriminate|reflexivity].
    rewrite (join_relative _ name Hname).
    + rewrite !append_assoc. reflexivity.
    + discriminate.
    + destruct range as [|c r]; [congruence|].
      change ("crypto_data/USDT_BTC" ++ "/" ++ String c r)%string
        with ("crypto_data/USDT_BTC/" ++ String c r)%string.
      rewrite endswith_sep_app. exact Hr.
  - assert (Hs : Os.startswith_sep range = true).
    { unfold range. destruct (start_date cfg); [discriminate | exact Hstart]. }
    rewrite (join_absolute "crypto_data/USDT_BTC" range Hs).
    now rewrite (join_relative range name Hname Hrne Hr).
Qed.

Lemma btc_price_file_path_witness :
  btc_price_fp (Sample.configs true)
  = "crypto_data/USDT_BTC/20190101-20190301/USDT_BTC_20190101-20190301_1d.csv"%string.
Proof.
  destruct (btc_price_file_path (Sample.configs true) eq_refl) as [H _].
  exact (H eq_refl).
Defined.

(** ** The scale of the baseline *)

Lemma baseline_from_scale (k : R) (cs : list R) :
  forall v c,
    Spec.baseline_from (k * v) c cs = map (Rmult k) (Spec.baseline_from v c cs).
Proof.
  induction cs as [|c1 cs IH]; intros v c; [reflexivity|].
  cbn [Spec.baseline_from map].
  replace (k * v * (c1 / c - 1 + 1)) with (k * (v * (c1 / c - 1 + 1))) by ring.
  now rewrite IH.
Qed.

Lemma baseline_scale (k v : R) (closes : list R) :
  Spec.baseline (k * v) closes = map (Rmult k) (Spec.baseline v closes).
Proof.
  destruct closes as [|c cs]; [reflexivity|].
  cbn [Spec.baseline map]. now rewrite baseline_from_scale.
Qed.

Lemma sum_scale (k : R) (xs : list R) :
  fold_right Rplus 0 (map (Rmult k) xs) = k * fold_right Rplus 0 xs.
Proof.
  induction xs as [|x xs IH]; cbn [map fold_right]; [ring|]. rewrite IH. ring.
Qed.

Lemma mean_scale (k : R) (xs : list R) :
  Spec.arithmetic_mean (map (Rmult k) xs) = k * Spec.arithmetic_mean xs.
Proof.
  unfold Spec.arithmetic_mean. rewrite sum_scale, length_map.
  unfold Rdiv. ring.
Qed.

Lemma std_scale (k : R) (xs : list R) :
  0 <= k ->
  Spec.population_std (map (Rmult k) xs) = k * Spec.population_std xs.
Proof.
  intros Hk. unfold Spec.population_std. rewrite mean_scale, length_map, map_map.
  replace (fold_right Rplus 0
             (map (fun x => Rsqr (k * x - k * Spec.arithmetic_mean xs)) xs))
    with (fold_right Rplus 0
            (map (Rmult (k * k)) (map (fun x => Rsqr (x - Spec.arithmetic_mean xs)) xs))).
  - rewrite sum_scale.
    replace (k * k * fold_right Rplus 0
                       (map (fun x => Rsqr (x - Spec.arithmetic_mean xs)) xs)
             / INR (List.length xs))
      with (k * k * (fold_right Rplus 0
                       (map (fun x => Rsqr (x - Spec.arithmetic_mean xs)) xs)
                     / INR (List.length xs)))
      by (unfold Rdiv; ring).
    rewrite sqrt_mult_alt by nra. now rewrite sqrt_square.
  - rewrite map_map. f_equal. apply map_ext. intros x. unfold Rsqr. ring.
Qed.

Lemma last_scale (k : R) (xs : list R) :
  last (map (Rmult k) xs) 0 = k * last xs 0.
Proof.
  induction xs as [|x xs IH]; [cbn; ring|].
  destruct xs as [|y xs]; [reflexivity|].
  change (last (map (Rmult k) (x :: y :: xs)) 0)
    with (last (map (Rmult k) (y :: xs)) 0).
  change (last (x :: y :: xs) 0) with (last (y :: xs) 0). exact IH.
Qed.

Lemma hd_scale (k : R) (xs : list R) :
  hd 0 (map (Rmult k) xs) = k * hd 0 xs.
Proof. destruct xs; cbn; [ring | reflexivity]. Qed.

(** The gain over the volatility does not change when the series is
    scaled by a positive factor. *)
Lemma gain_over_volatility_scale (k : R) (xs : list R) :
  0 < k ->
  Spec.population_std xs <> 0 ->
  Spec.gain_over_volatility (map (Rmult k) xs) = Spec.gain_over_volatility xs.
Proof.
  intros Hk Hs. unfold Spec.gain_over_volatility.
  rewrite last_scale, hd_scale, std_scale by lra.
  field. split; [exact Hs | lra].
Qed.

(** X11.  The initial portfolio value scales the baseline series and
    leaves its Sharpe value as it is: for two positive initial values the
    series are proportional and, when the series is not constant (its
    standard deviation is not zero), the Sharpe values are equal. *)
Theorem btc_sharpe_ignores_initial_value (rt : runtime) (cfg : train_configs)
        (steps : train_test_val_steps) (data : list (Z * R)) (v : R) :
  (0 <= train steps + validation steps)%Z ->
  read_csv rt (btc_price_fp cfg) = Ok data ->
  (2 <= List.length (Spec.test_segment steps data))%nat ->
  0 < portfolio_value cfg ->
  0 < v ->
  exists ts sharpe ts' sharpe',
    _get_btc_price_data_for_period rt cfg steps = Ok (ts, sharpe)
    /\ _get_btc_price_data_for_period rt (More.with_portfolio_value cfg v) steps
       = Ok (ts', sharpe')
    /\ map snd ts' = map (Rmult (v / portfolio_value cfg)) (map snd ts)
    /\ (Spec.population_std (map snd ts) <> 0 -> sharpe' = sharpe).
Proof.
  intros Hsteps Hread Hlen Hpv Hv.
  destruct (btc_period_sharpe rt cfg steps data Hsteps Hread Hlen) as [ts [Hok Hvals]].
  destruct (btc_period_sharpe rt (More.with_portfolio_value cfg v) steps data
              Hsteps Hread Hlen) as [ts' [Hok' Hvals']].
  exists ts, (Spec.gain_over_volatility (map snd ts)),
         ts', (Spec.gain_over_volatility (map snd ts')).
  split; [exact Hok|]. split; [exact Hok'|].
  assert (E : map snd ts' = map (Rmult (v / portfolio_value cfg)) (map snd ts)).
  { rewrite Hvals', Hvals, <- baseline_scale. f_equal.
    cbn [More.with_portfolio_value portfolio_value]. field. lra. }
  split; [exact E|].
  intros Hs. rewrite E. apply gain_over_volatility_scale; [|exact Hs].
  apply Rdiv_lt_0_compat; assumption.
Qed.

Lemma btc_sharpe_ignores_initial_value_witness :
  exists ts sharpe ts' sharpe',
    _get_btc_price_data_for_period Sample.rt (Sample.configs true) Sample.steps
    = Ok (ts, sharpe)
    /\ _get_btc_price_data_for_period Sample.rt
         (More.with_portfolio_value (Sample.configs true) 10000) Sample.steps
       = Ok (ts', sharpe')
    /\ map snd ts' = map (Rmult (10000 / 1)) (map snd ts).
Proof.
  assert (H0 : (0 <= train Sample.steps + validation Sample.steps)%Z)
    by (cbn; lia).
  assert (H2 : (2 <= List.length (Spec.test_segment Sample.steps Sample.rows))%nat)
    by (rewrite sample_segment; cbn; lia).
  assert (H3 : 0 < portfolio_value (Sample.configs true)) by (cbn; lra).
  assert (H4 : 0 < 10000) by lra.
  destruct (btc_sharpe_ignores_initial_value Sample.rt (Sample.configs true)
              Sample.steps Sample.rows 10000 H0 eq_refl H2 H3 H4)
    as (ts & sharpe & ts' & sharpe' & Hok & Hok' & Hvals & _).
  exists ts, sharpe, ts', sharpe'. split; [exact Hok|]. split; [exact Hok'|].
  exact Hvals.
Defined.

(** ** The table of final values *)

(** X12.  [_plot_sharpe_table] returns exactly when the two test lists and
    the baseline series (a series over dates, as
    [_get_btc_price_data_for_period] returns it) are not empty, and raises
    [IndexError] otherwise;
    the table it returns has three rows, and its column 'MDD' is empty
    ([None]) in each of them. *)
Theorem sharpe_table_returns_iff (te : test_performance) (sharpe : R)
        (ts : Pd.timeseries) :
  ((exists tbl, _plot_sharpe_table te sharpe ts = Ok tbl)
   <-> p_list te <> [] /\ p_list_eq te <> [] /\ ts <> [])
  /\ (forall e, _plot_sharpe_table te sharpe ts = Raise e -> e = IndexError)
  /\ (forall tbl,
         _plot_sharpe_table te sharpe ts = Ok tbl ->
         List.length (Plt.cellText tbl) = 3%nat
         /\ forall row, In row (Plt.cellText tbl) ->
                        Spec.cell_under tbl "MDD" row = Some Plt.NoneCell).
Proof.
  unfold _plot_sharpe_table.
  rewrite (getitem_last_outcome (p_list te) 0),
          (getitem_last_outcome (p_list_eq te) 0),
          (getitem_last_outcome (map snd ts) 0).
  destruct (p_list te) as [|p ps]; cbn [obind].
  { split; [split|split].
    - intros [tbl H]; discriminate.
    - intros [H _]; congruence.
    - intros e [= <-]; reflexivity.
    - intros tbl H; discriminate. }
  destruct (p_list_eq te) as [|q qs]; cbn [obind].
  { split; [split|split].
    - intros [tbl H]; discriminate.
    - intros (_ & H & _); congruence.
    - intros e [= <-]; reflexivity.
    - intros tbl H; discriminate. }
  destruct ts as [|[d v] ts]; cbn [map obind].
  { split; [split|split].
    - intros [tbl H]; discriminate.
    - intros (_ & _ & H); congruence.
    - intros e [= <-]; reflexivity.
    - intros tbl H; discriminate. }
  split; [split|split].
  - intros _. repeat split; discriminate.
  - intros _. eexists. reflexivity.
  - intros e H. discriminate.
  - intros tbl [= <-]. split; [reflexivity|].
    intros row [<-|[<-|[<-|[]]]]; reflexivity.
Qed.

Lemma baseline_last (cs : list R) :
  forall v c,
    Forall (fun x => x <> 0) (c :: cs) ->
    last (Spec.baseline v (c :: cs)) 0 = v * last (c :: cs) 0 / c.
Proof.
  unfold Spec.baseline.
  induction cs as [|c1 cs IH]; intros v c Hnz.
  - inversion Hnz; subst. cbn. now field.
  - inversion Hnz as [|? ? Hc Hnz']; subst. inversion Hnz'; subst.
    cbn [Spec.baseline_from]. set (v1 := v * (c1 / c - 1 + 1)).
    change (last (v :: v1 :: Spec.baseline_from v1 c1 cs) 0)
      with (last (v1 :: Spec.baseline_from v1 c1 cs) 0).
    change (last (c :: c1 :: cs) 0) with (last (c1 :: cs) 0).
    rewrite (IH v1 c1 Hnz'). unfold v1. field. split; assumption.
Qed.

(** X13.  The final value that the table shows for the strategy "Long
    Bitcoin" is, rounded to 2 decimal places, the initial portfolio value
    times the last close price of the test segment over its first close
    price (the close prices of the segment being non-zero, and the two
    test lists not empty). *)
Theorem btc_final_value_cell (rt : runtime) (cfg : train_configs)
        (steps : train_test_val_steps) (data : list (Z * R))
        (te : test_performance) :
  (0 <= train steps + validation steps)%Z ->
  read_csv rt (btc_price_fp cfg) = Ok data ->
  (2 <= List.length (Spec.test_segment steps data))%nat ->
  Forall (fun c => c <> 0) (map snd (Spec.test_segment steps data)) ->
  p_list te <> [] ->
  p_list_eq te <> [] ->
  let closes := map snd (Spec.test_segment steps data) in
  exists ts sharpe tbl row,
    _get_btc_price_data_for_period rt cfg steps = Ok (ts, sharpe)
    /\ _plot_sharpe_table te sharpe ts = Ok tbl
    /\ nth_error (Plt.cellText tbl) 2 = Some row
    /\ nth_error row 0 = Some (Plt.Text "Long Bitcoin")
    /\ Spec.cell_under tbl "fAPV" row
       = Some (Plt.Num (Np.round (portfolio_value cfg * last closes 0 / hd 0 closes) 2)).
Proof.
  intros Hsteps Hread Hlen Hnz Hp Hq closes.
  destruct (btc_period_sharpe rt cfg steps data Hsteps Hread Hlen) as [ts [Hok Hvals]].
  fold closes in Hvals, Hnz.
  assert (Hcl : exists c0 cs, closes = c0 :: cs).
  { unfold closes. destruct (Spec.test_segment steps data) as [|[d c] l];
      [cbn in Hlen; lia | cbn; eauto]. }
  destruct Hcl as [c0 [cs Ecl]].
  assert (Hlast : last (map snd ts) 0 = portfolio_value cfg * last closes 0 / hd 0 closes).
  { rewrite Hvals, Ecl. rewrite Ecl in Hnz. cbn [hd]. now apply baseline_last. }
  exists ts, (Spec.gain_over_volatility (map snd ts)).
  unfold _plot_sharpe_table.
  rewrite (getitem_last_outcome (p_list te) 0),
          (getitem_last_outcome (p_list_eq te) 0),
          (getitem_last_outcome (map snd ts) 0).
  destruct (p_list te) as [|p ps]; [congruence|].
  destruct (p_list_eq te) as [|q qs]; [congruence|].
  destruct (map snd ts) as [|v vs] eqn:Ets.
  { rewrite Ecl in Hvals. discriminate. }
  cbn [obind]. do 2 eexists. split; [exact Hok|]. split; [reflexivity|].
  split; [reflexivity|]. split; [reflexivity|].
  unfold Spec.cell_under. cbn. now rewrite <- Hlast.
Qed.

Lemma btc_final_value_cell_witness :
  exists ts sharpe tbl row,
    _get_btc_price_data_for_period Sample.rt (Sample.configs true) Sample.steps
    = Ok (ts, sharpe)
    /\ _plot_sharpe_table Sample.test_lists sharpe ts = Ok tbl
    /\ nth_error (Plt.cellText tbl) 2 = Some row
    /\ Spec.cell_under tbl "fAPV" row = Some (Plt.Num (Np.round (1 * 2 / 1) 2)).
Proof.
  assert (H0 : (0 <= train Sample.steps + validation Sample.steps)%Z)
    by (cbn; lia).
  assert (H2 : (2 <= List.length (Spec.test_segment Sample.steps Sample.rows))%nat)
    by (rewrite sample_segment; cbn; lia).
  assert (H3 : Forall (fun c => c <> 0)
                 (map snd (Spec.test_segment Sample.steps Sample.rows))).
  { rewrite sample_segment. cbn. repeat constructor; lra. }
  destruct (btc_final_value_cell Sample.rt (Sample.configs true) Sample.steps
              Sample.rows Sample.test_lists H0 eq_refl H2 H3)
    as (ts & sharpe & tbl & row & Hok & Htbl & Hrow & _ & Hcell);
    [discriminate | discriminate |].
  exists ts, sharpe, tbl, row.
  split; [exact Hok|]. split; [exact Htbl|]. split; [exact Hrow | exact Hcell].
Defined.

(** ** The steps of the three phases *)

Lemma py_int_bounds (x : R) :
  -1 < x -> (0 <= py_int x)%Z /\ IZR (py_int x) <= Rmax x 0 /\ x - 1 < IZR (py_int x).
Proof.
  intros Hx. unfold py_int. destruct (Rltb x 0) eqn:E.
  - apply Rltb_true in E.
    assert (Hc : Zceil x = 0%Z) by (apply Zceil_eq; simpl; lra).
    rewrite Hc. split; [lia|]. split; [apply Rmax_r | lra].
  - apply Rltb_false in E. pose proof (Zfloor_bound x) as [Hlo Hhi].
    split; [apply Zfloor_lub; simpl; lra|].
    split; [apply Rle_trans with x; [exact Hlo | apply Rmax_l] | lra].
Qed.

Lemma Rabs_le_bounds (a b : R) : Rabs a <= b -> - b <= a <= b.
Proof. unfold Rabs. destruct (Rcase_abs a); lra. Qed.

Lemma tiny_error : / 2 ^ 1075 <= / 2 ^ 3.
Proof.
  apply Rinv_le_contravar; [apply pow_lt; lra|].
  apply Rle_pow; [lra | lia].
Qed.

(** The float product of a ratio within 0 and 1 and a number of periods
    below 2^51 is within three eighths of the exact product. *)
Lemma float_mul_near (mul : R -> R -> R) (a : R) (n : Z) :
  More.rounds_to_nearest mul a (IZR n) ->
  0 <= a <= 1 -> (0 <= n < 2 ^ 51)%Z ->
  Rabs (mul a (IZR n) - a * IZR n) <= 3 / 8.
Proof.
  intros Hmul [Ha0 Ha1] [Hn0 Hn1].
  apply IZR_le in Hn0. apply IZR_lt in Hn1.
  assert (Hp : IZR (2 ^ 51) = 2 ^ 51) by (rewrite (pow_IZR 2 51); reflexivity).
  rewrite Hp in Hn1. pose proof tiny_error as Ht.
  eapply Rle_trans; [exact Hmul|].
  assert (Han : 0 <= a * IZR n <= IZR n) by nra.
  rewrite Rabs_pos_eq by lra.
  assert (H53 : 2 ^ 53 = 4 * 2 ^ 51) by (simpl; ring).
  assert (Hpos : 0 < 2 ^ 51) by (apply pow_lt; lra).
  assert (Hq : a * IZR n / 2 ^ 53 <= 1 / 4).
  { rewrite H53. apply Rmult_le_reg_r with (4 * 2 ^ 51); [lra|].
    unfold Rdiv. rewrite Rmult_assoc, Rinv_l by lra. lra. }
  replace (/ 2 ^ 3) with (1 / 8) in Ht by (simpl; field). lra.
Qed.

(** X14.  Let the two products of a ratio and the number of periods be
    the exact products rounded to the nearest float.  For ratios that are not negative and whose sum is at
    most 1, [_get_train_val_test_steps] splits a number of trading periods
    that is not negative (and below 2^51) into three numbers of steps that
    are not negative and add up to it; the train and the validation steps
    are within one and a half of the train and the validation ratio of the
    periods. *)
Theorem train_val_test_steps_partition (ps : params) (trading_period : Z) :
  More.rounds_to_nearest (float_mul ps) (RATIO_TRAIN ps) (IZR trading_period) ->
  More.rounds_to_nearest (float_mul ps) (RATIO_VAL ps) (IZR trading_period) ->
  0 <= RATIO_TRAIN ps -> 0 <= RATIO_VAL ps ->
  RATIO_TRAIN ps + RATIO_VAL ps <= 1 ->
  (0 <= trading_period < 2 ^ 51)%Z ->
  let steps := _get_train_val_test_steps ps trading_period in
  (0 <= train steps)%Z /\ (0 <= validation steps)%Z /\ (0 <= test steps)%Z
  /\ (train steps + validation steps + test steps = trading_period)%Z
  /\ Rabs (IZR (train steps) - RATIO_TRAIN ps * IZR trading_period) < 3 / 2
  /\ Rabs (IZR (validation steps) - RATIO_VAL ps * IZR trading_period) < 3 / 2.
Proof.
  intros Hmula Hmulb Ht Hv Hsum Hp steps.
  unfold steps. cbn [_get_train_val_test_steps train validation test].
  assert (Hn : 0 <= IZR trading_period) by (apply IZR_le; lia).
  pose proof (float_mul_near (float_mul ps) (RATIO_TRAIN ps) trading_period Hmula) as Ea.
  pose proof (float_mul_near (float_mul ps) (RATIO_VAL ps) trading_period Hmulb) as Eb.
  specialize (Ea ltac:(lra) Hp). specialize (Eb ltac:(lra) Hp).
  set (fa := float_mul ps (RATIO_TRAIN ps) (IZR trading_period)) in *.
  set (fb := float_mul ps (RATIO_VAL ps) (IZR trading_period)) in *.
  set (a := RATIO_TRAIN ps * IZR trading_period) in *.
  set (b := RATIO_VAL ps * IZR trading_period) in *.
  assert (Ha : 0 <= a) by (apply Rmult_le_pos; assumption).
  assert (Hb : 0 <= b) by (apply Rmult_le_pos; assumption).
  assert (Hab : a + b <= IZR trading_period) by (unfold a, b; nra).
  apply Rabs_le_bounds in Ea. apply Rabs_le_bounds in Eb.
  destruct (py_int_bounds fa) as (Ha0 & Ha1 & Ha2); [lra|].
  destruct (py_int_bounds fb) as (Hb0 & Hb1 & Hb2); [lra|].
  assert (Hma : Rmax fa 0 <= a + 3 / 8) by (apply Rmax_lub; lra).
  assert (Hmb : Rmax fb 0 <= b + 3 / 8) by (apply Rmax_lub; lra).
  assert (Hle : (py_int fa + py_int fb < trading_period + 1)%Z).
  { apply lt_IZR. rewrite !plus_IZR.
    assert (Hmax : Rmax fa 0 + Rmax fb 0 < IZR trading_period + 1).
    { unfold Rmax. destruct (Rle_dec fa 0), (Rle_dec fb 0); lra. }
    simpl (IZR 1). lra. }
  repeat split; try lia.
  - apply Rabs_def1; lra.
  - apply Rabs_def1; lra.
Qed.

Lemma train_val_test_steps_partition_witness :
  let steps := _get_train_val_test_steps More.split_params 8 in
  (0 <= train steps)%Z /\ (0 <= validation steps)%Z /\ (0 <= test steps)%Z
  /\ (train steps + validation steps + test steps = 8)%Z
  /\ Rabs (IZR (train steps) - RATIO_TRAIN More.split_params * 8) < 3 / 2
  /\ Rabs (IZR (validation steps) - RATIO_VAL More.split_params * 8) < 3 / 2.
Proof.
  assert (Hexact : forall x y, More.rounds_to_nearest Rmult x y).
  { intros x y. unfold More.rounds_to_nearest.
    replace (x * y - x * y) with 0 by ring. rewrite Rabs_R0.
    apply Rplus_le_le_0_compat.
    - apply Rmult_le_pos; [apply Rabs_pos|].
      left. apply Rinv_0_lt_compat, pow_lt. lra.
    - left. apply Rinv_0_lt_compat, pow_lt. lra. }
  apply (train_val_test_steps_partition More.split_params 8).
  - apply Hexact.
  - apply Hexact.
  - cbn. lra.
  - cbn. lra.
  - cbn. lra.
  - lia.
Defined.

(** ** The trading environments *)

Lemma repeat_call_returns {S A} (m : M S A) :
  (forall s, exists a s', m s = (Ok a, s')) ->
  forall n s, exists l s',
      repeat_call n m s = (Ok l, s') /\ List.length l = n.
Proof.
  intros Hm. induction n as [|n IH]; intros s.
  - exists [], s. split; reflexivity.
  - destruct (Hm s) as (a & s1 & Ha).
    destruct (IH s1) as (l & s2 & Hl & Hlen).
    exists (a :: l), s2. cbn [repeat_call]. unfold bind at 1. rewrite Ha.
    unfold bind at 1. rewrite Hl. split; [reflexivity|].
    cbn. now rewrite Hlen.
Qed.

(** X15.  When the price tensor is loaded and [TradeEnv] constructs an
    environment whenever it is called, [_initialize_trade_envs] calls
    [TradeEnv] with one and the same arguments, first for the environment
    of the policy network, then for that of the equally weighted
    portfolio, then for that of the cash, then once per asset that the
    configurations ask for (whatever the number of names the loader
    gave), each call in the state the one before it left; the arguments
    are the tensor, the window length of the configurations and the
    constants of the module (the initial portfolio value among them, not
    that of the configurations).  It returns these environments with the
    arguments, the asset names that the loader gave and the steps of the
    number of periods of the tensor. *)
Theorem initialize_trade_envs_returns
        (dataset env : Type) (ps : params)
        (get_crypto_price_tensors_main :
           Z -> string -> string -> string -> M run_state (dataset * list string))
        (shape_2 : dataset -> Z)
        (TradeEnv : trade_env_args dataset -> M run_state env)
        (cfg : train_configs) (data : dataset) (asset_names : list string)
        (evs evs0 : run_state) :
  get_crypto_price_tensors_main (no_of_assets cfg) (start_date cfg) (end_date cfg)
    (PlotTrainResults.trading_period_length cfg) evs
  = (Ok (data, asset_names), evs0) ->
  (forall args s, exists e s', TradeEnv args s = (Ok e, s')) ->
  let args :=
    {| tea_window_length := window_length cfg;
       tea_portfolio_value := PF_INITIAL_VALUE ps;
       tea_trading_cost := TRADING_COST ps;
       tea_interest_rate := INTEREST_RATE ps;
       tea_train_size := RATIO_TRAIN ps;
       tea_data := data |} in
  exists e1 e2 e3 l evs1 evs2 evs3 evs4,
    TradeEnv args evs0 = (Ok e1, evs1)
    /\ TradeEnv args evs1 = (Ok e2, evs2)
    /\ TradeEnv args evs2 = (Ok e3, evs3)
    /\ repeat_call (Z.to_nat (no_of_assets cfg)) (TradeEnv args) evs3 = (Ok l, evs4)
    /\ List.length l = Z.to_nat (no_of_assets cfg)
    /\ _initialize_trade_envs dataset env ps get_crypto_price_tensors_main shape_2
         TradeEnv cfg evs
       = (Ok ({| env_policy_network := e1;
                 env_equal_weighted := e2;
                 env_only_cash := e3;
                 env_full_on_one_stocks := l;
                 env_args := args |},
              asset_names, _get_train_val_test_steps ps (shape_2 data)), evs4).
Proof.
  intros Hload Henv args.
  destruct (Henv args evs0) as (e1 & s1 & H1).
  destruct (Henv args s1) as (e2 & s2 & H2).
  destruct (Henv args s2) as (e3 & s3 & H3).
  destruct (repeat_call_returns (TradeEnv args) (Henv args)
              (Z.to_nat (no_of_assets cfg)) s3) as (l & s4 & Hl & Hlen).
  exists e1, e2, e3, l, s1, s2, s3, s4.
  repeat (split; [assumption|]).
  unfold _initialize_trade_envs, bind at 1. rewrite Hload.
  fold args. unfold _get_train_environments.
  unfold bind at 1. unfold bind at 1. rewrite H1.
  unfold bind at 1. rewrite H2.
  unfold bind at 1. rewrite H3.
  unfold bind at 1. rewrite Hl. reflexivity.
Qed.

(** With a constructor that returns the arguments it is called with, every
    environment is the arguments above: here for two names loaded and one
    asset asked for. *)
Lemma initialize_trade_envs_returns_witness :
  let args :=
    {| tea_window_length := 77%Z;
       tea_portfolio_value := 10000;
       tea_trading_cost := 0;
       tea_interest_rate := 0;
       tea_train_size := 0;
       tea_data := tt |} in
  _initialize_trade_envs unit (trade_env_args unit) Sample.params
    (fun _ _ _ _ => ret (tt, ["ETH"%string; "XRP"%string])) (fun _ => 4%Z)
    (fun a => ret a) (Sample.configs false) []
  = (Ok ({| env_policy_network := args;
            env_equal_weighted := args;
            env_only_cash := args;
            env_full_on_one_stocks := [args];
            env_args := args |},
         ["ETH"%string; "XRP"%string],
         _get_train_val_test_steps Sample.params 4), []).
Proof.
  intros args.
  destruct (initialize_trade_envs_returns unit (trade_env_args unit) Sample.params
              (fun _ _ _ _ => ret (tt, ["ETH"%string; "XRP"%string]))
              (fun _ => 4%Z) (fun a => ret a) (Sample.configs false)
              tt ["ETH"%string; "XRP"%string] [] [] eq_refl)
    as (e1 & e2 & e3 & l & s1 & s2 & s3 & s4 & H1 & H2 & H3 & Hl & _ & Hrun).
  { intros a s. exists a, s. reflexivity. }
  injection H1 as <- <-. injection H2 as <- <-. injection H3 as <- <-.
  injection Hl as <- <-. exact Hrun.
Defined.

(** ** The plot of the weights *)

(** X16.  When every column of the weights, taken from its second row on,
    has one entry per row of the baseline series but the first,
    [_plot_weight_evolution] draws one line per asset of the list that is
    not named 'BTC', in the order of the list and labelled by the asset,
    over the index of the baseline series without its first entry: no line
    for the cash column, and none for an asset that bears the name of the
    cash. *)
Theorem weight_evolution_lines (rt : runtime) (asset_list : list string)
        (w_list : list (list R)) (btc_price_data : Pd.timeseries) :
  (forall j, (j <= List.length asset_list)%nat ->
             exists col, column_from_1 rt w_list j = Ok col
                         /\ List.length col = List.length (tl btc_price_data)) ->
  exists lines,
    _plot_weight_evolution rt asset_list w_list btc_price_data = Ok lines
    /\ map fst lines = More.drawn_assets asset_list
    /\ Forall (fun line => map fst (snd line) = tl (map fst btc_price_data)) lines.
Proof.
  intros Hcol. unfold _plot_weight_evolution.
  destruct (weight_loop rt (CASH_NAME :: asset_list) w_list btc_price_data)
    with (rest := CASH_NAME :: asset_list) (pre := @nil string)
         (acc := @nil (string * Pd.timeseries))
    as (lines & Hrun & Hn & Hidx).
  - intros j Hj. apply Hcol. cbn in Hj. lia.
  - reflexivity.
  - exists lines. split; [|split; [exact Hn | exact Hidx]].
    rewrite Nat.add_1_r. exact Hrun.
Qed.

Lemma weight_evolution_lines_witness :
  exists lines,
    _plot_weight_evolution Sample.rt ["ETH"%string; "BTC"%string; "XRP"%string]
      More.weights_of_three Sample.rows = Ok lines
    /\ map fst lines = ["ETH"%string; "XRP"%string]
    /\ Forall (fun line => map fst (snd line) = tl (map fst Sample.rows)) lines.
Proof.
  apply (weight_evolution_lines Sample.rt
           ["ETH"%string; "BTC"%string; "XRP"%string]
           More.weights_of_three Sample.rows).
  intros j Hj. cbn in Hj.
  destruct j as [|[|[|[|j]]]]; [| | | |lia];
    (eexists; split; [reflexivity|]; reflexivity).
Defined.

(** ** When a report is made *)




(** ** What a run of [plot_train_results] saves and shows *)

(** X18.  A run of [plot_train_results] that returns has saved one figure,
    to the results path, and has shown it after that exactly when
    [plot_results] is set; the figure carries the training time that the
    run was given.  A run that raises has neither saved nor shown
    anything. *)
Theorem plot_saves_then_shows (rt : runtime) (cfg : train_configs)
        (tr : train_performance) (te : test_performance) (asset_list : list string)
        (secs : R) (steps : train_test_val_steps)
        (evs : list (Plt.event PlotTrainResults.figure)) :
  match plot_train_results rt cfg tr te asset_list secs steps evs with
  | (Ok _, evs') =>
      exists fig,
        evs' = (evs ++ Plt.Savefig (PlotTrainResults.output_path cfg (timestamp_now rt)) fig
                    :: (if PlotTrainResults.plot_results cfg then [Plt.Show] else []))%list
        /\ tp_duration (ax_params fig) = secs
  | (Raise _, evs') => evs' = evs
  end.
Proof.
  unfold plot_train_results, bind, lift.
  destruct (_get_btc_price_data_for_period _ _ _) as [btc|e]; [|reflexivity].
  destruct (_plot_portfolio_value_progress_test _ _) as [ax00|e]; [|reflexivity].
  destruct (_plot_sharpe_table _ _ _) as [ax10|e]; [|reflexivity].
  destruct (_plot_weight_evolution _ _ _ _) as [ax01|e]; [|reflexivity].
  unfold Plt.savefig, Plt.show, modify, ret.
  destruct (PlotTrainResults.plot_results cfg); eexists; split;
    try reflexivity; cbn; now rewrite <- ?app_assoc.
Qed.

(** ** A run of the script *)

(** X19.  Run as a script, once initialisation, training and testing have
    returned: in quick test mode the run returns without a plot, whatever
    the other options; otherwise, in test mode or with the option
    [--plot_results], the run ends in [TypeError] at its call of
    [plot_train_results], and without either it returns. *)
Theorem script_run_outcome
        (dataset env actor state_fu done_fu : Type) (ps : params) (rt : runtime)
        (start_time end_time : R)
        (get_crypto_price_tensors_main :
           Z -> string -> string -> string -> M run_state (dataset * list string))
        (shape_2 : dataset -> Z)
        (TradeEnv : trade_env_args dataset -> M run_state env)
        (train_rl_algorithm :
           train_configs -> trade_envs dataset env -> list string ->
           train_test_val_steps ->
           M run_state (actor * state_fu * done_fu * train_performance))
        (test_rl_algorithm :
           train_configs -> actor -> state_fu -> done_fu -> trade_envs dataset env ->
           train_test_val_steps -> M run_state test_performance)
        (ARGS : Cli.args)
        (envs : trade_envs dataset env) (asset_list : list string)
        (steps : train_test_val_steps)
        (a : actor) (sf : state_fu) (df : done_fu) (tr : train_performance)
        (te : test_performance) (evs evs1 evs2 evs3 : run_state) :
  _initialize_trade_envs dataset env ps get_crypto_price_tensors_main shape_2
    TradeEnv (Cli.main_block_configs ARGS) evs
  = (Ok (envs, asset_list, steps), evs1) ->
  train_rl_algorithm (Cli.main_block_configs ARGS) envs asset_list steps evs1
  = (Ok (a, sf, df, tr), evs2) ->
  test_rl_algorithm (Cli.main_block_configs ARGS) a sf df envs steps evs2
  = (Ok te, evs3) ->
  main dataset env actor state_fu done_fu ps rt start_time end_time
       get_crypto_price_tensors_main shape_2 TradeEnv
       train_rl_algorithm test_rl_algorithm (Cli.main_block_configs ARGS) evs
  = if (negb (Cli.quick_test_mode ARGS)
        && (Cli.test_mode ARGS || Cli.plot_results ARGS))%bool
    then (Raise TypeError, evs3)
    else (Ok tt, evs3).
Proof.
  intros H1 H2 H3.
  rewrite (main_after_testing dataset env actor state_fu done_fu ps rt
             start_time end_time get_crypto_price_tensors_main shape_2 TradeEnv
             train_rl_algorithm test_rl_algorithm (Cli.main_block_configs ARGS)
             envs asset_list steps a sf df tr te evs evs1 evs2 evs3 H1 H2 H3).
  unfold Cli.main_block_configs.
  destruct (Cli.quick_test_mode ARGS), (Cli.test_mode ARGS), (Cli.plot_results ARGS);
    reflexivity.
Qed.

Lemma script_run_outcome_witness :
  Sample.main (Cli.main_block_configs Cli.test_run) [] = (Raise TypeError, []).
Proof.
  unfold Sample.main.
  eapply (script_run_outcome unit unit unit unit unit _ _ _ _ _ _ _ _ _ Cli.test_run);
    reflexivity.
Defined.

(** ** The rounding of the values of the table *)

Lemma rint_error (y : R) : Rabs (IZR (Np.rint y) - y) <= 1 / 2.
Proof.
  unfold Np.rint. pose proof (Zfloor_bound y) as [Hlo Hhi].
  destruct (Rltb (y - IZR (Zfloor y)) (1 / 2)) eqn:E1.
  - apply Rltb_true in E1. apply Rabs_le. lra.
  - apply Rltb_false in E1.
    destruct (Rltb (1 / 2) (y - IZR (Zfloor y))) eqn:E2.
    + rewrite plus_IZR. apply Rabs_le. lra.
    + apply Rltb_false in E2.
      destruct (Z.even (Zfloor y)); [|rewrite plus_IZR]; apply Rabs_le; lra.
Qed.

Lemma round_error (x : R) (ndigits : nat) :
  Rabs (Np.round x ndigits - x) <= / (2 * 10 ^ ndigits).
Proof.
  unfold Np.round.
  assert (Hp : 0 < 10 ^ ndigits) by (apply pow_lt; lra).
  replace (IZR (Np.rint (x * 10 ^ ndigits)) / 10 ^ ndigits - x)
    with ((IZR (Np.rint (x * 10 ^ ndigits)) - x * 10 ^ ndigits) * / 10 ^ ndigits)
    by (field; lra).
  rewrite Rabs_mult, (Rabs_pos_eq (/ 10 ^ ndigits))
    by (left; now apply Rinv_0_lt_compat).
  replace (/ (2 * 10 ^ ndigits)) with (1 / 2 * / 10 ^ ndigits) by (field; lra).
  apply Rmult_le_compat_r; [left; now apply Rinv_0_lt_compat|].
  apply rint_error.
Qed.

(** X20.  The table of [_plot_sharpe_table] has the rows 'DRL', 'Equal
    weight' and 'Long Bitcoin', in this order; the final value it shows in
    a row is within 0.005 of the last value of the list of the row, and
    the Sharpe ratio it shows within 0.0005 of the ratio it was given. *)
Theorem sharpe_table_rounding (te : test_performance) (sharpe : R)
        (ts : Pd.timeseries) (tbl : Plt.table) :
  _plot_sharpe_table te sharpe ts = Ok tbl ->
  exists f1 s1 f2 s2 f3 s3,
    Plt.cellText tbl
    = [ [Plt.Text "DRL"; Plt.NoneCell; Plt.Num f1; Plt.Num s1];
        [Plt.Text "Equal weight"; Plt.NoneCell; Plt.Num f2; Plt.Num s2];
        [Plt.Text "Long Bitcoin"; Plt.NoneCell; Plt.Num f3; Plt.Num s3] ]
    /\ Rabs (f1 - last (p_list te) 0) <= 5 / 1000
    /\ Rabs (f2 - last (p_list_eq te) 0) <= 5 / 1000
    /\ Rabs (f3 - last (map snd ts) 0) <= 5 / 1000
    /\ Rabs (s1 - sharpe_ratios_p_list te) <= 5 / 10000
    /\ Rabs (s2 - sharpe_ratios_p_list_eq te) <= 5 / 10000
    /\ Rabs (s3 - sharpe) <= 5 / 10000.
Proof.
  unfold _plot_sharpe_table.
  rewrite (getitem_last_outcome (p_list te) 0),
          (getitem_last_outcome (p_list_eq te) 0),
          (getitem_last_outcome (map snd ts) 0).
  destruct (p_list te) as [|p ps]; [discriminate|].
  destruct (p_list_eq te) as [|q qs]; [discriminate|].
  destruct (map snd ts) as [|v vs]; [discriminate|].
  cbn [obind]. intros [= <-].
  assert (E2 : / (2 * 10 ^ 2) = 5 / 1000) by (simpl; field).
  assert (E3 : / (2 * 10 ^ 3) = 5 / 10000) by (simpl; field).
  do 6 eexists. split; [reflexivity|].
  rewrite <- E2, <- E3. repeat split; apply round_error.
Qed.

Lemma sharpe_table_rounding_witness :
  exists tbl f1 s1 f2 s2 f3 s3,
    _plot_sharpe_table Sample.test_lists (2 / 3) Sample.rows = Ok tbl
    /\ Plt.cellText tbl
       = [ [Plt.Text "DRL"; Plt.NoneCell; Plt.Num f1; Plt.Num s1];
           [Plt.Text "Equal weight"; Plt.NoneCell; Plt.Num f2; Plt.Num s2];
           [Plt.Text "Long Bitcoin"; Plt.NoneCell; Plt.Num f3; Plt.Num s3] ]
    /\ Rabs (s3 - 2 / 3) <= 5 / 10000.
Proof.
  eexists.
  destruct (sharpe_table_rounding Sample.test_lists (2 / 3) Sample.rows _ eq_refl)
    as (f1 & s1 & f2 & s2 & f3 & s3 & Hrows & _ & _ & _ & _ & _ & Hs3).
  exists f1, s1, f2, s2, f3, s3.
  split; [reflexivity|]. split; [exact Hrows | exact Hs3].
Defined.

(** ** The head of the report *)

Lemma replace_char_length (old new : ascii) (s : string) :
  String.length (Os.replace_char old new s) = String.length s.
Proof. induction s as [|c s IH]; cbn; [reflexivity | now rewrite IH]. Qed.

Lemma replace_char_removes (old new : ascii) (s : string) :
  old <> new -> More.occurs old (Os.replace_char old new s) = false.
Proof.
  intros Hne. induction s as [|c s IH]; cbn; [reflexivity|].
  rewrite IH, orb_false_r.
  destruct (Ascii.eqb c old) eqn:E.
  - apply Ascii.eqb_neq. exact Hne.
  - apply Ascii.eqb_neq. apply Ascii.eqb_neq in E. congruence.
Qed.

Lemma occurs_app (c : ascii) (s t : string) :
  More.occurs c (s ++ t) = (More.occurs c s || More.occurs c t)%bool.
Proof.
  induction s as [|c' s IH]; cbn; [reflexivity|].
  now rewrite IH, orb_assoc.
Qed.

(** X21.  In the report of a session whose history file is read and whose
    runs all have initial weights, the title is '[Simulation statistics] '
    followed by the session name with every underscore replaced by a
    space, so that no underscore is left in it, and the number of assets
    shown is that of the asset list of the first run that passed the
    filter, whatever the asset lists of the other runs. *)
Theorem report_head
        (open_read : string -> outcome string)
        (json_load : string -> outcome history)
        (session_name text : string) (h : history)
        (fk : string) (first : session_stats) (rest : history)
        (evs : list (Plt.event MakeTrainHistograms.figure)) :
  open_read (json_path session_name) = Ok text ->
  json_load text = Ok h ->
  dict_wf h ->
  filter (fun item => Spec.keeps (snd item)) h = (fk, first) :: rest ->
  (forall timestamp run, In (timestamp, run) h -> initial_weights run <> []) ->
  exists fig,
    make_train_histograms open_read json_load session_name evs
    = (Ok tt, evs ++ [Plt.Savefig (MakeTrainHistograms.output_path session_name) fig])
    /\ mt_title (fig_tables fig)
       = ("[Simulation statistics] " ++ Os.replace_char "_" " " session_name)%string
    /\ String.length (mt_title (fig_tables fig)) = (24 + String.length session_name)%nat
    /\ More.occurs "_" (mt_title (fig_tables fig)) = false
    /\ nth_error (Plt.cellText (crypto_table (fig_tables fig))) 1
       = Some [Plt.Text "No. of assets"; Plt.Count (List.length (asset_list first))].
Proof.
  intros Hopen Hjson Hwf Hkept Hw.
  assert (Hfh : filter_history_dict h = (fk, first) :: rest).
  { now rewrite (filter_history_dict_filter h Hwf). }
  destruct (aggregate_returns (filter_history_dict h)) as [bs Hbs].
  { rewrite Hfh. discriminate. }
  { intros timestamp run Hin. apply (Hw timestamp run).
    rewrite (filter_history_dict_filter h Hwf) in Hin.
    apply filter_In in Hin. tauto. }
  assert (Hassets : bs_asset_list bs = asset_list first).
  { destruct (aggregate_is_loop fk first rest)
      as (init & E & _ & _ & _ & _ & _ & _ & _ & _ & _ & _ & _ & _ & Hinit).
    pose proof Hbs as Hbs'.
    rewrite Hfh, E in Hbs'. apply aggregate_loop_keeps in Hbs'.
    destruct Hbs' as (_ & Hb & _). now rewrite Hb. }
  destruct (report_saves open_read json_load session_name text h bs evs
              Hopen Hjson Hbs) as (fig & Hrun & Htab).
  exists fig. split; [exact Hrun|]. rewrite Htab.
  cbn [mt_title _plot_histogram_metadata_table crypto_table Plt.cellText].
  split; [reflexivity|].
  split.
  { change ("[Simulation statistics] " ++ Os.replace_char "_" " " session_name)%string
      with (String.append "[Simulation statistics] " (Os.replace_char "_" " " session_name)).
    cbn [String.append String.length]. now rewrite replace_char_length. }
  split.
  { rewrite occurs_app, replace_char_removes by discriminate. reflexivity. }
  cbn. now rewrite Hassets.
Qed.

Lemma report_head_witness :
  exists fig,
    make_train_histograms Sample.open_read Sample.json_load "demo" []
    = (Ok tt, [Plt.Savefig (MakeTrainHistograms.output_path "demo") fig])
    /\ mt_title (fig_tables fig) = "[Simulation statistics] demo"%string
    /\ nth_error (Plt.cellText (crypto_table (fig_tables fig))) 1
       = Some [Plt.Text "No. of assets";
               Plt.Count (List.length (asset_list (Sample.run 5 [0; 0])))].
Proof.
  assert (Hkept : filter (fun item => Spec.keeps (snd item)) Sample.history4
                  = ("2019-05-01_10:00:00"%string, Sample.run 5 [0; 0])
                      :: [("2019-05-01_12:00:00"%string, Sample.run 7 [0; 0])]).
  { unfold Sample.history4. cbn [filter snd].
    now rewrite !sample_keeps_zero, sample_rejects_negative, sample_rejects_huge. }
  destruct (report_head Sample.open_read Sample.json_load "demo" "history4"
              Sample.history4 _ _ _ [] eq_refl eq_refl sample_history4_wf Hkept)
    as (fig & Hrun & Htitle & _ & _ & Hassets).
  { intros timestamp run [E|[E|[E|[E|[]]]]]; injection E as _ <-; discriminate. }
  exists fig. split; [exact Hrun|]. split; [exact Htitle | exact Hassets].
Defined.

(** ** The plot of the train set *)

(** X22.  [_plot_portfolio_value_progress_train] returns exactly when each
    of the two train lists has one value per row of the baseline series;
    its two lines are then the lists over the index of the series; and
    when it raises, it raises [ValueError]. *)
Theorem train_progress_returns_iff (tr : train_performance)
        (btc_price_data : Pd.timeseries) :
  ((exists plot,
       Scripts._plot_portfolio_value_progress_train tr btc_price_data = Ok plot)
   <-> List.length (policy_network tr) = List.length btc_price_data
       /\ List.length (equal_weighted tr) = List.length btc_price_data)
  /\ (forall plot,
         Scripts._plot_portfolio_value_progress_train tr btc_price_data = Ok plot ->
         map snd (Scripts.train_agent_line plot) = policy_network tr
         /\ map snd (Scripts.train_equally_weighted_line plot) = equal_weighted tr
         /\ map fst (Scripts.train_agent_line plot) = map fst btc_price_data
         /\ map fst (Scripts.train_equally_weighted_line plot) = map fst btc_price_data)
  /\ (forall e,
         Scripts._plot_portfolio_value_progress_train tr btc_price_data = Raise e ->
         e = ValueError).
Proof.
  unfold Scripts._plot_portfolio_value_progress_train, Pd.mk_series.
  rewrite !length_map.
  destruct (Nat.eqb_spec (List.length (policy_network tr)) (List.length btc_price_data))
    as [E1|N1]; cbn [obind].
  - destruct (Nat.eqb_spec (List.length (equal_weighted tr)) (List.length btc_price_data))
      as [E2|N2]; cbn [obind].
    + split; [split; [tauto | intros _; eexists; reflexivity]|].
      split; [|intros e H; discriminate].
      intros plot [= <-]. cbn [Scripts.train_agent_line Scripts.train_equally_weighted_line].
      assert (L1 : List.length (map fst btc_price_data) = List.length (policy_network tr))
        by now rewrite length_map.
      assert (L2 : List.length (map fst btc_price_data) = List.length (equal_weighted tr))
        by now rewrite length_map.
      now rewrite !snd_combine, !fst_combine.
    + split; [split; [intros [plot H]; discriminate | tauto]|].
      split; [intros plot H; discriminate | now intros e [= <-]].
  - split; [split; [intros [plot H]; discriminate | tauto]|].
    split; [intros plot H; discriminate | now intros e [= <-]].
Qed.

(** ** When the plot of the results is made *)

(** X23.  [plot_train_results] returns, having saved its figure, when the
    price file is read, its test segment has at least two rows, each of
    the two test lists has one value per row of the segment, and every
    column of the weights has, from its second row on, one entry per row
    of the segment but the first.  The figure then shows the two test
    lists and the baseline over the dates of the segment, and one line of
    weights per asset that is not named 'BTC'. *)
Theorem plot_train_results_returns (rt : runtime) (cfg : train_configs)
        (steps : train_test_val_steps) (data : list (Z * R))
        (tr : train_performance) (te : test_performance) (asset_list : list string)
        (secs : R) (evs : list (Plt.event PlotTrainResults.figure)) :
  (0 <= train steps + validation steps)%Z ->
  read_csv rt (btc_price_fp cfg) = Ok data ->
  (2 <= List.length (Spec.test_segment steps data))%nat ->
  List.length (p_list te) = List.length (Spec.test_segment steps data) ->
  List.length (p_list_eq te) = List.length (Spec.test_segment steps data) ->
  (forall j, (j <= List.length asset_list)%nat ->
             exists col,
               column_from_1 rt (w_list te) j = Ok col
               /\ Datatypes.S (List.length col)
                  = List.length (Spec.test_segment steps data)) ->
  exists fig,
    plot_train_results rt cfg tr te asset_list secs steps evs
    = (Ok tt,
       (evs ++ Plt.Savefig (PlotTrainResults.output_path cfg (timestamp_now rt)) fig
            :: (if PlotTrainResults.plot_results cfg then [Plt.Show] else []))%list)
    /\ map snd (agent_line (ax_value fig)) = p_list te
    /\ map snd (equally_weighted_line (ax_value fig)) = p_list_eq te
    /\ map snd (btc_only_line (ax_value fig))
       = Spec.baseline (portfolio_value cfg) (map snd (Spec.test_segment steps data))
    /\ map fst (agent_line (ax_value fig))
       = map (fun row => (fst row + 7200)%Z) (Spec.test_segment steps data)
    /\ map fst (ax_weights fig) = More.drawn_assets asset_list.
Proof.
  intros Hsteps Hread Hlen Hp Hq Hcol.
  pose proof (btc_period_exact rt cfg steps data Hsteps Hread Hlen) as Hok.
  cbn zeta in Hok.
  set (segment := Spec.test_segment steps data) in *.
  set (vals := Spec.baseline (portfolio_value cfg) (map snd segment)) in *.
  set (dates := map (fun row : Z * R => (fst row + 7200)%Z) segment) in *.
  assert (Hdv : List.length dates = List.length vals).
  { unfold dates, vals. now rewrite baseline_length, !length_map. }
  assert (Hts : List.length (combine dates vals) = List.length segment).
  { rewrite length_combine, <- Hdv, Nat.min_id. unfold dates. now rewrite length_map. }
  assert (Hne : forall (A : Type) (l : list A),
             List.length l = List.length segment -> l <> []).
  { intros A l Hl ->. cbn in Hl. lia. }
  destruct (sharpe_table_ok te ((last vals 0 - portfolio_value cfg) / Np.std vals)
              (combine dates vals)) as [tbl Htbl]; try (apply Hne; assumption).
  destruct (weight_loop rt (CASH_NAME :: asset_list) (w_list te) (combine dates vals))
    with (rest := CASH_NAME :: asset_list) (pre := @nil string)
         (acc := @nil (string * Pd.timeseries))
    as (lines & Hrun & Hn & _).
  { intros j Hj. destruct (Hcol j) as (col & Hc & Hl); [cbn in Hj; lia|].
    exists col. split; [exact Hc|].
    destruct (combine dates vals); cbn in *; lia. }
  { reflexivity. }
  unfold plot_train_results, bind, lift. rewrite Hok. cbn [fst snd].
  rewrite (value_plot_ok te (combine dates vals)) by congruence.
  rewrite Htbl. unfold _plot_weight_evolution. rewrite Nat.add_1_r.
  cbn [List.length app] in Hrun. rewrite Hrun.
  unfold Plt.savefig, Plt.show, modify, ret.
  assert (Hfst : map fst (combine dates vals) = dates) by now apply fst_combine.
  destruct (PlotTrainResults.plot_results cfg); eexists;
    (split; [cbn; rewrite <- ?app_assoc; reflexivity|]);
    cbn [ax_value ax_weights agent_line equally_weighted_line btc_only_line];
    rewrite Hfst;
    (split; [apply snd_combine; unfold dates; rewrite length_map; congruence|]);
    (split; [apply snd_combine; unfold dates; rewrite length_map; congruence|]);
    (split; [now apply snd_combine|]);
    (split; [apply fst_combine; unfold dates; rewrite length_map; congruence|]);
    exact Hn.
Qed.

Lemma plot_train_results_returns_witness :
  exists fig,
    plot_train_results Sample.rt (Sample.configs true) Sample.train_lists
      Sample.test_lists ["ETH"%string] 12 Sample.steps []
    = (Ok tt,
       [Plt.Savefig (PlotTrainResults.output_path (Sample.configs true)
                       (timestamp_now Sample.rt)) fig;
        Plt.Show])
    /\ map snd (btc_only_line (ax_value fig)) = Spec.baseline 1 [1; 2; 5; 2]
    /\ map fst (ax_weights fig) = ["ETH"%string].
Proof.
  destruct (plot_train_results_returns Sample.rt (Sample.configs true) Sample.steps
              Sample.rows Sample.train_lists Sample.test_lists ["ETH"%string] 12 [])
    as (fig & Hrun & _ & _ & Hbtc & _ & Hw).
  - cbn. lia.
  - reflexivity.
  - rewrite sample_segment. cbn. lia.
  - rewrite sample_segment. reflexivity.
  - rewrite sample_segment. reflexivity.
  - intros j Hj. cbn in Hj. rewrite sample_segment.
    destruct j as [|[|j]]; [| |lia]; (eexists; split; [reflexivity|]; reflexivity).
  - exists fig. split; [exact Hrun|]. split; [|exact Hw].
    rewrite Hbtc, sample_segment. reflexivity.
Defined.
